(** * Paper-trading core of openalgo: ledger, matching engine, mode resolution

    Shallow embedding of
      - [src/database/paper_trading_db.py]   (the persisted rows, account
        creation and reset, the generated identifiers),
      - [src/services/paper_trading/order_matching_engine.py],
      - [src/services/paper_trading/market_data_feed.py] (the retry helper
        and the extraction of a price from a quotes response),
      - [src/services/trading_service_factory.py] (mode resolution and the
        instance cache),
      - [src/services/paper_trading_service.py] ([place_order],
        [close_position], [cancel_all_orders]).

    Conventions of the embedding.
      - A Python [Decimal] is an exact rational ([Q]); results are compared
        with [==].  The 28-digit context of [decimal] and the rounding of the
        NUMERIC columns when a row is reloaded are outside the model.
      - The SQLAlchemy session is a record of four tables, each a list of
        rows in insertion order; [query(...).filter(...).first()] is [find],
        an attribute assignment on the object returned by a query rewrites
        the first row the same filter selects.
      - The [order] argument of the engine is an object attached to the
        session: assigning its attributes rewrites its row (the row with its
        [order_id]) as well as the value handed back to the caller.
      - [datetime.utcnow()] and [generate_trade_id()] are read from an
        environment record; the price feed is a state-passing interface.
      - No operation of the model raises, so the [except] handlers of the
        source (roll back, reject with the error text) are never entered. *)

From Stdlib Require Import ZArith QArith Bool List String Ascii Lia Lqa.
From Stdlib Require Import NArith DecimalString.
Import ListNotations.

Local Open Scope string_scope.
Local Open Scope Z_scope.

(** ** Python values *)

(** [==] on Python strings. *)
Infix "=s" := String.eqb (at level 70, no associativity).

(** [decimal.Decimal]. *)
Abbreviation Decimal := Q (only parsing).
Definition Timestamp : Type := nat.

(** [a < b], [a <= b], [a >= b] on [Decimal], as booleans. *)
Definition Dle (a b : Decimal) : bool := Qle_bool a b.
Definition Dlt (a b : Decimal) : bool := negb (Qle_bool b a).
Definition Dge (a b : Decimal) : bool := Qle_bool b a.

(** Truth value of a [Decimal]: zero is falsy. *)
Definition Decimal_truthy (d : Decimal) : bool := negb (Qeq_bool d 0).

(** [Decimal * int]. *)
Definition Dmul_int (p : Decimal) (n : Z) : Decimal := (p * inject_Z n)%Q.

(** ** Rows of the paper-trading database *)

Record PaperAccount := mkPaperAccount {
  acc_user_id : string;
  acc_initial_balance : Decimal;
  acc_current_balance : Decimal;
  acc_currency : string;
  acc_is_active : bool
}.

Record PaperOrder := mkPaperOrder {
  ord_user_id : string;
  ord_order_id : string;
  ord_symbol : string;
  ord_exchange : string;
  ord_action : string;
  ord_product : string;
  ord_price_type : string;
  ord_quantity : Z;
  ord_price : option Decimal;
  ord_trigger_price : option Decimal;
  ord_status : string;
  ord_filled_quantity : Z;
  ord_average_price : option Decimal;
  ord_filled_timestamp : option Timestamp;
  ord_cancelled_timestamp : option Timestamp;
  ord_rejection_reason : option string
}.

Record PaperPosition := mkPaperPosition {
  pos_user_id : string;
  pos_symbol : string;
  pos_exchange : string;
  pos_product : string;
  pos_quantity : Z;
  pos_average_price : Decimal;
  pos_realized_pnl : Decimal
}.

Record PaperTrade := mkPaperTrade {
  trd_user_id : string;
  trd_order_id : string;
  trd_trade_id : string;
  trd_symbol : string;
  trd_exchange : string;
  trd_action : string;
  trd_product : string;
  trd_quantity : Z;
  trd_price : Decimal;
  trd_trade_value : Decimal;
  trd_brokerage : Decimal;
  trd_taxes : Decimal;
  trd_net_value : Decimal
}.

(** [PaperTrade(...)] as [_fill_order] calls it: [brokerage] and [taxes] are
    not passed and take their column default [0.00]. *)
Definition new_PaperTrade (user_id order_id trade_id symbol exchange action product : string)
    (quantity : Z) (price trade_value net_value : Decimal) : PaperTrade :=
  {| trd_user_id := user_id; trd_order_id := order_id; trd_trade_id := trade_id;
     trd_symbol := symbol; trd_exchange := exchange; trd_action := action;
     trd_product := product; trd_quantity := quantity; trd_price := price;
     trd_trade_value := trade_value; trd_brokerage := 0%Q; trd_taxes := 0%Q;
     trd_net_value := net_value |}.

(** [PaperPosition(...)] as [_update_position] calls it: [realized_pnl] takes
    its column default [0.00]. *)
Definition new_PaperPosition (user_id symbol exchange product : string)
    (quantity : Z) (average_price : Decimal) : PaperPosition :=
  {| pos_user_id := user_id; pos_symbol := symbol; pos_exchange := exchange;
     pos_product := product; pos_quantity := quantity;
     pos_average_price := average_price; pos_realized_pnl := 0%Q |}.

(** ** The session *)

Record Session := mkSession {
  accounts : list PaperAccount;
  orders : list PaperOrder;
  positions : list PaperPosition;
  trades : list PaperTrade
}.

Definition set_accounts (s : Session) (l : list PaperAccount) : Session :=
  {| accounts := l; orders := orders s; positions := positions s; trades := trades s |}.
Definition set_orders (s : Session) (l : list PaperOrder) : Session :=
  {| accounts := accounts s; orders := l; positions := positions s; trades := trades s |}.
Definition set_positions (s : Session) (l : list PaperPosition) : Session :=
  {| accounts := accounts s; orders := orders s; positions := l; trades := trades s |}.
Definition set_trades (s : Session) (l : list PaperTrade) : Session :=
  {| accounts := accounts s; orders := orders s; positions := positions s; trades := l |}.

(** Rewrite the first row selected by [sel]. *)
Fixpoint update_first {A : Type} (sel : A -> bool) (f : A -> A) (l : list A) : list A :=
  match l with
  | [] => []
  | x :: r => if sel x then f x :: r else x :: update_first sel f r
  end.

(** Delete the first row selected by [sel]. *)
Fixpoint delete_first {A : Type} (sel : A -> bool) (l : list A) : list A :=
  match l with
  | [] => []
  | x :: r => if sel x then r else x :: delete_first sel r
  end.

(** [filter_by(user_id=...)] on accounts. *)
Definition account_of (user_id : string) (a : PaperAccount) : bool :=
  acc_user_id a =s user_id.

Definition query_account (s : Session) (user_id : string) : option PaperAccount :=
  find (account_of user_id) (accounts s).

(** The filter of [_update_position]: the four key columns of a position. *)
Definition position_of (user_id symbol exchange product : string) (p : PaperPosition) : bool :=
  (pos_user_id p =s user_id) && (pos_symbol p =s symbol) &&
  (pos_exchange p =s exchange) && (pos_product p =s product).

Definition query_position (s : Session) (user_id symbol exchange product : string)
  : option PaperPosition :=
  find (position_of user_id symbol exchange product) (positions s).

Definition order_with_id (order_id : string) (o : PaperOrder) : bool :=
  ord_order_id o =s order_id.

Definition query_order (s : Session) (order_id : string) : option PaperOrder :=
  find (order_with_id order_id) (orders s).

(** Attribute writes on the [order] object reach its row. *)
Definition persist_order (s : Session) (o : PaperOrder) : Session :=
  set_orders s (update_first (order_with_id (ord_order_id o)) (fun _ => o) (orders s)).

(** ** Attribute assignments on an order *)

Definition mark_filled (o : PaperOrder) (fill_quantity : Z) (fill_price : Decimal)
    (now : Timestamp) : PaperOrder :=
  {| ord_user_id := ord_user_id o; ord_order_id := ord_order_id o;
     ord_symbol := ord_symbol o; ord_exchange := ord_exchange o;
     ord_action := ord_action o; ord_product := ord_product o;
     ord_price_type := ord_price_type o; ord_quantity := ord_quantity o;
     ord_price := ord_price o; ord_trigger_price := ord_trigger_price o;
     ord_status := "FILLED";
     ord_filled_quantity := fill_quantity;
     ord_average_price := Some fill_price;
     ord_filled_timestamp := Some now;
     ord_cancelled_timestamp := ord_cancelled_timestamp o;
     ord_rejection_reason := ord_rejection_reason o |}.

Definition mark_rejected (o : PaperOrder) (reason : string) : PaperOrder :=
  {| ord_user_id := ord_user_id o; ord_order_id := ord_order_id o;
     ord_symbol := ord_symbol o; ord_exchange := ord_exchange o;
     ord_action := ord_action o; ord_product := ord_product o;
     ord_price_type := ord_price_type o; ord_quantity := ord_quantity o;
     ord_price := ord_price o; ord_trigger_price := ord_trigger_price o;
     ord_status := "REJECTED";
     ord_filled_quantity := ord_filled_quantity o;
     ord_average_price := ord_average_price o;
     ord_filled_timestamp := ord_filled_timestamp o;
     ord_cancelled_timestamp := ord_cancelled_timestamp o;
     ord_rejection_reason := Some reason |}.

Definition mark_cancelled (o : PaperOrder) (now : Timestamp) : PaperOrder :=
  {| ord_user_id := ord_user_id o; ord_order_id := ord_order_id o;
     ord_symbol := ord_symbol o; ord_exchange := ord_exchange o;
     ord_action := ord_action o; ord_product := ord_product o;
     ord_price_type := ord_price_type o; ord_quantity := ord_quantity o;
     ord_price := ord_price o; ord_trigger_price := ord_trigger_price o;
     ord_status := "CANCELLED";
     ord_filled_quantity := ord_filled_quantity o;
     ord_average_price := ord_average_price o;
     ord_filled_timestamp := ord_filled_timestamp o;
     ord_cancelled_timestamp := Some now;
     ord_rejection_reason := ord_rejection_reason o |}.

Definition set_position_fields (p : PaperPosition) (quantity : Z) (average_price : Decimal)
  : PaperPosition :=
  {| pos_user_id := pos_user_id p; pos_symbol := pos_symbol p;
     pos_exchange := pos_exchange p; pos_product := pos_product p;
     pos_quantity := quantity; pos_average_price := average_price;
     pos_realized_pnl := pos_realized_pnl p |}.

Definition set_current_balance (a : PaperAccount) (b : Decimal) : PaperAccount :=
  {| acc_user_id := acc_user_id a; acc_initial_balance := acc_initial_balance a;
     acc_current_balance := b; acc_currency := acc_currency a;
     acc_is_active := acc_is_active a |}.

(** ** What the engine reads from outside *)

Record Env := mkEnv {
  utcnow : Timestamp;
  generate_trade_id : string
}.

(** The result of handling one order: the session after the call, the order
    object after the call, and the boolean the method returns. *)
Record Outcome := mkOutcome {
  session_of : Session;
  order_of : PaperOrder;
  handled : bool
}.

(** ** MarketDataFeed

    [get_live_price] consults a cache and a broker API; both are outside the
    engine, so the feed is an interface over an abstract feed state, and
    [get_price_with_retry] is the loop of the source over that interface
    (the sleeps between attempts are not modelled). *)

Class MarketDataFeed (F : Type) := {
  get_live_price : F -> string -> string -> option Decimal * F
}.

Section FeedRetry.
Context {F : Type} `{MarketDataFeed F}.

(** [for attempt in range(n)]: the first price that is not [None]. *)
Fixpoint retry_loop (n : nat) (f : F) (symbol exchange : string) : option Decimal * F :=
  match n with
  | O => (None, f)
  | S k =>
      match get_live_price f symbol exchange with
      | (Some price, f') => (Some price, f')
      | (None, f') => retry_loop k f' symbol exchange
      end
  end.

Definition get_price_with_retry (f : F) (symbol exchange : string) (max_retries : nat)
  : option Decimal * F :=
  retry_loop max_retries f symbol exchange.

(** The default [max_retries=3]. *)
Definition default_max_retries : nat := 3.
End FeedRetry.

(** A feed that replays a script: the k-th call of [get_live_price] answers
    with the k-th entry, and [None] once the script is used up.  It stands for
    the external price source when the model is run on concrete inputs. *)
Definition ScriptedFeed : Type := list (option Decimal).

#[export] Instance scripted_feed : MarketDataFeed ScriptedFeed := {
  get_live_price f _ _ :=
    match f with
    | [] => (None, [])
    | answer :: rest => (answer, rest)
    end
}.

(** ** OrderMatchingEngine *)

Module OrderMatchingEngine.

(** [_reject_order(order, reason)]. *)
Definition _reject_order (s : Session) (order : PaperOrder) (reason : string)
  : Session * PaperOrder :=
  let order' := mark_rejected order reason in
  (persist_order s order', order').

(** [_update_position(order, fill_price, fill_quantity)]. *)
Definition _update_position (s : Session) (order : PaperOrder)
    (fill_price : Decimal) (fill_quantity : Z) : Session :=
  let sel := position_of (ord_user_id order) (ord_symbol order)
                         (ord_exchange order) (ord_product order) in
  let quantity_change :=
    if ord_action order =s "BUY" then fill_quantity else - fill_quantity in
  match find sel (positions s) with
  | Some position =>
      let old_quantity := pos_quantity position in
      let new_quantity := old_quantity + quantity_change in
      if new_quantity =? 0 then
        set_positions s (delete_first sel (positions s))
      else
        let average_price :=
          if ((old_quantity >? 0) && (quantity_change >? 0))
             || ((old_quantity <? 0) && (quantity_change <? 0)) then
            let total_value :=
              (Dmul_int (pos_average_price position) (Z.abs old_quantity)
               + Dmul_int fill_price (Z.abs quantity_change))%Q in
            let total_quantity := Z.abs old_quantity + Z.abs quantity_change in
            (total_value / inject_Z total_quantity)%Q
          else if Z.abs new_quantity <? Z.abs old_quantity then
            pos_average_price position
          else
            fill_price in
        set_positions s
          (update_first sel (fun p => set_position_fields p new_quantity average_price)
                        (positions s))
  | None =>
      if negb (quantity_change =? 0) then
        set_positions s
          (positions s ++
           [new_PaperPosition (ord_user_id order) (ord_symbol order)
                              (ord_exchange order) (ord_product order)
                              quantity_change fill_price])
      else s
  end.

(** [_update_account_balance(order, fill_price, fill_quantity)]. *)
Definition _update_account_balance (s : Session) (order : PaperOrder)
    (fill_price : Decimal) (fill_quantity : Z) : Session :=
  let sel := account_of (ord_user_id order) in
  match find sel (accounts s) with
  | Some account =>
      let trade_value := Dmul_int fill_price fill_quantity in
      if ord_action order =s "BUY" then
        set_accounts s
          (update_first sel
             (fun a => set_current_balance a (acc_current_balance a - trade_value)%Q)
             (accounts s))
      else
        set_accounts s
          (update_first sel
             (fun a => set_current_balance a (acc_current_balance a + trade_value)%Q)
             (accounts s))
  | None => s
  end.

(** The guard of [_fill_order] for BUY orders:
    [not account or account.current_balance < required_funds]. *)
Definition insufficient_funds (s : Session) (order : PaperOrder)
    (fill_price : Decimal) (fill_quantity : Z) : bool :=
  let required_funds := Dmul_int fill_price fill_quantity in
  match query_account s (ord_user_id order) with
  | None => true
  | Some account => Dlt (acc_current_balance account) required_funds
  end.

(** [_fill_order(order, fill_price, fill_quantity)]. *)
Definition _fill_order (s : Session) (env : Env) (order : PaperOrder)
    (fill_price : Decimal) (fill_quantity : Z) : Outcome :=
  if (ord_action order =s "BUY") && insufficient_funds s order fill_price fill_quantity then
    let '(s', order') := _reject_order s order "Insufficient funds" in
    mkOutcome s' order' true
  else
    let order1 := mark_filled order fill_quantity fill_price (utcnow env) in
    let s1 := persist_order s order1 in
    let trade :=
      new_PaperTrade (ord_user_id order1) (ord_order_id order1) (generate_trade_id env)
                     (ord_symbol order1) (ord_exchange order1) (ord_action order1)
                     (ord_product order1) fill_quantity fill_price
                     (Dmul_int fill_price fill_quantity)
                     (Dmul_int fill_price fill_quantity) in
    let s2 := set_trades s1 (trades s1 ++ [trade]) in
    let s3 := _update_position s2 order1 fill_price fill_quantity in
    let s4 := _update_account_balance s3 order1 fill_price fill_quantity in
    mkOutcome s4 order1 true.

(** [cancel_order(order_id)]: the query filters on [order_id] and
    [status='PENDING'] together. *)
Definition pending_with_id (order_id : string) (o : PaperOrder) : bool :=
  (ord_order_id o =s order_id) && (ord_status o =s "PENDING").

Definition cancel_order (s : Session) (env : Env) (order_id : string) : Session * bool :=
  match find (pending_with_id order_id) (orders s) with
  | Some _ =>
      (set_orders s
         (update_first (pending_with_id order_id)
                       (fun o => mark_cancelled o (utcnow env)) (orders s)),
       true)
  | None => (s, false)
  end.

(** The rows [query(PaperOrder).filter_by(status='PENDING')] selects. *)
Definition is_pending (o : PaperOrder) : bool := ord_status o =s "PENDING".

(** [get_pending_orders_count(user_id)]: [if user_id:] skips the user filter
    for [None] and for the empty string. *)
Definition get_pending_orders_count (s : Session) (user_id : option string) : nat :=
  let query := filter is_pending (orders s) in
  match user_id with
  | None => List.length query
  | Some u =>
      if u =s "" then List.length query
      else List.length (filter (fun o => ord_user_id o =s u) query)
  end.

Section Matching.
Context {F : Type} `{MarketDataFeed F}.

Definition pending (s : Session) (order : PaperOrder) : Outcome :=
  mkOutcome s order false.

Definition rejected (s : Session) (order : PaperOrder) (reason : string) : Outcome :=
  let '(s', order') := _reject_order s order reason in
  mkOutcome s' order' true.

(** [_process_market_order(order)]. *)
Definition _process_market_order (f : F) (s : Session) (env : Env) (order : PaperOrder)
  : F * Outcome :=
  let '(current_price, f') :=
    get_price_with_retry f (ord_symbol order) (ord_exchange order) default_max_retries in
  match current_price with
  | None => (f', rejected s order "Unable to get current market price")
  | Some current_price =>
      (f', _fill_order s env order current_price (ord_quantity order))
  end.

(** [_process_limit_order(order)]. *)
Definition _process_limit_order (f : F) (s : Session) (env : Env) (order : PaperOrder)
  : F * Outcome :=
  match ord_price order with
  | None => (f, rejected s order "Limit order missing price")
  | Some price =>
      let '(current_price, f') :=
        get_live_price f (ord_symbol order) (ord_exchange order) in
      match current_price with
      | None => (f', pending s order)
      | Some current_price =>
          let should_fill :=
            if ord_action order =s "BUY" then Dle current_price price
            else if ord_action order =s "SELL" then Dge current_price price
            else false in
          if should_fill then
            (f', _fill_order s env order price (ord_quantity order))
          else (f', pending s order)
      end
  end.

(** [_process_stop_loss_order(order)]. *)
Definition _process_stop_loss_order (f : F) (s : Session) (env : Env) (order : PaperOrder)
  : F * Outcome :=
  match ord_trigger_price order with
  | None => (f, rejected s order "Stop-loss order missing trigger price")
  | Some trigger_price =>
      let '(current_price, f') :=
        get_live_price f (ord_symbol order) (ord_exchange order) in
      match current_price with
      | None => (f', pending s order)
      | Some current_price =>
          let should_trigger :=
            if ord_action order =s "BUY" then Dge current_price trigger_price
            else if ord_action order =s "SELL" then Dle current_price trigger_price
            else false in
          if should_trigger then
            let execution_price :=
              if ord_price_type order =s "SL" then
                match ord_price order with
                | Some price => if Decimal_truthy price then price else current_price
                | None => current_price
                end
              else current_price in
            (f', _fill_order s env order execution_price (ord_quantity order))
          else (f', pending s order)
      end
  end.

(** [process_order(order)]. *)
Definition process_order (f : F) (s : Session) (env : Env) (order : PaperOrder)
  : F * Outcome :=
  if ord_price_type order =s "MARKET" then _process_market_order f s env order
  else if ord_price_type order =s "LIMIT" then _process_limit_order f s env order
  else if (ord_price_type order =s "SL") || (ord_price_type order =s "SLM") then
    _process_stop_loss_order f s env order
  else
    (f, rejected s order ("Unsupported order type: " ++ ord_price_type order)).
(** The [for order in pending_orders] loop of [_monitor_pending_orders], the
    stop flag not being set: the k-th call reads its clock and its trade id
    from [env k].  The loop walks the objects of the query result; a call
    writes only to its own order object, so each object still has the
    attributes the query returned when its turn comes. *)
Fixpoint process_each (f : F) (s : Session) (env : nat -> Env) (k : nat)
    (pending_orders : list PaperOrder) : F * Session :=
  match pending_orders with
  | [] => (f, s)
  | order :: rest =>
      let '(f', out) := process_order f s (env k) order in
      process_each f' (session_of out) env (S k) rest
  end.

(** One pass of the [while] loop of [_monitor_pending_orders] (the sleep
    apart). *)
Definition monitor_pass (f : F) (s : Session) (env : nat -> Env) : F * Session :=
  let pending_orders := filter is_pending (orders s) in
  process_each f s env 0 pending_orders.
End Matching.

End OrderMatchingEngine.

(** ** paper_trading_db: account reset *)

(** [reset_paper_account(user_id)]. *)
Definition reset_paper_account (s : Session) (user_id : string) : Session * bool :=
  match query_account s user_id with
  | None => (s, false)
  | Some _ =>
      ({| accounts :=
            update_first (account_of user_id)
              (fun a => set_current_balance a (acc_initial_balance a)) (accounts s);
          orders := filter (fun o => negb (ord_user_id o =s user_id)) (orders s);
          positions := filter (fun p => negb (pos_user_id p =s user_id)) (positions s);
          trades := filter (fun t => negb (trd_user_id t =s user_id)) (trades s) |},
       true)
  end.

(** ** TradingServiceFactory: mode resolution

    A string is a sequence of code points below 256; [lower] and [strip] are
    [str.lower] and [str.strip] on that range. *)

Module TradingServiceFactory.

Definition in_range (lo hi n : N) : bool := (N.leb lo n) && (N.leb n hi).

(** [str.isspace] on one character. *)
Definition is_space (c : ascii) : bool :=
  let n := N_of_ascii c in
  in_range 9 13 n || in_range 28 32 n || N.eqb n 133 || N.eqb n 160.

(** [str.lower] on one character. *)
Definition lower_char (c : ascii) : ascii :=
  let n := N_of_ascii c in
  if in_range 65 90 n || in_range 192 214 n || in_range 216 222 n
  then ascii_of_N (n + 32) else c.

Fixpoint lower (s : string) : string :=
  match s with
  | EmptyString => EmptyString
  | String c r => String (lower_char c) (lower r)
  end.

Fixpoint lstrip (s : string) : string :=
  match s with
  | EmptyString => EmptyString
  | String c r => if is_space c then lstrip r else s
  end.

Fixpoint rstrip (s : string) : string :=
  match s with
  | EmptyString => EmptyString
  | String c r =>
      match rstrip r with
      | EmptyString => if is_space c then EmptyString else String c EmptyString
      | r' => String c r'
      end
  end.

Definition strip (s : string) : string := rstrip (lstrip s).

(** [os.getenv(name, default)]. *)
Definition getenv (value : option string) (default : string) : string :=
  match value with
  | Some v => v
  | None => default
  end.

Inductive Raises (A : Type) : Type :=
| Returns (a : A)
| ValueError (message : string).
Arguments Returns {A} a.
Arguments ValueError {A} message.

(** [_get_trading_mode()]; the argument is the value of
    [OPENALGO_TRADING_MODE] in the environment, if any. *)
Definition _get_trading_mode (OPENALGO_TRADING_MODE : option string) : Raises string :=
  let trading_mode := strip (lower (getenv OPENALGO_TRADING_MODE "live")) in
  if negb ((trading_mode =s "live") || (trading_mode =s "paper")) then
    ValueError ("Invalid OPENALGO_TRADING_MODE: '" ++ trading_mode
                ++ "'. Must be 'live' or 'paper'")
  else Returns trading_mode.

(** [get_current_mode()]. *)
Definition get_current_mode (OPENALGO_TRADING_MODE : option string) : string :=
  match _get_trading_mode OPENALGO_TRADING_MODE with
  | Returns mode => mode
  | ValueError _ => "live"
  end.

(** *** The service cache *)

(** The two implementations of [ITradingService] the factory instantiates. *)
Inductive ServiceClass : Type :=
| LiveBrokerService
| PaperTradingService.

(** An instance, by the class and the constructor arguments it was built
    with. *)
Record Service := mkService {
  svc_class : ServiceClass;
  svc_user_id : string;
  svc_broker : string
}.

Inductive Exception : Type :=
| ExcValueError (message : string)
| ExcImportError (message : string).

Inductive Result (A : Type) : Type :=
| Return (a : A)
| Raise (e : Exception).
Arguments Return {A} a.
Arguments Raise {A} e.

(** What the factory reads from outside: the environment variable and, for
    each service module, the text of the [ImportError] its import raises, if
    it raises one. *)
Record FactoryEnv := mkFactoryEnv {
  OPENALGO_TRADING_MODE : option string;
  import_error : ServiceClass -> option string
}.

(** The class attribute [_instances], a dict in insertion order. *)
Definition Instances : Type := list (string * Service).

(** [cache_key in cls._instances] and [cls._instances[cache_key]]. *)
Fixpoint lookup (cache_key : string) (instances : Instances) : option Service :=
  match instances with
  | [] => None
  | (k, v) :: r => if k =s cache_key then Some v else lookup cache_key r
  end.

(** [f"{user_id}_{broker}"]. *)
Definition cache_key (user_id broker : string) : string :=
  user_id ++ "_" ++ broker.

(** [_create_live_broker_service(user_id, broker)]. *)
Definition _create_live_broker_service (env : FactoryEnv) (user_id broker : string)
  : Result Service :=
  match import_error env LiveBrokerService with
  | None => Return (mkService LiveBrokerService user_id broker)
  | Some e => Raise (ExcImportError ("Live broker service not available: " ++ e))
  end.

(** [_create_paper_trading_service(user_id, broker)]. *)
Definition _create_paper_trading_service (env : FactoryEnv) (user_id broker : string)
  : Result Service :=
  match import_error env PaperTradingService with
  | None => Return (mkService PaperTradingService user_id broker)
  | Some e => Raise (ExcImportError ("Paper trading service not available: " ++ e))
  end.

(** [get_trading_service(user_id, broker)].  Run by one thread, the second
    test of the double-checked locking sees what the first saw. *)
Definition get_trading_service (instances : Instances) (env : FactoryEnv)
    (user_id broker : string) : Result Service * Instances :=
  let key := cache_key user_id broker in
  match lookup key instances with
  | Some instance => (Return instance, instances)
  | None =>
      match _get_trading_mode (OPENALGO_TRADING_MODE env) with
      | ValueError message => (Raise (ExcValueError message), instances)
      | Returns trading_mode =>
          let created :=
            if trading_mode =s "paper"
            then _create_paper_trading_service env user_id broker
            else _create_live_broker_service env user_id broker in
          match created with
          | Return instance => (Return instance, (instances ++ [(key, instance)])%list)
          | Raise e => (Raise e, instances)
          end
      end
  end.

(** [clear_cache()]. *)
Definition clear_cache (instances : Instances) : Instances := [].

(** [is_paper_trading_mode()] and [is_live_trading_mode()]. *)
Definition is_paper_trading_mode (mode : option string) : bool :=
  get_current_mode mode =s "paper".

Definition is_live_trading_mode (mode : option string) : bool :=
  get_current_mode mode =s "live".

(** [get_service_count()]. *)
Definition get_service_count (instances : Instances) : nat := List.length instances.

(** [type(service).__name__]. *)
Definition class_name (c : ServiceClass) : string :=
  match c with
  | LiveBrokerService => "LiveBrokerService"
  | PaperTradingService => "PaperTradingService"
  end.

(** [get_cached_services()]. *)
Definition get_cached_services (instances : Instances) : list (string * string) :=
  map (fun kv => (fst kv, class_name (svc_class (snd kv)))) instances.

End TradingServiceFactory.

(** ** paper_trading_db: account creation *)

(** [create_paper_account(user_id, initial_balance, currency)].  The argument
    [initial_balance] stands for [Decimal(str(initial_balance))]; [is_active]
    takes its column default [True]. *)
Definition create_paper_account (s : Session) (user_id : string)
    (initial_balance : Decimal) (currency : string) : Session * PaperAccount :=
  match query_account s user_id with
  | Some existing_account => (s, existing_account)
  | None =>
      let account := mkPaperAccount user_id initial_balance initial_balance currency true in
      (set_accounts s (accounts s ++ [account]), account)
  end.

(** [get_or_create_paper_account(user_id)]; the two defaults are the values
    read from [PAPER_DEFAULT_BALANCE] and [PAPER_DEFAULT_CURRENCY]. *)
Definition get_or_create_paper_account (s : Session)
    (default_balance : Decimal) (default_currency : string) (user_id : string)
  : Session * PaperAccount :=
  match query_account s user_id with
  | Some account => (s, account)
  | None => create_paper_account s user_id default_balance default_currency
  end.

(** ** paper_trading_db: identifiers *)

Module paper_trading_db.

(** ['0123456789abcdef'[d]]. *)
Definition hex_char (d : N) : ascii :=
  if N.ltb d 10 then ascii_of_N (48 + d) else ascii_of_N (87 + d).

(** The [n] lowest hex digits of [u], the highest first: ['%0nx' % u] for
    [u < 16^n]. *)
Fixpoint hex_digits (n : nat) (u : N) : string :=
  match n with
  | O => EmptyString
  | S k => String (hex_char ((u / 16 ^ N.of_nat k) mod 16)) (hex_digits k u)
  end.

(** [uuid.UUID(int=u).hex], for the 128-bit integer [u] of the UUID. *)
Definition uuid_hex (u : N) : string := hex_digits 32 u.

(** [str.upper] on one ASCII character. *)
Definition upper_ascii_char (c : ascii) : ascii :=
  let n := N_of_ascii c in
  if N.leb 97 n && N.leb n 122 then ascii_of_N (n - 32) else c.

(** [str.upper] on a string of ASCII characters, as the hex digits are. *)
Fixpoint upper_ascii (s : string) : string :=
  match s with
  | EmptyString => EmptyString
  | String c r => String (upper_ascii_char c) (upper_ascii r)
  end.

(** [generate_order_id()] and [generate_trade_id()]; [uuid4] is the integer
    of the UUID that [uuid.uuid4()] draws. *)
Definition generate_order_id (uuid4 : N) : string :=
  "PT" ++ upper_ascii (substring 0 12 (uuid_hex uuid4)).

Definition generate_trade_id (uuid4 : N) : string :=
  "TR" ++ upper_ascii (substring 0 12 (uuid_hex uuid4)).

End paper_trading_db.

(** ** PaperTradingService

    The facade methods that write to the ledger.  A payload ([order_data]) is
    a record of optional entries, an entry being absent when its key is not
    in the dict; the values that are present have the Python types the
    conversions of [place_order] produce ([str], [int], [Decimal]), so
    [int(...)] and [Decimal(str(...))] return them as they are.  [str.upper]
    is taken as given.  The columns of an order that the engine never reads
    ([disclosed_quantity], [strategy]) are not part of the rows. *)

Module PaperTradingService.

Record OrderData := mkOrderData {
  od_symbol : option string;
  od_exchange : option string;
  od_action : option string;
  od_product : option string;
  od_pricetype : option string;
  od_quantity : option Z;
  od_price : option Decimal;
  od_trigger_price : option Decimal
}.

(** The triple a method returns: the success flag, the response dict and the
    HTTP status code. *)
Record Response := mkResponse {
  resp_success : bool;
  resp_status : string;
  resp_orderid : option string;
  resp_message : string;
  resp_code : nat
}.

Definition failure (message : string) (code : nat) : Response :=
  mkResponse false "error" None message code.

Definition succeeded (message : string) : Response :=
  mkResponse true "success" None message 200.

(** What [place_order] reads from outside: the UUID drawn for the order id,
    and the clock and trade id the engine reads. *)
Record PlaceEnv := mkPlaceEnv {
  uuid4 : N;
  engine_env : Env
}.

(** [field in order_data]. *)
Definition present {A : Type} (entry : option A) : bool :=
  match entry with
  | Some _ => true
  | None => false
  end.

(** [[field for field in required_fields if field not in order_data]]. *)
Definition missing_fields (order_data : OrderData) : list string :=
  map fst
    (filter (fun field => negb (snd field))
       [("symbol", present (od_symbol order_data));
        ("exchange", present (od_exchange order_data));
        ("action", present (od_action order_data));
        ("product", present (od_product order_data));
        ("pricetype", present (od_pricetype order_data));
        ("quantity", present (od_quantity order_data))]).

(** [Decimal(str(order_data[key])) if order_data.get(key) else None]. *)
Definition decimal_entry (entry : option Decimal) : option Decimal :=
  match entry with
  | Some v => if Decimal_truthy v then Some v else None
  | None => None
  end.

(** [str(n)] for a count. *)
Definition str_of_nat (n : nat) : string :=
  DecimalString.NilZero.string_of_uint (Nat.to_uint n).

Section Service.
Context {F : Type} `{MarketDataFeed F}.
Variable str_upper : string -> string.

(** The handler of [place_order] for the [KeyError] of [order_data[key]]. *)
Definition key_error (f : F) (s : Session) (key : string) : F * Session * Response :=
  (f, s, failure ("Failed to place order: '" ++ key ++ "'") 500).

(** [place_order(order_data, auth_token)] of the service of [user_id]. *)
Definition place_order (f : F) (s : Session) (env : PlaceEnv) (user_id : string)
    (order_data : OrderData) : F * Session * Response :=
  match missing_fields order_data with
  | _ :: _ =>
      (f, s,
       failure ("Missing required fields: " ++ String.concat ", " (missing_fields order_data))
               400)
  | [] =>
      let order_id := paper_trading_db.generate_order_id (uuid4 env) in
      match od_symbol order_data with
      | None => key_error f s "symbol"
      | Some symbol =>
      match od_exchange order_data with
      | None => key_error f s "exchange"
      | Some exchange =>
      match od_action order_data with
      | None => key_error f s "action"
      | Some action =>
      match od_product order_data with
      | None => key_error f s "product"
      | Some product =>
      match od_pricetype order_data with
      | None => key_error f s "pricetype"
      | Some pricetype =>
      match od_quantity order_data with
      | None => key_error f s "quantity"
      | Some quantity =>
          let paper_order :=
            {| ord_user_id := user_id; ord_order_id := order_id;
               ord_symbol := symbol; ord_exchange := exchange;
               ord_action := str_upper action; ord_product := product;
               ord_price_type := pricetype; ord_quantity := quantity;
               ord_price := decimal_entry (od_price order_data);
               ord_trigger_price := decimal_entry (od_trigger_price order_data);
               ord_status := "PENDING"; ord_filled_quantity := 0;
               ord_average_price := None; ord_filled_timestamp := None;
               ord_cancelled_timestamp := None; ord_rejection_reason := None |} in
          let s1 := set_orders s (orders s ++ [paper_order]) in
          let '(f', out) :=
            OrderMatchingEngine.process_order f s1 (engine_env env) paper_order in
          (f', session_of out,
           mkResponse true "success" (Some order_id)
                      "Paper trading order placed successfully" 200)
      end end end end end end
  end.

(** [cancel_order(order_id, auth_token)]. *)
Definition cancel_order (s : Session) (env : Env) (order_id : string)
  : Session * Response :=
  let '(s', success) := OrderMatchingEngine.cancel_order s env order_id in
  if success then
    (s', succeeded ("Order " ++ order_id ++ " cancelled successfully"))
  else
    (s', failure ("Order " ++ order_id ++ " not found or cannot be cancelled") 404).

(** [close_position(symbol, exchange, product, auth_token)]. *)
Definition close_position (f : F) (s : Session) (env : PlaceEnv) (user_id : string)
    (symbol exchange product : string) : F * Session * Response :=
  match query_position s user_id symbol exchange product with
  | None => (f, s, failure "No open position found" 404)
  | Some position =>
      if pos_quantity position =? 0 then
        (f, s, failure "No open position found" 404)
      else
        let close_action := if pos_quantity position >? 0 then "SELL" else "BUY" in
        let close_quantity := Z.abs (pos_quantity position) in
        place_order f s env user_id
          {| od_symbol := Some symbol; od_exchange := Some exchange;
             od_action := Some close_action; od_product := Some product;
             od_pricetype := Some "MARKET"; od_quantity := Some close_quantity;
             od_price := None; od_trigger_price := None |}
  end.

End Service.

(** The rows [cancel_all_orders] asks for: the PENDING orders of the user. *)
Definition pending_of (user_id : string) (o : PaperOrder) : bool :=
  (ord_user_id o =s user_id) && (ord_status o =s "PENDING").

(** The [for order in pending_orders] loop of [cancel_all_orders]: the k-th
    cancellation reads its clock from [env k]. *)
Fixpoint cancel_each (s : Session) (env : nat -> Env) (k : nat)
    (pending_orders : list PaperOrder) (cancelled_count : nat) : Session * nat :=
  match pending_orders with
  | [] => (s, cancelled_count)
  | order :: rest =>
      let '(s', success) :=
        OrderMatchingEngine.cancel_order s (env k) (ord_order_id order) in
      cancel_each s' env (S k) rest
                  (if success then S cancelled_count else cancelled_count)
  end.

(** [cancel_all_orders(auth_token)]. *)
Definition cancel_all_orders (s : Session) (env : nat -> Env) (user_id : string)
  : Session * Response :=
  match filter (pending_of user_id) (orders s) with
  | [] => (s, succeeded "No pending orders to cancel")
  | pending_orders =>
      let '(s', cancelled_count) := cancel_each s env 0 pending_orders 0 in
      (s', succeeded ("Cancelled " ++ str_of_nat cancelled_count ++ " orders"))
  end.

End PaperTradingService.

(** ** MarketDataFeed: the price in a quotes response

    A quotes response is a dict of arbitrary Python values.  Of a value the
    code uses three things: whether it is [None], what [float(value)] does
    (a float, a [ValueError] or [TypeError], or another exception), and
    whether it is a dict. *)

Module Quotes.

Inductive FloatResult (Float Error : Type) : Type :=
| Converts (x : Float)
| ValueOrTypeError
| OtherException (e : Error).
Arguments Converts {Float Error} x.
Arguments ValueOrTypeError {Float Error}.
Arguments OtherException {Float Error} e.

(** What a search through the price fields ends in. *)
Inductive Probe (Float Error : Type) : Type :=
| Found (x : Float)
| Raised (e : Error)
| NotFound.
Arguments Found {Float Error} x.
Arguments Raised {Float Error} e.
Arguments NotFound {Float Error}.

(** What the method does: return a value or let an exception through. *)
Inductive Extracted (Float Error : Type) : Type :=
| Returned (price : option Float)
| Propagated (e : Error).
Arguments Returned {Float Error} price.
Arguments Propagated {Float Error} e.

Section Extract.
Variables Value Float Error : Type.
Variable is_None : Value -> bool.
Variable float : Value -> FloatResult Float Error.
Variable as_dict : Value -> option (list (string * Value)).

(** [quotes_data[field]], if [field in quotes_data]. *)
Fixpoint get (d : list (string * Value)) (field : string) : option Value :=
  match d with
  | [] => None
  | (k, v) :: r => if k =s field then Some v else get r field
  end.

Definition price_fields : list string :=
  ["ltp"; "last_price"; "lastPrice"; "last_traded_price"; "close"].

(** [for field in price_fields: ...] over one dict. *)
Fixpoint probe (d : list (string * Value)) (fields : list string) : Probe Float Error :=
  match fields with
  | [] => NotFound
  | field :: rest =>
      match get d field with
      | None => probe d rest
      | Some v =>
          if is_None v then probe d rest
          else
            match float v with
            | Converts x => Found x
            | ValueOrTypeError => probe d rest
            | OtherException e => Raised e
            end
      end
  end.

(** [_extract_price_from_quotes(quotes_data)]. *)
Definition _extract_price_from_quotes (quotes_data : list (string * Value))
  : Extracted Float Error :=
  match probe quotes_data price_fields with
  | Found x => Returned (Some x)
  | Raised e => Propagated e
  | NotFound =>
      match get quotes_data "data" with
      | None => Returned None
      | Some data =>
          match as_dict data with
          | None => Returned None
          | Some inner =>
              match probe inner price_fields with
              | Found x => Returned (Some x)
              | Raised e => Propagated e
              | NotFound => Returned None
              end
          end
      end
  end.

End Extract.
End Quotes.

(** * Vocabulary of the statements *)

Import OrderMatchingEngine.

(** The two exits of [_fill_order]. *)
Definition fill_rejected (s : Session) (order : PaperOrder) : Outcome :=
  mkOutcome (persist_order s (mark_rejected order "Insufficient funds"))
            (mark_rejected order "Insufficient funds") true.

Definition underfunded (s : Session) (order : PaperOrder)
    (fill_price : Decimal) (fill_quantity : Z) : bool :=
  (ord_action order =s "BUY") && insufficient_funds s order fill_price fill_quantity.

(** An order is filled at [price] for [quantity]. *)
Definition filled_at (out : Outcome) (price : Decimal) (quantity : Z) : Prop :=
  handled out = true /\
  ord_status (order_of out) = "FILLED" /\
  ord_average_price (order_of out) = Some price /\
  ord_filled_quantity (order_of out) = quantity.

(** An order is rejected with [reason], and no ledger table but the order's
    own row is touched. *)
Definition rejected_with (s : Session) (out : Outcome) (reason : string) : Prop :=
  handled out = true /\
  ord_status (order_of out) = "REJECTED" /\
  ord_rejection_reason (order_of out) = Some reason /\
  accounts (session_of out) = accounts s /\
  positions (session_of out) = positions s /\
  trades (session_of out) = trades s.

(** ** Sample rows *)

Definition sample_account (balance : Decimal) : PaperAccount :=
  mkPaperAccount "u1" balance balance "INR" true.

Definition sample_order (order_id action price_type : string) (quantity : Z)
    (price trigger_price : option Decimal) : PaperOrder :=
  mkPaperOrder "u1" order_id "TESTSTOCK" "NSE" action "MIS" price_type quantity
               price trigger_price "PENDING" 0 None None None None.

Definition sample_env : Env := mkEnv 1%nat "TR000000000001".

(** Balance 1000, one pending BUY of 100 shares. *)
Definition poor_buy : PaperOrder := sample_order "PT01" "BUY" "MARKET" 100 None None.
Definition poor_session : Session := mkSession [sample_account 1000] [poor_buy] [] [].


(** The unique constraint on [paper_orders.order_id]. *)
Fixpoint unique_ids (l : list PaperOrder) : bool :=
  match l with
  | [] => true
  | o :: r => negb (existsb (order_with_id (ord_order_id o)) r) && unique_ids r
  end.

Definition unique_order_ids (s : Session) : bool := unique_ids (orders s).

(** One pending LIMIT order and one order that is already filled. *)
Definition resting_sell : PaperOrder :=
  sample_order "PT02" "SELL" "LIMIT" 10 (Some 2500%Q) None.
Definition done_buy : PaperOrder :=
  mark_filled (sample_order "PT03" "BUY" "MARKET" 10 None None) 10 100 0%nat.
Definition book_session : Session :=
  mkSession [sample_account 50000] [done_buy; resting_sell] [] [].


(** ** Balance conservation *)




(** A session before any fill: no trade yet, every balance at its initial value. *)
Definition fresh (s : Session) : bool :=
  match trades s with
  | [] => forallb (fun a => Qeq_bool (acc_current_balance a) (acc_initial_balance a))
                  (accounts s)
  | _ :: _ => false
  end.

(** The account row after [_update_account_balance] for [order]. *)
Definition settled (order : PaperOrder) (fill_price : Decimal) (fill_quantity : Z)
    (a : PaperAccount) : PaperAccount :=
  if ord_action order =s "BUY"
  then set_current_balance a (acc_current_balance a - Dmul_int fill_price fill_quantity)%Q
  else set_current_balance a (acc_current_balance a + Dmul_int fill_price fill_quantity)%Q.




(** ** Positions *)

(** No position row carries quantity 0. *)
Definition no_zero_position (s : Session) : bool :=
  forallb (fun p => negb (pos_quantity p =? 0)) (positions s).

(** The local [quantity_change] of [_update_position]. *)
Definition quantity_change (order : PaperOrder) (fill_quantity : Z) : Z :=
  if ord_action order =s "BUY" then fill_quantity else - fill_quantity.

(** The position rows with the key of [order]. *)
Definition rows_of_order (s : Session) (order : PaperOrder) : list PaperPosition :=
  filter (position_of (ord_user_id order) (ord_symbol order)
                      (ord_exchange order) (ord_product order)) (positions s).

Definition position_of_order (s : Session) (order : PaperOrder) : option PaperPosition :=
  query_position s (ord_user_id order) (ord_symbol order)
                 (ord_exchange order) (ord_product order).

(** A long position of 10 at 100 and the orders that act on it. *)
Definition long_10_at_100 : PaperPosition :=
  mkPaperPosition "u1" "TESTSTOCK" "NSE" "MIS" 10 100 0.
Definition long_session : Session :=
  mkSession [sample_account 50000] [] [long_10_at_100] [].
Definition buy_10 : PaperOrder := sample_order "PT20" "BUY" "MARKET" 10 None None.
Definition sell_5 : PaperOrder := sample_order "PT21" "SELL" "MARKET" 5 None None.
Definition sell_10 : PaperOrder := sample_order "PT22" "SELL" "MARKET" 10 None None.
Definition sell_15 : PaperOrder := sample_order "PT23" "SELL" "MARKET" 15 None None.
Definition sell_25 : PaperOrder := sample_order "PT24" "SELL" "MARKET" 25 None None.


(** ** Order evaluation *)

(** The price at which a triggered stop-loss order is filled. *)
Inductive execution_price (order : PaperOrder) (current_price : Decimal) : Decimal -> Prop :=
| exec_stop_limit (price : Decimal) :
    ord_price_type order = "SL" -> ord_price order = Some price -> ~ (price == 0)%Q ->
    execution_price order current_price price
| exec_stop_limit_zero (price : Decimal) :
    ord_price_type order = "SL" -> ord_price order = Some price -> (price == 0)%Q ->
    execution_price order current_price current_price
| exec_stop_limit_unset :
    ord_price_type order = "SL" -> ord_price order = None ->
    execution_price order current_price current_price
| exec_stop_market :
    ord_price_type order = "SLM" ->
    execution_price order current_price current_price.

(** Orders on a well-funded account and on the account of 1000. *)
Definition rich_session : Session := mkSession [sample_account 50000] [] [] [].
Definition market_buy_10 : PaperOrder := sample_order "PT30" "BUY" "MARKET" 10 None None.
Definition limit_buy_10_at_100 : PaperOrder :=
  sample_order "PT31" "BUY" "LIMIT" 10 (Some 100%Q) None.
Definition limit_sell_10_at_2500 : PaperOrder :=
  sample_order "PT32" "SELL" "LIMIT" 10 (Some 2500%Q) None.
Definition poor_limit_buy : PaperOrder :=
  sample_order "PT33" "BUY" "LIMIT" 100 (Some 50%Q) None.
Definition stop_sell_at_95 : PaperOrder :=
  sample_order "PT34" "SELL" "SL" 10 (Some 94%Q) (Some 95%Q).
Definition stop_sell_price_zero : PaperOrder :=
  sample_order "PT35" "SELL" "SL" 10 (Some 0%Q) (Some 95%Q).
Definition poor_stop_buy : PaperOrder :=
  sample_order "PT36" "BUY" "SLM" 100 None (Some 50%Q).


(** ** Mode strings *)

(** Every character of [s] is whitespace. *)
Fixpoint all_space (s : string) : bool :=
  match s with
  | EmptyString => true
  | String c r => TradingServiceFactory.is_space c && all_space r
  end.


(** ** Order rows *)

(** The attributes of an order that are given when it is placed. *)
Definition same_instruction (a b : PaperOrder) : Prop :=
  ord_user_id a = ord_user_id b /\ ord_order_id a = ord_order_id b /\
  ord_symbol a = ord_symbol b /\ ord_exchange a = ord_exchange b /\
  ord_action a = ord_action b /\ ord_product a = ord_product b /\
  ord_price_type a = ord_price_type b /\ ord_quantity a = ord_quantity b /\
  ord_price a = ord_price b /\ ord_trigger_price a = ord_trigger_price b.

(** A book with a filled order, a pending LIMIT order and a pending MARKET
    order, and the environment of the k-th call of a monitoring pass. *)
Definition pending_market_buy : PaperOrder :=
  sample_order "PT04" "BUY" "MARKET" 10 None None.
Definition mixed_book : Session :=
  mkSession [sample_account 50000] [done_buy; resting_sell; pending_market_buy] [] [].
Definition pass_env (k : nat) : Env := mkEnv k "TR000000000002".
Definition odd_order : PaperOrder := sample_order "PT05" "BUY" "ICEBERG" 10 None None.


(** A BUY and a SELL of 10 shares on the same key. *)
Definition open_buy : PaperOrder := sample_order "PT40" "BUY" "MARKET" 10 None None.


(** ** Accounts *)

(** The unique constraint on [paper_accounts.user_id]. *)
Definition unique_user_ids (s : Session) : Prop := NoDup (map acc_user_id (accounts s)).

(** No order, position or trade row of [user_id] is left. *)
Definition no_rows_of (s : Session) (user_id : string) : bool :=
  forallb (fun o => negb (ord_user_id o =s user_id)) (orders s) &&
  forallb (fun p => negb (pos_user_id p =s user_id)) (positions s) &&
  forallb (fun t => negb (trd_user_id t =s user_id)) (trades s).

(** The rows of the users other than [user_id], in table order. *)
Definition rows_of_others (s : Session) (user_id : string)
  : list PaperOrder * list PaperPosition * list PaperTrade :=
  (filter (fun o => negb (ord_user_id o =s user_id)) (orders s),
   filter (fun p => negb (pos_user_id p =s user_id)) (positions s),
   filter (fun t => negb (trd_user_id t =s user_id)) (trades s)).


(** A session with rows of two users. *)
Definition other_account : PaperAccount := mkPaperAccount "u2" 1000 900 "INR" true.
Definition other_order : PaperOrder :=
  mkPaperOrder "u2" "PT50" "TESTSTOCK" "NSE" "BUY" "MIS" "LIMIT" 1 (Some 100%Q) None
               "PENDING" 0 None None None None.
Definition shared_session : Session :=
  mkSession [mkPaperAccount "u1" 50000 49000 "INR" true; other_account]
            [resting_sell; other_order] [long_10_at_100] [].


(** ** Service cache *)

(** [s] has no underscore. *)
Fixpoint no_underscore (s : string) : bool :=
  match s with
  | EmptyString => true
  | String c r => negb (Ascii.eqb c "_") && no_underscore r
  end.

Definition imports_fine : TradingServiceFactory.ServiceClass -> option string :=
  fun _ => None.
Definition imports_broken : TradingServiceFactory.ServiceClass -> option string :=
  fun _ => Some "No module named 'services'".
Definition paper_env : TradingServiceFactory.FactoryEnv :=
  TradingServiceFactory.mkFactoryEnv (Some "paper") imports_fine.
Definition live_env : TradingServiceFactory.FactoryEnv :=
  TradingServiceFactory.mkFactoryEnv (Some "live") imports_fine.
Definition broken_env : TradingServiceFactory.FactoryEnv :=
  TradingServiceFactory.mkFactoryEnv (Some "invalid") imports_broken.


(** ** Price feed *)

(** The feed after [k] calls of [get_live_price] for one symbol, and the
    answer of the next call. *)
Fixpoint feed_after {F : Type} `{MarketDataFeed F} (k : nat) (f : F)
    (symbol exchange : string) : F :=
  match k with
  | O => f
  | S j => feed_after j (snd (get_live_price f symbol exchange)) symbol exchange
  end.

Definition answer {F : Type} `{MarketDataFeed F} (k : nat) (f : F)
    (symbol exchange : string) : option Decimal :=
  fst (get_live_price (feed_after k f symbol exchange) symbol exchange).


(** ** Identifiers *)

(** The value of an upper-case hex digit. *)
Definition hex_value (c : ascii) : N :=
  let n := N_of_ascii c in
  if N.leb 48 n && N.leb n 57 then (n - 48)%N else (n - 55)%N.

(** The hex digit of weight [16^i] of [u]. *)
Definition digit (i : nat) (u : N) : N := ((u / 16 ^ N.of_nat i) mod 16)%N.


(** ** Facade *)

(** The upper-casing used when the facade is run on sample payloads: the
    identity, which is [str.upper] on the upper-case action names. *)
Definition keep_case (s : string) : string := s.

Definition sample_place_env : PaperTradingService.PlaceEnv :=
  PaperTradingService.mkPlaceEnv 1%N sample_env.


(** A short position of 10 at 100 on an account of 500. *)
Definition short_10_at_100 : PaperPosition :=
  mkPaperPosition "u1" "TESTSTOCK" "NSE" "MIS" (-10) 100 0.
Definition short_session : Session :=
  mkSession [sample_account 500] [] [short_10_at_100] [].


(** The order object [place_order] builds for the payload of
    [close_position] on a position row. *)
Definition closing_order (str_upper : string -> string)
    (env : PaperTradingService.PlaceEnv) (user_id symbol exchange product : string)
    (position : PaperPosition) : PaperOrder :=
  {| ord_user_id := user_id;
     ord_order_id := paper_trading_db.generate_order_id (PaperTradingService.uuid4 env);
     ord_symbol := symbol; ord_exchange := exchange;
     ord_action := str_upper (if pos_quantity position >? 0 then "SELL" else "BUY");
     ord_product := product; ord_price_type := "MARKET";
     ord_quantity := Z.abs (pos_quantity position);
     ord_price := None; ord_trigger_price := None;
     ord_status := "PENDING"; ord_filled_quantity := 0;
     ord_average_price := None; ord_filled_timestamp := None;
     ord_cancelled_timestamp := None; ord_rejection_reason := None |}.


(** Two pending orders of u1 next to a pending order of u2. *)
Definition second_resting_sell : PaperOrder :=
  sample_order "PT06" "SELL" "LIMIT" 5 (Some 2600%Q) None.
Definition crowded_book : Session :=
  mkSession [sample_account 50000] [resting_sell; other_order; second_resting_sell; done_buy]
            [] [].


(** ** Quotes *)

Section QuoteFields.
Import Quotes.
Variables Value Float Error : Type.
Variable is_None : Value -> bool.
Variable float : Value -> FloatResult Float Error.

(** [field] holds a value that [float] converts to [x]. *)
Definition usable (d : list (string * Value)) (field : string) (x : Float) : Prop :=
  exists v, get Value d field = Some v /\ is_None v = false /\ float v = Converts x.

(** [field] is absent, [None], or holds a value [float] refuses with a
    [ValueError] or [TypeError]. *)
Definition unusable (d : list (string * Value)) (field : string) : Prop :=
  get Value d field = None \/
  exists v, get Value d field = Some v /\
            (is_None v = true \/ (is_None v = false /\ float v = ValueOrTypeError)).
End QuoteFields.

(** Python values for sample responses: [None], a float, a string that
    [float] refuses, and a dict with the one entry 'ltp'. *)
Inductive SampleValue : Type :=
| SNone
| SFloat (x : Q)
| SText (s : string)
| SDict (ltp : Q).

Definition sample_is_None (v : SampleValue) : bool :=
  match v with
  | SNone => true
  | _ => false
  end.

Definition sample_float (v : SampleValue) : Quotes.FloatResult Q unit :=
  match v with
  | SFloat x => Quotes.Converts x
  | _ => Quotes.ValueOrTypeError
  end.

Definition sample_as_dict (v : SampleValue) : option (list (string * SampleValue)) :=
  match v with
  | SDict ltp => Some [("ltp", SFloat ltp)]
  | _ => None
  end.

Definition sample_quotes : list (string * SampleValue) :=
  [("symbol", SText "TESTSTOCK"); ("ltp", SText "N/A"); ("last_price", SNone);
   ("close", SFloat 99); ("data", SDict 101)].

(** * Properties *)

(** ** Decimal comparisons *)

Lemma Dle_spec (a b : Decimal) : Dle a b = true <-> (a <= b)%Q.
Proof. unfold Dle. apply Qle_bool_iff. Qed.

Lemma Dge_spec (a b : Decimal) : Dge a b = true <-> (b <= a)%Q.
Proof. unfold Dge. apply Qle_bool_iff. Qed.

Lemma Dlt_spec (a b : Decimal) : Dlt a b = true <-> (a < b)%Q.
Proof.
  unfold Dlt. rewrite negb_true_iff. split; intro E.
  - apply Qnot_le_lt. intro L. apply Qle_bool_iff in L. congruence.
  - destruct (Qle_bool b a) eqn:B; [|reflexivity].
    apply Qle_bool_iff in B. exfalso. apply (Qlt_not_le _ _ E B).
Qed.

Lemma Decimal_truthy_spec (d : Decimal) : Decimal_truthy d = false <-> (d == 0)%Q.
Proof.
  unfold Decimal_truthy. rewrite negb_false_iff. apply Qeq_bool_iff.
Qed.

(** ** Rows selected by a filter *)

Section FirstRow.
Context {A : Type}.
Variables (sel : A -> bool) (f : A -> A).

Lemma find_update_first_same (l : list A) :
  (forall x, sel x = true -> sel (f x) = true) ->
  find sel (update_first sel f l) = option_map f (find sel l).
Proof.
  intros Hf. induction l as [|x r IH]; simpl; [reflexivity|].
  destruct (sel x) eqn:E; simpl.
  - rewrite (Hf x E). reflexivity.
  - rewrite E. exact IH.
Qed.

Lemma find_update_first_other (sel' : A -> bool) (l : list A) :
  (forall x, sel x = true -> sel' x = false) ->
  (forall x, sel x = true -> sel' (f x) = false) ->
  find sel' (update_first sel f l) = find sel' l.
Proof.
  intros H1 H2. induction l as [|x r IH]; simpl; [reflexivity|].
  destruct (sel x) eqn:E; simpl.
  - rewrite (H1 x E), (H2 x E). reflexivity.
  - rewrite IH. reflexivity.
Qed.

Lemma forallb_update_first (P : A -> bool) (l : list A) :
  (forall x, sel x = true -> P (f x) = true) ->
  forallb P l = true -> forallb P (update_first sel f l) = true.
Proof.
  intros Hf. induction l as [|x r IH]; simpl; [reflexivity|].
  rewrite andb_true_iff. intros [Px Pr].
  destruct (sel x) eqn:E; simpl; rewrite andb_true_iff; auto.
Qed.

Lemma forallb_delete_first (P : A -> bool) (l : list A) :
  forallb P l = true -> forallb P (delete_first sel l) = true.
Proof.
  induction l as [|x r IH]; simpl; [reflexivity|].
  rewrite andb_true_iff. intros [Px Pr].
  destruct (sel x); simpl; [exact Pr|]. rewrite Px. simpl. auto.
Qed.

Lemma filter_delete_first (l : list A) (x : A) :
  find sel l = Some x ->
  S (List.length (filter sel (delete_first sel l))) = List.length (filter sel l).
Proof.
  induction l as [|y r IH]; simpl; [discriminate|].
  destruct (sel y) eqn:E; simpl.
  - reflexivity.
  - rewrite E. exact IH.
Qed.

Lemma find_none_of_filter (l : list A) :
  List.length (filter sel l) = 0%nat -> find sel l = None.
Proof.
  induction l as [|y r IH]; simpl; [reflexivity|].
  destruct (sel y); simpl; [discriminate|exact IH].
Qed.
End FirstRow.

(** ** Shape of the ledger operations *)

Lemma account_of_set_current_balance (u : string) (a : PaperAccount) (b : Decimal) :
  account_of u (set_current_balance a b) = account_of u a.
Proof. reflexivity. Qed.

Lemma update_position_accounts s o p q : accounts (_update_position s o p q) = accounts s.
Proof.
  unfold _update_position.
  destruct (find _ (positions s)); [destruct (_ =? 0)|destruct (negb _)]; reflexivity.
Qed.

Lemma update_position_trades s o p q : trades (_update_position s o p q) = trades s.
Proof.
  unfold _update_position.
  destruct (find _ (positions s)); [destruct (_ =? 0)|destruct (negb _)]; reflexivity.
Qed.

Lemma update_position_orders s o p q : orders (_update_position s o p q) = orders s.
Proof.
  unfold _update_position.
  destruct (find _ (positions s)); [destruct (_ =? 0)|destruct (negb _)]; reflexivity.
Qed.

Lemma update_account_balance_trades s o p q :
  trades (_update_account_balance s o p q) = trades s.
Proof.
  unfold _update_account_balance.
  destruct (find _ (accounts s)); [destruct (_ =s _)|]; reflexivity.
Qed.

Lemma update_account_balance_positions s o p q :
  positions (_update_account_balance s o p q) = positions s.
Proof.
  unfold _update_account_balance.
  destruct (find _ (accounts s)); [destruct (_ =s _)|]; reflexivity.
Qed.

Lemma update_account_balance_orders s o p q :
  orders (_update_account_balance s o p q) = orders s.
Proof.
  unfold _update_account_balance.
  destruct (find _ (accounts s)); [destruct (_ =s _)|]; reflexivity.
Qed.

Lemma update_account_balance_accounts_ext s s' o o' p q :
  accounts s = accounts s' ->
  ord_user_id o = ord_user_id o' -> ord_action o = ord_action o' ->
  accounts (_update_account_balance s o p q) = accounts (_update_account_balance s' o' p q).
Proof.
  intros E U C. unfold _update_account_balance. rewrite E, U, C.
  destruct (find _ (accounts s')); [destruct (_ =s _)|]; simpl; auto.
Qed.

Lemma update_position_positions_ext s s' o o' p q :
  positions s = positions s' ->
  ord_user_id o = ord_user_id o' -> ord_symbol o = ord_symbol o' ->
  ord_exchange o = ord_exchange o' -> ord_product o = ord_product o' ->
  ord_action o = ord_action o' ->
  positions (_update_position s o p q) = positions (_update_position s' o' p q).
Proof.
  intros E U Y X P C. unfold _update_position. rewrite E, U, Y, X, P, C.
  destruct (find _ (positions s')); [destruct (_ =? 0)|destruct (negb _)]; simpl; auto.
Qed.

Lemma fill_order_underfunded s env o p q :
  underfunded s o p q = true -> _fill_order s env o p q = fill_rejected s o.
Proof.
  unfold underfunded, _fill_order. intros ->. reflexivity.
Qed.

Lemma fill_order_funded s env o p q :
  underfunded s o p q = false ->
  order_of (_fill_order s env o p q) = mark_filled o q p (utcnow env) /\
  handled (_fill_order s env o p q) = true /\
  trades (session_of (_fill_order s env o p q)) =
    (trades s ++ [new_PaperTrade (ord_user_id o) (ord_order_id o) (generate_trade_id env)
                    (ord_symbol o) (ord_exchange o) (ord_action o) (ord_product o)
                    q p (Dmul_int p q) (Dmul_int p q)])%list /\
  accounts (session_of (_fill_order s env o p q)) =
    accounts (_update_account_balance s o p q) /\
  positions (session_of (_fill_order s env o p q)) =
    positions (_update_position s o p q) /\
  orders (session_of (_fill_order s env o p q)) =
    orders (persist_order s (mark_filled o q p (utcnow env))).
Proof.
  unfold underfunded, _fill_order. intros ->. cbn [order_of handled session_of].
  repeat split.
  - rewrite update_account_balance_trades, update_position_trades. reflexivity.
  - apply update_account_balance_accounts_ext; [|reflexivity|reflexivity].
    rewrite update_position_accounts. reflexivity.
  - rewrite update_account_balance_positions.
    apply update_position_positions_ext; reflexivity.
  - rewrite update_account_balance_orders, update_position_orders. reflexivity.
Qed.

(** ** Insufficient funds *)

Lemma persist_order_found (s : Session) (o row : PaperOrder) :
  query_order s (ord_order_id o) = Some row ->
  query_order (persist_order s o) (ord_order_id o) = Some o.
Proof.
  unfold query_order, persist_order. cbn [orders set_orders]. intro E.
  rewrite find_update_first_same.
  - rewrite E. reflexivity.
  - intros _ _. unfold order_with_id. apply String.eqb_refl.
Qed.

(** C3. A BUY whose account holds less than [fill_price * fill_quantity] is
    rejected by [_fill_order] with the reason "Insufficient funds"; the
    accounts, positions and trades tables are left as they were, the order
    keeps its fill attributes, and only its own row is rewritten. *)
Theorem insufficient_funds_rejection
    (s : Session) (env : Env) (order : PaperOrder) (fill_price : Decimal)
    (fill_quantity : Z) (account : PaperAccount) :
  ord_action order = "BUY" ->
  query_account s (ord_user_id order) = Some account ->
  (acc_current_balance account < Dmul_int fill_price fill_quantity)%Q ->
  let out := _fill_order s env order fill_price fill_quantity in
  handled out = true /\
  ord_status (order_of out) = "REJECTED" /\
  ord_rejection_reason (order_of out) = Some "Insufficient funds" /\
  ord_filled_quantity (order_of out) = ord_filled_quantity order /\
  ord_average_price (order_of out) = ord_average_price order /\
  ord_filled_timestamp (order_of out) = ord_filled_timestamp order /\
  accounts (session_of out) = accounts s /\
  positions (session_of out) = positions s /\
  trades (session_of out) = trades s /\
  query_account (session_of out) (ord_user_id order) = Some account /\
  (forall row, query_order s (ord_order_id order) = Some row ->
               query_order (session_of out) (ord_order_id order) = Some (order_of out)) /\
  (forall other, other <> ord_order_id order ->
               query_order (session_of out) other = query_order s other).
Proof.
  intros Hbuy Hacc Hlt out.
  assert (U : underfunded s order fill_price fill_quantity = true).
  { unfold underfunded, insufficient_funds. rewrite Hbuy, Hacc. simpl.
    apply Dlt_spec. exact Hlt. }
  subst out. rewrite (fill_order_underfunded _ env _ _ _ U).
  unfold fill_rejected. cbn [handled order_of session_of].
  repeat split; try assumption.
  - intros row Hrow.
    exact (persist_order_found s (mark_rejected order "Insufficient funds") row Hrow).
  - intros other Hne. unfold query_order, persist_order. cbn [orders set_orders].
    apply find_update_first_other; intros x Hx; unfold order_with_id in *;
      cbn [ord_order_id mark_rejected].
    + apply String.eqb_eq in Hx. cbn [ord_order_id mark_rejected] in Hx.
      apply String.eqb_neq. congruence.
    + apply String.eqb_neq. congruence.
Qed.

(** The example of the specification: balance 1000, BUY 100 shares at 50. *)
Lemma insufficient_funds_rejection_witness :
  (acc_current_balance (sample_account 1000) < Dmul_int 50 100)%Q /\
  ord_status (order_of (_fill_order poor_session sample_env poor_buy 50 100)) = "REJECTED" /\
  accounts (session_of (_fill_order poor_session sample_env poor_buy 50 100))
    = [sample_account 1000].
Proof.
  split; [reflexivity|].
  destruct (insufficient_funds_rejection poor_session sample_env poor_buy 50 100
              (sample_account 1000) eq_refl eq_refl eq_refl)
    as (_ & St & _ & _ & _ & _ & Acc & _).
  split; [exact St | exact Acc].
Defined.

(** ** Trade records *)

(** C10. [_fill_order] either rejects and adds no trade, or appends exactly
    one trade whose [brokerage] and [taxes] are 0 and whose [net_value] and
    [trade_value] are both [fill_price * fill_quantity]. *)
Theorem trade_has_no_brokerage_or_taxes
    (s : Session) (env : Env) (order : PaperOrder) (fill_price : Decimal)
    (fill_quantity : Z) :
  let out := _fill_order s env order fill_price fill_quantity in
  (ord_status (order_of out) = "REJECTED" /\ trades (session_of out) = trades s) \/
  (ord_status (order_of out) = "FILLED" /\
   exists trade,
     trades (session_of out) = (trades s ++ [trade])%list /\
     trd_order_id trade = ord_order_id order /\
     trd_quantity trade = fill_quantity /\
     trd_price trade = fill_price /\
     trd_brokerage trade = 0%Q /\
     trd_taxes trade = 0%Q /\
     trd_trade_value trade = (fill_price * inject_Z fill_quantity)%Q /\
     trd_net_value trade = trd_trade_value trade /\
     (trd_net_value trade == trd_trade_value trade + trd_brokerage trade + trd_taxes trade)%Q).
Proof.
  intro out. subst out.
  destruct (underfunded s order fill_price fill_quantity) eqn:U.
  - left. rewrite (fill_order_underfunded _ env _ _ _ U). split; reflexivity.
  - right. destruct (fill_order_funded s env order fill_price fill_quantity U)
      as (Ho & _ & Ht & _).
    split; [rewrite Ho; reflexivity|].
    eexists. split; [exact Ht|].
    cbn [new_PaperTrade trd_order_id trd_quantity trd_price trd_brokerage trd_taxes
         trd_trade_value trd_net_value]. unfold Dmul_int.
    repeat split; try reflexivity. ring.
Qed.

(** ** Cancellation *)

Lemma find_none_of_existsb {A : Type} (p q : A -> bool) (l : list A) :
  (forall x, q x = true -> p x = true) ->
  existsb p l = false -> find q l = None.
Proof.
  intros Hpq. induction l as [|x r IH]; simpl; [reflexivity|].
  rewrite orb_false_iff. intros [Px Pr].
  destruct (q x) eqn:Qx; [|exact (IH Pr)].
  rewrite (Hpq x Qx) in Px. discriminate.
Qed.

Lemma pending_with_id_cancelled (order_id : string) (o : PaperOrder) (now : Timestamp) :
  pending_with_id order_id (mark_cancelled o now) = false.
Proof.
  unfold pending_with_id. cbn [mark_cancelled ord_order_id ord_status].
  apply andb_false_r.
Qed.

(** What the query of [cancel_order] finds in a table with unique ids, and
    what the table looks like after the assignment. *)
Lemma cancel_rows (l : list PaperOrder) (order_id : string) (now : Timestamp) :
  unique_ids l = true ->
  match find (pending_with_id order_id) l with
  | Some o =>
      find (order_with_id order_id) l = Some o /\
      ord_status o = "PENDING" /\
      find (order_with_id order_id)
           (update_first (pending_with_id order_id) (fun o => mark_cancelled o now) l)
        = Some (mark_cancelled o now) /\
      find (pending_with_id order_id)
           (update_first (pending_with_id order_id) (fun o => mark_cancelled o now) l)
        = None
  | None =>
      forall o, find (order_with_id order_id) l = Some o -> ord_status o <> "PENDING"
  end.
Proof.
  induction l as [|x r IH]; simpl.
  - intros _ o E. discriminate.
  - rewrite andb_true_iff, negb_true_iff. intros [Hx Hr].
    specialize (IH Hr).
    destruct (pending_with_id order_id x) eqn:Px.
    + unfold pending_with_id in Px. apply andb_true_iff in Px. destruct Px as [Pid Pst].
      unfold order_with_id at 1. rewrite Pid.
      split; [reflexivity|]. split; [apply String.eqb_eq; exact Pst|].
      simpl. unfold order_with_id at 1. cbn [mark_cancelled ord_order_id]. rewrite Pid.
      split; [reflexivity|].
      rewrite pending_with_id_cancelled.
      apply (find_none_of_existsb (order_with_id (ord_order_id x))); [|exact Hx].
      intros y Hy. unfold pending_with_id in Hy. apply andb_true_iff in Hy.
      destruct Hy as [Hy _]. unfold order_with_id.
      apply String.eqb_eq in Hy. apply String.eqb_eq in Pid.
      apply String.eqb_eq. congruence.
    + destruct (order_with_id order_id x) eqn:Ox.
      * assert (N : find (pending_with_id order_id) r = None).
        { apply (find_none_of_existsb (order_with_id (ord_order_id x))); [|exact Hx].
          intros y Hy. unfold pending_with_id in Hy. apply andb_true_iff in Hy.
          destruct Hy as [Hy _]. unfold order_with_id in *.
          apply String.eqb_eq in Hy. apply String.eqb_eq in Ox.
          apply String.eqb_eq. congruence. }
        rewrite N. intros o E. inversion E; subst o.
        unfold pending_with_id, order_with_id in *. rewrite Ox in Px. simpl in Px.
        apply String.eqb_neq. exact Px.
      * destruct (find (pending_with_id order_id) r) as [o|] eqn:Fr.
        -- simpl. rewrite Px, Ox. exact IH.
        -- exact IH.
Qed.

(** C8. With unique order ids, [cancel_order] returns [True] exactly when the
    row with that id exists and is PENDING; it then sets that row to CANCELLED
    with the cancel timestamp and touches nothing else.  Otherwise (no such
    order, or a FILLED, REJECTED or CANCELLED one) it returns [False] and the
    session is unchanged.  A further cancel of the same id always fails. *)
Theorem cancel_order_compare_and_set (s : Session) (env : Env) (order_id : string) :
  unique_order_ids s = true ->
  let s' := fst (cancel_order s env order_id) in
  let ok := snd (cancel_order s env order_id) in
  (ok = true <->
     exists o, query_order s order_id = Some o /\ ord_status o = "PENDING") /\
  (ok = false -> s' = s) /\
  (ok = true ->
     exists o o',
       query_order s order_id = Some o /\
       query_order s' order_id = Some o' /\
       o' = mark_cancelled o (utcnow env) /\
       ord_status o' = "CANCELLED" /\
       ord_cancelled_timestamp o' = Some (utcnow env) /\
       accounts s' = accounts s /\ positions s' = positions s /\
       trades s' = trades s /\
       (forall other, other <> order_id ->
                      query_order s' other = query_order s other)) /\
  (forall env', cancel_order s' env' order_id = (s', false)).
Proof.
  intros U. cbv zeta. unfold unique_order_ids in U.
  pose proof (cancel_rows (orders s) order_id (utcnow env) U) as R.
  destruct (cancel_order s env order_id) as [s' ok] eqn:C. cbn [fst snd].
  unfold cancel_order in C.
  destruct (find (pending_with_id order_id) (orders s)) as [o|] eqn:Fo;
    inversion C; subst s' ok; clear C.
  - destruct R as (Ro & Rst & Rnew & Rnone).
    split; [split; [intros _; exists o; split; assumption | reflexivity]|].
    split; [discriminate|].
    split.
    + intros _. exists o, (mark_cancelled o (utcnow env)).
      unfold query_order. cbn [orders set_orders accounts positions trades].
      repeat split; try assumption; try reflexivity.
      intros other Hne.
      apply find_update_first_other; intros x Hx; unfold pending_with_id in Hx;
        apply andb_true_iff in Hx; destruct Hx as [Hx _];
        apply String.eqb_eq in Hx; unfold order_with_id;
        cbn [mark_cancelled ord_order_id]; apply String.eqb_neq; congruence.
    + intros env'. unfold cancel_order. cbn [orders set_orders].
      rewrite Rnone. reflexivity.
  - split.
    + split; [discriminate|]. intros (o & Eo & Est). exfalso. exact (R o Eo Est).
    + split; [reflexivity|]. split; [discriminate|].
      intros env'. unfold cancel_order. rewrite Fo. reflexivity.
Qed.

(** Cancelling the pending order PT02 succeeds; cancelling it again fails. *)
Lemma cancel_order_compare_and_set_witness :
  unique_order_ids book_session = true /\
  snd (cancel_order book_session sample_env "PT02") = true /\
  snd (cancel_order (fst (cancel_order book_session sample_env "PT02")) sample_env "PT02")
    = false.
Proof.
  split; [reflexivity|]. split; [reflexivity|].
  destruct (cancel_order_compare_and_set book_session sample_env "PT02" eq_refl)
    as (_ & _ & _ & Again).
  rewrite (Again sample_env). reflexivity.
Defined.

(** ** What one call of [process_order] can do *)

Lemma process_order_cases {F : Type} `{MarketDataFeed F}
    (f : F) (s : Session) (env : Env) (order : PaperOrder) :
  snd (process_order f s env order) = pending s order \/
  (exists reason, snd (process_order f s env order) = rejected s order reason) \/
  (exists price,
     snd (process_order f s env order) = _fill_order s env order price (ord_quantity order)).
Proof.
  unfold process_order.
  destruct (ord_price_type order =s "MARKET").
  { unfold _process_market_order.
    destruct (get_price_with_retry _ _ _ _) as [[p|] f']; cbn [snd]; eauto. }
  destruct (ord_price_type order =s "LIMIT").
  { unfold _process_limit_order.
    destruct (ord_price order) as [price|]; cbn [snd]; eauto.
    destruct (get_live_price _ _ _) as [[p|] f']; cbn [snd]; eauto.
    match goal with |- context [if ?c then (_, _fill_order _ _ _ _ _) else _] =>
      destruct c end; cbn [snd]; eauto. }
  destruct ((ord_price_type order =s "SL") || (ord_price_type order =s "SLM")).
  { unfold _process_stop_loss_order.
    destruct (ord_trigger_price order) as [trigger|]; cbn [snd]; eauto.
    destruct (get_live_price _ _ _) as [[p|] f']; cbn [snd]; eauto.
    match goal with |- context [if ?c then (_, _fill_order _ _ _ _ _) else _] =>
      destruct c end; cbn [snd]; eauto. }
  cbn [snd]. eauto.
Qed.

(** ** Balance conservation *)




Lemma update_account_balance_query (s : Session) (o : PaperOrder) (p : Decimal) (q : Z)
    (u : string) :
  query_account (_update_account_balance s o p q) u =
  if u =s ord_user_id o then option_map (settled o p q) (query_account s u)
  else query_account s u.
Proof.
  unfold query_account, _update_account_balance, settled.
  destruct (String.eqb_spec u (ord_user_id o)) as [->|Hne].
  - destruct (find (account_of (ord_user_id o)) (accounts s)) as [a|] eqn:Fa.
    + destruct (ord_action o =s "BUY"); cbn [accounts set_accounts];
        rewrite find_update_first_same by (intros x Hx; exact Hx);
        rewrite Fa; reflexivity.
    + rewrite Fa. reflexivity.
  - destruct (find (account_of (ord_user_id o)) (accounts s)) as [a|] eqn:Fa;
      [|reflexivity].
    destruct (ord_action o =s "BUY"); cbn [accounts set_accounts];
      apply find_update_first_other; intros x Hx; unfold account_of in *;
      cbn [set_current_balance acc_user_id];
      apply String.eqb_eq in Hx; apply String.eqb_neq; congruence.
Qed.

(** The account rows after [_fill_order]. *)
Lemma fill_order_query_account (s : Session) (env : Env) (o : PaperOrder)
    (p : Decimal) (q : Z) (u : string) :
  query_account (session_of (_fill_order s env o p q)) u =
  if underfunded s o p q then query_account s u
  else if u =s ord_user_id o then option_map (settled o p q) (query_account s u)
  else query_account s u.
Proof.
  destruct (underfunded s o p q) eqn:U.
  - rewrite (fill_order_underfunded _ env _ _ _ U). reflexivity.
  - destruct (fill_order_funded s env o p q U) as (_ & _ & _ & Ha & _).
    unfold query_account at 1. rewrite Ha.
    exact (update_account_balance_query s o p q u).
Qed.





Lemma cancel_order_ledger (s : Session) (env : Env) (order_id : string) :
  accounts (fst (cancel_order s env order_id)) = accounts s /\
  positions (fst (cancel_order s env order_id)) = positions s /\
  trades (fst (cancel_order s env order_id)) = trades s.
Proof.
  unfold cancel_order. destruct (find _ (orders s)); repeat split; reflexivity.
Qed.




(** ** Position rows *)

Lemma update_position_no_zero (s : Session) (o : PaperOrder) (p : Decimal) (q : Z) :
  no_zero_position s = true -> no_zero_position (_update_position s o p q) = true.
Proof.
  unfold no_zero_position, _update_position. intro Z0.
  destruct (find _ (positions s)) as [pos|] eqn:Fp.
  - destruct (_ =? 0) eqn:N; cbn [positions set_positions].
    + apply forallb_delete_first. exact Z0.
    + apply forallb_update_first; [|exact Z0].
      intros x _. cbn [set_position_fields pos_quantity]. rewrite N. reflexivity.
  - destruct (negb _) eqn:N; [|exact Z0]. cbn [positions set_positions].
    rewrite forallb_app, Z0. cbn [forallb new_PaperPosition pos_quantity].
    rewrite N. reflexivity.
Qed.

Lemma fill_order_no_zero (s : Session) (env : Env) (o : PaperOrder) (p : Decimal) (q : Z) :
  no_zero_position s = true ->
  no_zero_position (session_of (_fill_order s env o p q)) = true.
Proof.
  intro Z0. destruct (underfunded s o p q) eqn:U.
  - rewrite (fill_order_underfunded _ env _ _ _ U). exact Z0.
  - destruct (fill_order_funded s env o p q U) as (_ & _ & _ & _ & Hp & _).
    unfold no_zero_position. rewrite Hp.
    exact (update_position_no_zero s o p q Z0).
Qed.

Lemma find_delete_first_unique {A : Type} (sel : A -> bool) (l : list A) :
  (List.length (filter sel l) <= 1)%nat -> find sel (delete_first sel l) = None.
Proof.
  induction l as [|x r IH]; simpl; [reflexivity|].
  destruct (sel x) eqn:E; simpl.
  - intro L. apply find_none_of_filter. lia.
  - rewrite E. exact IH.
Qed.

(** C7. If no position row has quantity 0, none has after [_fill_order],
    [process_order], [cancel_order] or [reset_paper_account].  A fill that
    brings the quantity of the order's position to 0 removes one row with
    that key (the only one, under the unique constraint on the key); a fill
    that finds no row adds one only when its quantity is not 0. *)
Theorem position_nonzero_invariant (s : Session) :
  no_zero_position s = true ->
  (forall env order fill_price fill_quantity,
     no_zero_position (session_of (_fill_order s env order fill_price fill_quantity))
       = true) /\
  (forall (F : Type) (feed : MarketDataFeed F) (f : F) env order,
     no_zero_position (session_of (snd (process_order f s env order))) = true) /\
  (forall env order_id, no_zero_position (fst (cancel_order s env order_id)) = true) /\
  (forall user_id, no_zero_position (fst (reset_paper_account s user_id)) = true) /\
  (forall env order fill_price fill_quantity position,
     underfunded s order fill_price fill_quantity = false ->
     position_of_order s order = Some position ->
     pos_quantity position + quantity_change order fill_quantity = 0 ->
     let s' := session_of (_fill_order s env order fill_price fill_quantity) in
     S (List.length (rows_of_order s' order)) = List.length (rows_of_order s order) /\
     ((List.length (rows_of_order s order) <= 1)%nat -> position_of_order s' order = None)) /\
  (forall env order fill_price fill_quantity,
     underfunded s order fill_price fill_quantity = false ->
     position_of_order s order = None ->
     let s' := session_of (_fill_order s env order fill_price fill_quantity) in
     (quantity_change order fill_quantity = 0 -> positions s' = positions s) /\
     (quantity_change order fill_quantity <> 0 ->
      exists row, positions s' = (positions s ++ [row])%list /\
                  pos_quantity row = quantity_change order fill_quantity)).
Proof.
  intro Z0.
  split; [intros; apply fill_order_no_zero; exact Z0|].
  split.
  { intros F feed f env order.
    destruct (process_order_cases f s env order) as [E | [[r E] | [p E]]]; rewrite E.
    - exact Z0.
    - exact Z0.
    - apply fill_order_no_zero. exact Z0. }
  split.
  { intros env order_id. unfold no_zero_position.
    destruct (cancel_order_ledger s env order_id) as (_ & Ep & _). rewrite Ep. exact Z0. }
  split.
  { intros user_id. unfold reset_paper_account, no_zero_position in *.
    destruct (query_account s user_id); cbn [fst positions]; [|exact Z0].
    rewrite forallb_forall in *. intros x Hx. apply filter_In in Hx. apply Z0, Hx. }
  split.
  { intros env order p q pos U Fp Hz. cbv zeta.
    destruct (fill_order_funded s env order p q U) as (_ & _ & _ & _ & Hp & _).
    unfold rows_of_order, position_of_order, query_position in *. rewrite Hp.
    unfold _update_position. rewrite Fp.
    unfold quantity_change in Hz. rewrite Hz. cbn [Z.eqb positions set_positions].
    split.
    - exact (filter_delete_first _ _ pos Fp).
    - apply find_delete_first_unique. }
  intros env order p q U Fp. cbv zeta.
  destruct (fill_order_funded s env order p q U) as (_ & _ & _ & _ & Hp & _).
  unfold position_of_order, query_position in Fp. rewrite Hp.
  unfold _update_position. rewrite Fp. fold (quantity_change order q).
  split.
  - intros ->. reflexivity.
  - intros Hne. apply Z.eqb_neq in Hne. rewrite Hne. cbn [negb positions set_positions].
    eexists. split; reflexivity.
Qed.

(** Closing the long position of 10 with a SELL of 10 deletes its row. *)
Lemma position_nonzero_invariant_witness :
  no_zero_position long_session = true /\
  no_zero_position (session_of (_fill_order long_session sample_env sell_10 120 10)) = true /\
  position_of_order (session_of (_fill_order long_session sample_env sell_10 120 10)) sell_10
    = None.
Proof.
  split; [reflexivity|].
  destruct (position_nonzero_invariant long_session eq_refl)
    as (Fill & _ & _ & _ & Close & _).
  split; [exact (Fill sample_env sell_10 120%Q 10)|].
  refine (proj2 (Close sample_env sell_10 120%Q 10 long_10_at_100 eq_refl eq_refl eq_refl) _).
  simpl. lia.
Defined.

(** ** Order evaluation *)

Lemma fill_order_verdict (s : Session) (env : Env) (o : PaperOrder) (p : Decimal) (q : Z) :
  if underfunded s o p q
  then rejected_with s (_fill_order s env o p q) "Insufficient funds"
  else filled_at (_fill_order s env o p q) p q.
Proof.
  destruct (underfunded s o p q) eqn:U.
  - rewrite (fill_order_underfunded _ env _ _ _ U).
    unfold rejected_with, fill_rejected. cbn. repeat split.
  - destruct (fill_order_funded s env o p q U) as (Ho & Hh & _).
    unfold filled_at. rewrite Ho, Hh. cbn. repeat split.
Qed.

Lemma rejected_verdict (s : Session) (o : PaperOrder) (reason : string) :
  rejected_with s (rejected s o reason) reason.
Proof. unfold rejected_with, rejected. cbn. repeat split. Qed.

Lemma underfunded_buy (s : Session) (o : PaperOrder) (p : Decimal) (q : Z) :
  ord_action o = "BUY" -> underfunded s o p q = insufficient_funds s o p q.
Proof. unfold underfunded. intros ->. reflexivity. Qed.

Lemma underfunded_sell (s : Session) (o : PaperOrder) (p : Decimal) (q : Z) :
  ord_action o = "SELL" -> underfunded s o p q = false.
Proof. unfold underfunded. intros ->. reflexivity. Qed.

(** A verdict ([rejected_with] or [filled_at]) gives the returned flag and a
    status other than PENDING. *)
Ltac settled_verdict V :=
  let V' := fresh "V" in
  let Hs := fresh "Hs" in
  pose proof V as V'; unfold rejected_with, filled_at in V';
  destruct V' as (? & Hs & _);
  split; [assumption | split; [rewrite Hs; discriminate | exact V]].

(** C4, as the code has it. A MARKET order is handled in one call and never
    left PENDING: with no price after the retries it is REJECTED; with a price
    it is FILLED for its full quantity at that price, unless it is a BUY that
    the account cannot pay for, which is REJECTED for insufficient funds. *)
Theorem market_order_handled_in_one_call {F : Type} `{MarketDataFeed F}
    (f : F) (s : Session) (env : Env) (order : PaperOrder) :
  ord_price_type order = "MARKET" ->
  let out := snd (process_order f s env order) in
  handled out = true /\
  ord_status (order_of out) <> "PENDING" /\
  match fst (get_price_with_retry f (ord_symbol order) (ord_exchange order)
                                  default_max_retries) with
  | None => rejected_with s out "Unable to get current market price"
  | Some price =>
      if underfunded s order price (ord_quantity order)
      then rejected_with s out "Insufficient funds"
      else filled_at out price (ord_quantity order)
  end.
Proof.
  intros M. cbv zeta. unfold process_order. rewrite M. cbn [String.eqb Ascii.eqb Bool.eqb].
  unfold _process_market_order.
  destruct (get_price_with_retry f _ _ _) as [[price|] f']; cbn [fst snd].
  - pose proof (fill_order_verdict s env order price (ord_quantity order)) as V.
    destruct (underfunded s order price (ord_quantity order)); settled_verdict V.
  - pose proof (rejected_verdict s order "Unable to get current market price") as V.
    settled_verdict V.
Qed.

(** The scenario of the specification: MARKET BUY 10 with the price 2450.50. *)
Lemma market_order_handled_in_one_call_witness :
  ord_price_type market_buy_10 = "MARKET" /\
  filled_at (snd (process_order (F := ScriptedFeed) [Some (4901 # 2)]
                                rich_session sample_env market_buy_10))
            (4901 # 2) 10.
Proof.
  split; [reflexivity|].
  exact (proj2 (proj2 (market_order_handled_in_one_call (F := ScriptedFeed)
                         [Some (4901 # 2)] rich_session sample_env market_buy_10 eq_refl))).
Defined.

(** C4 as stated fails: a MARKET BUY of 100 at the available price 50 on a
    balance of 1000 ends REJECTED, not FILLED. *)
Lemma market_buy_with_price_not_filled :
  ~ (forall (f : ScriptedFeed) (s : Session) (env : Env) (order : PaperOrder)
            (price : Decimal),
       ord_price_type order = "MARKET" ->
       fst (get_price_with_retry f (ord_symbol order) (ord_exchange order)
                                 default_max_retries) = Some price ->
       ord_status (order_of (snd (process_order f s env order))) = "FILLED").
Proof.
  intro Claim.
  specialize (Claim [Some 50%Q] poor_session sample_env poor_buy 50%Q eq_refl eq_refl).
  vm_compute in Claim. discriminate.
Qed.

(** C5, as the code has it. For a LIMIT order with a price: with no current
    price the order stays as it is.  A BUY is filled exactly when
    [current <= limit] and the account can pay [limit * quantity]; when
    [current <= limit] and it cannot, the order is REJECTED for insufficient
    funds.  A SELL is filled exactly when [current >= limit].  The fill price
    is the limit price and the quantity the full quantity.  In every other
    case the call returns [False] and changes nothing. *)
Theorem limit_order_evaluation {F : Type} `{MarketDataFeed F}
    (f : F) (s : Session) (env : Env) (order : PaperOrder) (limit_price : Decimal) :
  ord_price_type order = "LIMIT" ->
  ord_price order = Some limit_price ->
  let out := snd (process_order f s env order) in
  match fst (get_live_price f (ord_symbol order) (ord_exchange order)) with
  | None => out = pending s order
  | Some current_price =>
      (ord_action order = "BUY" ->
         ((current_price <= limit_price)%Q ->
            if insufficient_funds s order limit_price (ord_quantity order)
            then rejected_with s out "Insufficient funds"
            else filled_at out limit_price (ord_quantity order)) /\
         (~ (current_price <= limit_price)%Q -> out = pending s order)) /\
      (ord_action order = "SELL" ->
         ((limit_price <= current_price)%Q ->
            filled_at out limit_price (ord_quantity order)) /\
         (~ (limit_price <= current_price)%Q -> out = pending s order))
  end.
Proof.
  intros L P. cbv zeta. unfold process_order. rewrite L.
  cbn [String.eqb Ascii.eqb Bool.eqb].
  unfold _process_limit_order. rewrite P.
  destruct (get_live_price f _ _) as [[current|] f']; cbn [fst snd]; [|reflexivity].
  pose proof (fill_order_verdict s env order limit_price (ord_quantity order)) as V.
  split; intros A; rewrite A; cbn [String.eqb Ascii.eqb Bool.eqb].
  - rewrite (underfunded_buy _ _ _ _ A) in V. split; intros C.
    + apply Dle_spec in C. rewrite C. cbn [snd]. exact V.
    + destruct (Dle current limit_price) eqn:D; [|reflexivity].
      apply Dle_spec in D. contradiction.
  - rewrite (underfunded_sell _ _ _ _ A) in V. split; intros C.
    + apply Dge_spec in C. rewrite C. cbn [snd]. exact V.
    + destruct (Dge current limit_price) eqn:D; [|reflexivity].
      apply Dge_spec in D. contradiction.
Qed.

(** The boundary of the specification: a BUY LIMIT at 100 fills at the
    current price 100.00 and stays pending at 100.01. *)
Lemma limit_order_evaluation_witness :
  filled_at (snd (process_order (F := ScriptedFeed) [Some 100%Q]
                                rich_session sample_env limit_buy_10_at_100))
            100 10 /\
  snd (process_order (F := ScriptedFeed) [Some (10001 # 100)]
                     rich_session sample_env limit_buy_10_at_100)
    = pending rich_session limit_buy_10_at_100.
Proof.
  split.
  - refine (proj1 (proj1 (limit_order_evaluation (F := ScriptedFeed) [Some 100%Q]
                            rich_session sample_env limit_buy_10_at_100 100%Q
                            eq_refl eq_refl) eq_refl) _).
    vm_compute. discriminate.
  - refine (proj2 (proj1 (limit_order_evaluation (F := ScriptedFeed) [Some (10001 # 100)]
                            rich_session sample_env limit_buy_10_at_100 100%Q
                            eq_refl eq_refl) eq_refl) _).
    vm_compute. intro C. apply C. reflexivity.
Defined.

(** C5 as stated fails: a BUY LIMIT of 100 at 50 whose condition holds
    (current price 50) on a balance of 1000 is REJECTED, neither filled nor
    left PENDING. *)
Lemma limit_buy_condition_met_not_filled :
  ~ (forall (f : ScriptedFeed) (s : Session) (env : Env) (order : PaperOrder)
            (limit_price current_price : Decimal),
       ord_price_type order = "LIMIT" ->
       ord_price order = Some limit_price ->
       ord_action order = "BUY" ->
       fst (get_live_price f (ord_symbol order) (ord_exchange order)) = Some current_price ->
       ((current_price <= limit_price)%Q <->
        ord_status (order_of (snd (process_order f s env order))) = "FILLED")).
Proof.
  intro Claim.
  destruct (Claim [Some 50%Q] poor_session sample_env poor_limit_buy 50%Q 50%Q
                  eq_refl eq_refl eq_refl eq_refl) as [Fills _].
  assert (C : (50 <= 50)%Q) by (vm_compute; discriminate).
  specialize (Fills C). vm_compute in Fills. discriminate.
Qed.

(** C6, as the code has it. For an SL or SLM order with a trigger price: with
    no current price the order stays as it is.  A BUY triggers exactly when
    [current >= trigger], a SELL exactly when [current <= trigger]; when the
    trigger is not met the call returns [False] and changes nothing.  On
    trigger the fill is applied for the full quantity at the execution price:
    for SL the order's price when it is set and not zero, else the current
    price; for SLM the current price.  A triggered BUY that the account
    cannot pay for is REJECTED for insufficient funds. *)
Theorem stop_loss_order_evaluation {F : Type} `{MarketDataFeed F}
    (f : F) (s : Session) (env : Env) (order : PaperOrder) (trigger_price : Decimal) :
  ord_price_type order = "SL" \/ ord_price_type order = "SLM" ->
  ord_trigger_price order = Some trigger_price ->
  let out := snd (process_order f s env order) in
  match fst (get_live_price f (ord_symbol order) (ord_exchange order)) with
  | None => out = pending s order
  | Some current_price =>
      exists fill_price,
        execution_price order current_price fill_price /\
        (ord_action order = "BUY" ->
           ((trigger_price <= current_price)%Q ->
              if insufficient_funds s order fill_price (ord_quantity order)
              then rejected_with s out "Insufficient funds"
              else filled_at out fill_price (ord_quantity order)) /\
           (~ (trigger_price <= current_price)%Q -> out = pending s order)) /\
        (ord_action order = "SELL" ->
           ((current_price <= trigger_price)%Q ->
              filled_at out fill_price (ord_quantity order)) /\
           (~ (current_price <= trigger_price)%Q -> out = pending s order))
  end.
Proof.
  intros K T. cbv zeta.
  assert (E : exists b, (ord_price_type order =s "SL") = b /\
                        snd (process_order f s env order)
                        = snd (_process_stop_loss_order f s env order) /\
                        (b = true -> ord_price_type order = "SL") /\
                        (b = false -> ord_price_type order = "SLM")).
  { unfold process_order. destruct K as [K|K]; rewrite K;
      cbn [String.eqb Ascii.eqb Bool.eqb orb]; eexists; repeat split; congruence. }
  destruct E as (b & Eb & Eout & Bt & Bf). rewrite Eout. clear Eout.
  unfold _process_stop_loss_order. rewrite T, Eb.
  destruct (get_live_price f _ _) as [[current|] f']; cbn [fst snd]; [|reflexivity].
  set (x := if b then match ord_price order with
                      | Some price => if Decimal_truthy price then price else current
                      | None => current
                      end
            else current).
  assert (X : execution_price order current x).
  { subst x. destruct b.
    - specialize (Bt eq_refl). destruct (ord_price order) as [price|] eqn:P.
      + destruct (Decimal_truthy price) eqn:D.
        * apply exec_stop_limit; try assumption.
          intro Z0. apply Decimal_truthy_spec in Z0. congruence.
        * apply (exec_stop_limit_zero order current price); try assumption.
          apply Decimal_truthy_spec. exact D.
      + apply exec_stop_limit_unset; assumption.
    - apply exec_stop_market. exact (Bf eq_refl). }
  exists x. split; [exact X|].
  pose proof (fill_order_verdict s env order x (ord_quantity order)) as V.
  split; intros A; rewrite A; cbn [String.eqb Ascii.eqb Bool.eqb].
  - rewrite (underfunded_buy _ _ _ _ A) in V. split; intros C.
    + apply Dge_spec in C. rewrite C. cbn [snd]. exact V.
    + destruct (Dge current trigger_price) eqn:D; [|reflexivity].
      apply Dge_spec in D. contradiction.
  - rewrite (underfunded_sell _ _ _ _ A) in V. split; intros C.
    + apply Dle_spec in C. rewrite C. cbn [snd]. exact V.
    + destruct (Dle current trigger_price) eqn:D; [|reflexivity].
      apply Dle_spec in D. contradiction.
Qed.

Lemma execution_price_unique (order : PaperOrder) (current x y : Decimal) :
  execution_price order current x -> execution_price order current y -> x = y.
Proof.
  intros X Y. destruct X; destruct Y; try congruence;
    try (assert (price = price0) by congruence; subst; contradiction).
Qed.

(** A SELL stop-limit with trigger 95 and price 94: at the current price 96
    it stays pending, at 95 it is filled at 94. *)
Lemma stop_loss_order_evaluation_witness :
  snd (process_order (F := ScriptedFeed) [Some 96%Q] rich_session sample_env stop_sell_at_95)
    = pending rich_session stop_sell_at_95 /\
  filled_at (snd (process_order (F := ScriptedFeed) [Some 95%Q]
                                rich_session sample_env stop_sell_at_95))
            94 10.
Proof.
  split.
  - destruct (stop_loss_order_evaluation (F := ScriptedFeed) [Some 96%Q] rich_session
                sample_env stop_sell_at_95 95%Q (or_introl eq_refl) eq_refl)
      as (x & _ & _ & Sell).
    apply (proj2 (Sell eq_refl)). vm_compute. intro C. apply C. reflexivity.
  - destruct (stop_loss_order_evaluation (F := ScriptedFeed) [Some 95%Q] rich_session
                sample_env stop_sell_at_95 95%Q (or_introl eq_refl) eq_refl)
      as (x & X & _ & Sell).
    assert (E : x = 94%Q).
    { apply (execution_price_unique stop_sell_at_95 95%Q); [exact X|].
      apply exec_stop_limit; [reflexivity | reflexivity |].
      vm_compute. discriminate. }
    rewrite <- E. apply (proj1 (Sell eq_refl)). vm_compute. discriminate.
Defined.

(** C6 as stated fails on two inputs: a triggered BUY stop of 100 at 50 on a
    balance of 1000 is REJECTED instead of filled; and a triggered SELL
    stop-limit whose price is 0 is filled at the current price 90, not at its
    configured price. *)
Lemma stop_loss_trigger_not_filled_at_configured_price :
  ~ (forall (f : ScriptedFeed) (s : Session) (env : Env) (order : PaperOrder)
            (trigger_price current_price : Decimal),
       ord_price_type order = "SL" \/ ord_price_type order = "SLM" ->
       ord_trigger_price order = Some trigger_price ->
       ord_action order = "BUY" ->
       fst (get_live_price f (ord_symbol order) (ord_exchange order)) = Some current_price ->
       (trigger_price <= current_price)%Q ->
       ord_status (order_of (snd (process_order f s env order))) = "FILLED") /\
  ~ (forall (f : ScriptedFeed) (s : Session) (env : Env) (order : PaperOrder)
            (trigger_price current_price price : Decimal),
       ord_price_type order = "SL" ->
       ord_trigger_price order = Some trigger_price ->
       ord_price order = Some price ->
       ord_action order = "SELL" ->
       fst (get_live_price f (ord_symbol order) (ord_exchange order)) = Some current_price ->
       (current_price <= trigger_price)%Q ->
       ord_average_price (order_of (snd (process_order f s env order))) = Some price).
Proof.
  split; intro Claim.
  - assert (C : (50 <= 50)%Q) by (vm_compute; discriminate).
    specialize (Claim [Some 50%Q] poor_session sample_env poor_stop_buy 50%Q 50%Q
                      (or_intror eq_refl) eq_refl eq_refl eq_refl C).
    vm_compute in Claim. discriminate.
  - assert (C : (90 <= 95)%Q) by (vm_compute; discriminate).
    specialize (Claim [Some 90%Q] rich_session sample_env stop_sell_price_zero
                      95%Q 90%Q 0%Q eq_refl eq_refl eq_refl eq_refl eq_refl C).
    vm_compute in Claim. discriminate.
Qed.

(** ** Mode resolution *)

Section ModeStrings.
Import TradingServiceFactory.

Lemma lstrip_split (s : string) :
  exists pre, s = pre ++ lstrip s /\ all_space pre = true.
Proof.
  induction s as [|c r (pre & E & A)]; simpl.
  - exists "". split; reflexivity.
  - destruct (is_space c) eqn:C.
    + exists (String c pre). simpl. rewrite C, A, <- E. split; reflexivity.
    + exists "". split; reflexivity.
Qed.

Lemma rstrip_split (s : string) :
  exists post, s = rstrip s ++ post /\ all_space post = true.
Proof.
  induction s as [|c r (post & E & A)]; simpl.
  - exists "". split; reflexivity.
  - destruct (rstrip r) as [|c' r'] eqn:R.
    + simpl in E. subst r. destruct (is_space c) eqn:C.
      * exists (String c post). simpl. rewrite C, A. split; reflexivity.
      * exists post. split; [reflexivity | exact A].
    + exists post. simpl. rewrite E at 1. split; [reflexivity | exact A].
Qed.

Lemma rstrip_all_space (s : string) : all_space s = true -> rstrip s = "".
Proof.
  induction s as [|c r IH]; simpl; [reflexivity|].
  rewrite andb_true_iff. intros [C A]. rewrite (IH A), C. reflexivity.
Qed.

Lemma lstrip_padded (pre s : string) (c : ascii) :
  all_space pre = true -> is_space c = false ->
  lstrip (pre ++ String c s) = String c s.
Proof.
  intros A C. induction pre as [|x r IH]; simpl.
  - rewrite C. reflexivity.
  - simpl in A. apply andb_true_iff in A. destruct A as [X A].
    rewrite X. exact (IH A).
Qed.

(** [strip] removes exactly the whitespace around the two mode names. *)
Lemma strip_padded_mode (pre post mode : string) :
  mode = "live" \/ mode = "paper" ->
  all_space pre = true -> all_space post = true ->
  strip (pre ++ mode ++ post) = mode.
Proof.
  intros [-> | ->] A B; unfold strip; cbn [append].
  - rewrite (lstrip_padded pre _ "l"%char A eq_refl).
    cbn [rstrip]. rewrite (rstrip_all_space post B). reflexivity.
  - rewrite (lstrip_padded pre _ "p"%char A eq_refl).
    cbn [rstrip]. rewrite (rstrip_all_space post B). reflexivity.
Qed.

Lemma strip_split (s : string) :
  exists pre post, s = pre ++ strip s ++ post /\
                   all_space pre = true /\ all_space post = true.
Proof.
  destruct (lstrip_split s) as (pre & E1 & A1).
  destruct (rstrip_split (lstrip s)) as (post & E2 & A2).
  exists pre, post. unfold strip. rewrite <- E2. auto.
Qed.

(** C9, as the code has it. [_get_trading_mode] lowercases and trims the
    configured value and returns it exactly when the result is 'live' or
    'paper', that is, when the lowercased value is one of the two names
    between whitespace; on any other value it raises [ValueError].
    [get_current_mode] returns the same mode when there is one and falls back
    to 'live' when [_get_trading_mode] raises.  With the variable unset both
    give 'live'. *)
Theorem trading_mode_resolution (value : string) :
  let mode := strip (lower value) in
  ((mode = "live" \/ mode = "paper") <->
   (exists pre post name,
      (name = "live" \/ name = "paper") /\
      lower value = pre ++ name ++ post /\
      all_space pre = true /\ all_space post = true)) /\
  ((mode = "live" \/ mode = "paper") ->
     _get_trading_mode (Some value) = Returns mode /\
     get_current_mode (Some value) = mode) /\
  (mode <> "live" -> mode <> "paper" ->
     _get_trading_mode (Some value)
       = ValueError ("Invalid OPENALGO_TRADING_MODE: '" ++ mode
                     ++ "'. Must be 'live' or 'paper'") /\
     get_current_mode (Some value) = "live") /\
  _get_trading_mode None = Returns "live" /\
  get_current_mode None = "live".
Proof.
  cbv zeta. split; [split|].
  - intros M. destruct (strip_split (lower value)) as (pre & post & E & A & B).
    exists pre, post, (strip (lower value)). auto.
  - intros (pre & post & name & N & E & A & B). rewrite E.
    rewrite (strip_padded_mode pre post name N A B). exact N.
  - split; [|split; [|split; reflexivity]].
    + intros M. unfold get_current_mode, _get_trading_mode. cbn [getenv].
      destruct M as [M | M]; rewrite M; split; reflexivity.
    + intros NL NP. unfold get_current_mode, _get_trading_mode. cbn [getenv].
      apply String.eqb_neq in NL. apply String.eqb_neq in NP.
      rewrite NL, NP. split; reflexivity.
Qed.

(** ' PAPER ' resolves to 'paper'; 'invalid' raises. *)
Lemma trading_mode_resolution_witness :
  _get_trading_mode (Some " PAPER ") = Returns "paper" /\
  _get_trading_mode (Some "invalid")
    = ValueError "Invalid OPENALGO_TRADING_MODE: 'invalid'. Must be 'live' or 'paper'".
Proof.
  split.
  - exact (proj1 (proj1 (proj2 (trading_mode_resolution " PAPER ")) (or_intror eq_refl))).
  - refine (proj1 (proj1 (proj2 (proj2 (trading_mode_resolution "invalid"))) _ _));
      vm_compute; discriminate.
Defined.

(** C9 as stated fails: for the value 'invalid', which is neither mode,
    [get_current_mode] raises nothing and answers 'live'. *)
Lemma invalid_mode_defaults_to_live :
  strip (lower "invalid") <> "live" /\
  strip (lower "invalid") <> "paper" /\
  get_current_mode (Some "invalid") = "live".
Proof.
  repeat split; vm_compute; discriminate.
Qed.

End ModeStrings.

(** ** Position averaging *)

(** What [_update_position] does to an existing row that is not closed. *)
Lemma update_position_existing (s : Session) (o : PaperOrder) (p : Decimal) (q : Z)
    (pos : PaperPosition) :
  position_of_order s o = Some pos ->
  pos_quantity pos + quantity_change o q <> 0 ->
  exists average,
    position_of_order (_update_position s o p q) o
      = Some (set_position_fields pos (pos_quantity pos + quantity_change o q) average) /\
    ((0 < pos_quantity pos /\ 0 < quantity_change o q) \/
     (pos_quantity pos < 0 /\ quantity_change o q < 0) ->
       (average ==
          (pos_average_price pos * inject_Z (Z.abs (pos_quantity pos))
           + p * inject_Z (Z.abs (quantity_change o q)))
          / inject_Z (Z.abs (pos_quantity pos) + Z.abs (quantity_change o q)))%Q) /\
    (~ ((0 < pos_quantity pos /\ 0 < quantity_change o q) \/
        (pos_quantity pos < 0 /\ quantity_change o q < 0)) ->
       (Z.abs (pos_quantity pos + quantity_change o q) < Z.abs (pos_quantity pos) ->
          average = pos_average_price pos) /\
       (Z.abs (pos_quantity pos) <= Z.abs (pos_quantity pos + quantity_change o q) ->
          average = p)).
Proof.
  unfold position_of_order, query_position, _update_position, quantity_change.
  intros Fp Hne. rewrite Fp. apply Z.eqb_neq in Hne. rewrite Hne.
  cbn [positions set_positions].
  rewrite find_update_first_same by (intros x Hx; exact Hx).
  rewrite Fp. cbn [option_map].
  eexists. split; [reflexivity|].
  set (old := pos_quantity pos) in *.
  set (change := if ord_action o =s "BUY" then q else - q) in *.
  destruct (Z.gtb_spec old 0), (Z.gtb_spec change 0), (Z.ltb_spec old 0),
           (Z.ltb_spec change 0); cbn [andb orb];
    (split; [intros D; try (exfalso; lia); unfold Dmul_int; reflexivity
            | intros D; try (exfalso; apply D; lia)]);
    destruct (Z.ltb_spec (Z.abs (old + change)) (Z.abs old));
    split; intros; try reflexivity; exfalso; lia.
Qed.

(** C2 on concrete fills of a long position of 10 at 100, each at the price
    120.  BUY 10 gives 20 at the weighted mean 110; SELL 5 leaves 5 at 100;
    SELL 25 flips to -15 at the fill price 120.  SELL 15 flips the sign to -5
    but the row keeps the old average 100 instead of the fill price 120. *)
Theorem sign_flip_keeps_old_average :
  (exists row,
     positions (session_of (_fill_order long_session sample_env buy_10 120 10)) = [row] /\
     pos_quantity row = 20 /\ (pos_average_price row == 110)%Q) /\
  positions (session_of (_fill_order long_session sample_env sell_5 120 5))
    = [mkPaperPosition "u1" "TESTSTOCK" "NSE" "MIS" 5 100 0] /\
  positions (session_of (_fill_order long_session sample_env sell_25 120 25))
    = [mkPaperPosition "u1" "TESTSTOCK" "NSE" "MIS" (-15) 120 0] /\
  positions (session_of (_fill_order long_session sample_env sell_15 120 15))
    = [mkPaperPosition "u1" "TESTSTOCK" "NSE" "MIS" (-5) 100 0].
Proof.
  split; [|repeat split; reflexivity].
  eexists. split; [reflexivity|]. split; reflexivity.
Qed.

(** The fills for which the sign flips and the old average is kept: a
    position of [n] reversed by a fill of more than [n] and less than [2 n]. *)
Lemma sign_flip_below_double (s : Session) (o : PaperOrder) (p : Decimal) (q : Z)
    (pos : PaperPosition) :
  position_of_order s o = Some pos ->
  0 < pos_quantity pos ->
  ord_action o = "SELL" ->
  pos_quantity pos < q < 2 * pos_quantity pos ->
  exists row,
    position_of_order (_update_position s o p q) o = Some row /\
    pos_quantity row = pos_quantity pos - q /\
    pos_quantity row < 0 /\
    pos_average_price row = pos_average_price pos.
Proof.
  intros Fp Long Sell Range.
  assert (Q : quantity_change o q = - q) by (unfold quantity_change; rewrite Sell; reflexivity).
  destruct (update_position_existing s o p q pos Fp) as (avg & E & _ & Opp).
  { rewrite Q. lia. }
  rewrite Q in *.
  eexists. split; [exact E|]. cbn [set_position_fields pos_quantity pos_average_price].
  split; [lia|]. split; [lia|].
  apply Opp; lia.
Qed.

(** * Further properties of the code *)

(** ** Order rows under the engine *)

Lemma map_update_first {A B : Type} (g : A -> B) (sel : A -> bool) (f : A -> A)
    (l : list A) :
  (forall x, sel x = true -> g (f x) = g x) -> map g (update_first sel f l) = map g l.
Proof.
  intros Hg. induction l as [|x r IH]; simpl; [reflexivity|].
  destruct (sel x) eqn:E; simpl; [rewrite (Hg x E) | rewrite IH]; reflexivity.
Qed.

Lemma persist_order_ids (s : Session) (o : PaperOrder) :
  map ord_order_id (orders (persist_order s o)) = map ord_order_id (orders s).
Proof.
  unfold persist_order. cbn [orders set_orders].
  apply map_update_first. intros x Hx. unfold order_with_id in Hx.
  apply String.eqb_eq in Hx. congruence.
Qed.

Lemma persist_order_other (s : Session) (o : PaperOrder) (other : string) :
  other <> ord_order_id o ->
  query_order (persist_order s o) other = query_order s other.
Proof.
  intros Hne. unfold query_order, persist_order. cbn [orders set_orders].
  apply find_update_first_other; intros x Hx; unfold order_with_id in *.
  - apply String.eqb_eq in Hx. apply String.eqb_neq. congruence.
  - apply String.eqb_neq. congruence.
Qed.

Lemma same_instruction_refl (o : PaperOrder) : same_instruction o o.
Proof. unfold same_instruction. repeat split. Qed.

(** What one call of [process_order] writes to the order and to its table. *)
Lemma process_order_writes {F : Type} `{MarketDataFeed F}
    (f : F) (s : Session) (env : Env) (order : PaperOrder) :
  let out := snd (process_order f s env order) in
  out = pending s order \/
  (handled out = true /\
   (ord_status (order_of out) = "FILLED" \/ ord_status (order_of out) = "REJECTED") /\
   same_instruction (order_of out) order /\
   orders (session_of out) = orders (persist_order s (order_of out))).
Proof.
  cbv zeta.
  destruct (process_order_cases f s env order) as [E | [[r E] | [p E]]]; rewrite E.
  - left. reflexivity.
  - right. unfold rejected. cbn. unfold same_instruction. repeat split. right. reflexivity.
  - right. destruct (underfunded s order p (ord_quantity order)) eqn:U.
    + rewrite (fill_order_underfunded _ env _ _ _ U). unfold fill_rejected. cbn.
      unfold same_instruction. repeat split. right. reflexivity.
    + destruct (fill_order_funded s env order p (ord_quantity order) U)
        as (Ho & Hh & _ & _ & _ & Hord).
      rewrite Ho, Hh, Hord. cbn. unfold same_instruction. repeat split. left. reflexivity.
Qed.

(** X1. One call of [process_order] either returns [False] and changes
    neither the order nor the session, which happens only for a LIMIT, SL or
    SLM order, or returns [True] with the order FILLED or REJECTED.  It never
    assigns the attributes given at placement, never adds, removes or
    reorders order rows, and leaves every row with another order id as it
    was.  A price type other than MARKET, LIMIT, SL and SLM, a LIMIT order
    without price and a stop order without trigger price are REJECTED with
    the matching reason, without asking the feed. *)
Theorem process_order_settles_or_leaves {F : Type} `{MarketDataFeed F}
    (f : F) (s : Session) (env : Env) (order : PaperOrder) :
  let out := snd (process_order f s env order) in
  (handled out = false ->
     out = pending s order /\
     (ord_price_type order = "LIMIT" \/ ord_price_type order = "SL" \/
      ord_price_type order = "SLM")) /\
  (handled out = true ->
     ord_status (order_of out) = "FILLED" \/ ord_status (order_of out) = "REJECTED") /\
  same_instruction (order_of out) order /\
  map ord_order_id (orders (session_of out)) = map ord_order_id (orders s) /\
  (forall other, other <> ord_order_id order ->
     query_order (session_of out) other = query_order s other) /\
  (ord_price_type order <> "MARKET" -> ord_price_type order <> "LIMIT" ->
   ord_price_type order <> "SL" -> ord_price_type order <> "SLM" ->
     fst (process_order f s env order) = f /\
     rejected_with s out ("Unsupported order type: " ++ ord_price_type order)) /\
  (ord_price_type order = "LIMIT" -> ord_price order = None ->
     fst (process_order f s env order) = f /\
     rejected_with s out "Limit order missing price") /\
  (ord_price_type order = "SL" \/ ord_price_type order = "SLM" ->
   ord_trigger_price order = None ->
     fst (process_order f s env order) = f /\
     rejected_with s out "Stop-loss order missing trigger price").
Proof.
  cbv zeta.
  pose proof (process_order_writes f s env order) as W. cbv zeta in W.
  split; [|split; [|split; [|split; [|split; [|split; [|split]]]]]].
  - intros Hf. destruct W as [E | (Hh & _)]; [|congruence].
    split; [exact E|].
    unfold process_order in *.
    destruct (String.eqb_spec (ord_price_type order) "MARKET") as [M|_].
    { exfalso. unfold _process_market_order in Hf.
      destruct (get_price_with_retry f _ _ _) as [[p|] f'].
      - cbn [snd] in Hf.
        destruct (underfunded s order p (ord_quantity order)) eqn:U.
        + rewrite (fill_order_underfunded _ env _ _ _ U) in Hf. discriminate.
        + destruct (fill_order_funded s env order p (ord_quantity order) U)
            as (_ & Hh & _). congruence.
      - discriminate. }
    destruct (String.eqb_spec (ord_price_type order) "LIMIT") as [L|_]; [auto|].
    destruct (String.eqb_spec (ord_price_type order) "SL") as [S1|_]; [auto|].
    destruct (String.eqb_spec (ord_price_type order) "SLM") as [S2|_]; [auto|].
    discriminate.
  - intros Ht. destruct W as [E | (_ & St & _)]; [|exact St].
    rewrite E in Ht. discriminate.
  - destruct W as [E | (_ & _ & Sm & _)]; [|exact Sm].
    rewrite E. apply same_instruction_refl.
  - destruct W as [E | (_ & _ & _ & Eo)]; [rewrite E; reflexivity|].
    rewrite Eo. apply persist_order_ids.
  - intros other Hne. destruct W as [E | (_ & _ & Sm & Eo)]; [rewrite E; reflexivity|].
    unfold query_order at 1. rewrite Eo.
    apply (persist_order_other s (order_of (snd (process_order f s env order))) other).
    destruct Sm as (_ & Eid & _). congruence.
  - intros NM NL NS1 NS2. unfold process_order.
    apply String.eqb_neq in NM, NL, NS1, NS2. rewrite NM, NL, NS1, NS2.
    cbn [orb fst snd]. split; [reflexivity | apply rejected_verdict].
  - intros L P. unfold process_order. rewrite L.
    cbn [String.eqb Ascii.eqb Bool.eqb]. unfold _process_limit_order. rewrite P.
    cbn [fst snd]. split; [reflexivity | apply rejected_verdict].
  - intros K T.
    assert (E : process_order f s env order = _process_stop_loss_order f s env order).
    { unfold process_order. destruct K as [K|K]; rewrite K; reflexivity. }
    rewrite E. unfold _process_stop_loss_order. rewrite T.
    cbn [fst snd]. split; [reflexivity | apply rejected_verdict].
Qed.

(** An order of the unknown price type ICEBERG is rejected. *)
Lemma process_order_settles_or_leaves_witness :
  rejected_with rich_session
    (snd (process_order (F := ScriptedFeed) [] rich_session sample_env odd_order))
    "Unsupported order type: ICEBERG".
Proof.
  refine (proj2 (proj1 (proj2 (proj2 (proj2 (proj2 (proj2
    (process_order_settles_or_leaves (F := ScriptedFeed) [] rich_session
       sample_env odd_order)))))) _ _ _ _)); vm_compute; discriminate.
Defined.

(** ** Unique order ids *)

Lemma existsb_order_with_id (i : string) (l : list PaperOrder) :
  existsb (order_with_id i) l = true <-> In i (map ord_order_id l).
Proof.
  induction l as [|x r IH]; simpl.
  - split; [discriminate | contradiction].
  - rewrite orb_true_iff, IH. unfold order_with_id.
    rewrite String.eqb_eq. reflexivity.
Qed.

Lemma unique_ids_NoDup (l : list PaperOrder) :
  unique_ids l = true <-> NoDup (map ord_order_id l).
Proof.
  induction l as [|x r IH]; simpl.
  - split; [constructor | reflexivity].
  - rewrite andb_true_iff, negb_true_iff, IH. split.
    + intros [E N]. constructor; [|exact N].
      intro I. apply existsb_order_with_id in I. congruence.
    + intro N. inversion N as [|? ? NI N']; subst. split; [|exact N'].
      destruct (existsb _ r) eqn:E; [|reflexivity].
      apply existsb_order_with_id in E. contradiction.
Qed.

Lemma NoDup_ids_filter (sel : PaperOrder -> bool) (l : list PaperOrder) :
  NoDup (map ord_order_id l) -> NoDup (map ord_order_id (filter sel l)).
Proof.
  induction l as [|x r IH]; simpl; [auto|].
  intro N. inversion N as [|? ? NI N']; subst.
  destruct (sel x); simpl; [|auto].
  constructor; [|auto].
  intro I. apply NI. apply in_map_iff in I. destruct I as (y & Ey & Iy).
  apply filter_In in Iy. apply in_map_iff. exists y. tauto.
Qed.

Lemma find_by_unique_id (l : list PaperOrder) (o : PaperOrder) :
  NoDup (map ord_order_id l) -> In o l ->
  find (order_with_id (ord_order_id o)) l = Some o.
Proof.
  induction l as [|x r IH]; simpl; [contradiction|].
  intros N I. inversion N as [|? ? NI N']; subst.
  unfold order_with_id at 1.
  destruct I as [-> | I].
  - rewrite String.eqb_refl. reflexivity.
  - destruct (String.eqb_spec (ord_order_id x) (ord_order_id o)) as [E|_].
    + exfalso. apply NI. rewrite E. apply in_map. exact I.
    + apply IH; assumption.
Qed.

(** ** The monitoring pass *)

Section MonitorPass.
Context {F : Type} `{MarketDataFeed F}.

Lemma process_each_app (l1 l2 : list PaperOrder) (f : F) (s : Session)
    (env : nat -> Env) (k : nat) :
  process_each f s env k (l1 ++ l2) =
  process_each (fst (process_each f s env k l1)) (snd (process_each f s env k l1))
               env (k + List.length l1) l2.
Proof.
  revert f s k. induction l1 as [|x r IH]; intros f s k; simpl.
  - rewrite Nat.add_0_r. reflexivity.
  - destruct (process_order f s (env k) x) as [f' out].
    rewrite IH. rewrite Nat.add_succ_r. reflexivity.
Qed.

(** A property of the session that every call keeps is kept by the loop. *)
Lemma process_each_keeps (P : Session -> Prop) (l : list PaperOrder) :
  (forall f s env o, In o l -> P s -> P (session_of (snd (process_order f s env o)))) ->
  forall (f : F) s env k, P s -> P (snd (process_each f s env k l)).
Proof.
  induction l as [|x r IH]; intros Step f s env k Ps; simpl; [exact Ps|].
  destruct (process_order f s (env k) x) as [f' out] eqn:E.
  apply IH.
  - intros f0 s0 env0 o I. apply Step. right. exact I.
  - pose proof (Step f s (env k) x (or_introl eq_refl) Ps) as Q.
    rewrite E in Q. exact Q.
Qed.

Lemma process_order_keeps_row (f : F) (s : Session) (env : Env)
    (o row : PaperOrder) (i : string) :
  i <> ord_order_id o ->
  query_order s i = Some row ->
  query_order (session_of (snd (process_order f s env o))) i = Some row.
Proof.
  intros Hne Q. pose proof (process_order_writes f s env o) as W. cbv zeta in W.
  destruct W as [E | (_ & _ & Sm & Eo)]; [rewrite E; exact Q|].
  unfold query_order at 1. rewrite Eo.
  rewrite <- Q. apply (persist_order_other s _ i).
  destruct Sm as (_ & Eid & _). congruence.
Qed.

Lemma process_each_keeps_row (l : list PaperOrder) (row : PaperOrder) (i : string) :
  ~ In i (map ord_order_id l) ->
  forall (f : F) s env k,
    query_order s i = Some row ->
    query_order (snd (process_each f s env k l)) i = Some row.
Proof.
  intros NI. apply (process_each_keeps (fun s => query_order s i = Some row)).
  intros f s env o I Q. apply process_order_keeps_row; [|exact Q].
  intro E. apply NI. rewrite E. apply in_map. exact I.
Qed.

Lemma process_each_ids (l : list PaperOrder) (ids : list string) :
  forall (f : F) s env k,
    map ord_order_id (orders s) = ids ->
    map ord_order_id (orders (snd (process_each f s env k l))) = ids.
Proof.
  apply (process_each_keeps (fun s => map ord_order_id (orders s) = ids)).
  intros f s env o _ E. rewrite <- E.
  pose proof (process_order_writes f s env o) as W. cbv zeta in W.
  destruct W as [Ep | (_ & _ & _ & Eo)]; [rewrite Ep; reflexivity|].
  rewrite Eo. apply persist_order_ids.
Qed.

Lemma market_order_settled (f : F) (s : Session) (env : Env) (o : PaperOrder) :
  ord_price_type o = "MARKET" ->
  ord_status (order_of (snd (process_order f s env o))) = "FILLED" \/
  ord_status (order_of (snd (process_order f s env o))) = "REJECTED".
Proof.
  intros M. pose proof (process_order_writes f s env o) as W. cbv zeta in W.
  destruct W as [E | (_ & St & _)]; [|exact St].
  exfalso. assert (Hf : handled (snd (process_order f s env o)) = false)
    by (rewrite E; reflexivity).
  unfold process_order in Hf. rewrite M in Hf. cbn [String.eqb Ascii.eqb Bool.eqb] in Hf.
  unfold _process_market_order in Hf.
  destruct (get_price_with_retry f _ _ _) as [[p|] f']; cbn [snd] in Hf.
  - destruct (underfunded s o p (ord_quantity o)) eqn:U.
    + rewrite (fill_order_underfunded _ env _ _ _ U) in Hf. discriminate.
    + destruct (fill_order_funded s env o p (ord_quantity o) U) as (_ & Hh & _).
      congruence.
  - discriminate.
Qed.

(** X2. With unique order ids, one pass of the monitoring loop keeps the
    order rows and their ids in place, leaves every order that was not
    PENDING exactly as it was (a FILLED, REJECTED or CANCELLED order is never
    processed again), keeps the placement attributes of every order, and
    leaves no MARKET order PENDING: each one is FILLED or REJECTED after the
    pass. *)
Theorem monitor_pass_settles_pending_only
    (f : F) (s : Session) (env : nat -> Env) :
  unique_order_ids s = true ->
  let s' := snd (monitor_pass f s env) in
  map ord_order_id (orders s') = map ord_order_id (orders s) /\
  (forall o, In o (orders s) -> ord_status o <> "PENDING" ->
     query_order s' (ord_order_id o) = Some o) /\
  (forall o, In o (orders s) -> ord_status o = "PENDING" ->
     exists o', query_order s' (ord_order_id o) = Some o' /\
                same_instruction o' o /\
                (ord_price_type o = "MARKET" ->
                 ord_status o' = "FILLED" \/ ord_status o' = "REJECTED")).
Proof.
  intros U. cbv zeta. unfold unique_order_ids in U. apply unique_ids_NoDup in U.
  unfold monitor_pass.
  split; [apply process_each_ids; reflexivity|].
  split.
  - intros o I NP. apply process_each_keeps_row.
    + intro Iid. apply in_map_iff in Iid. destruct Iid as (x & Ex & Ix).
      apply filter_In in Ix. destruct Ix as [Ix Px].
      assert (Fx : find (order_with_id (ord_order_id x)) (orders s) = Some x)
        by (apply find_by_unique_id; assumption).
      assert (Fo : find (order_with_id (ord_order_id o)) (orders s) = Some o)
        by (apply find_by_unique_id; assumption).
      rewrite Ex in Fx. rewrite Fx in Fo. inversion Fo; subst x.
      unfold is_pending in Px. apply String.eqb_eq in Px. contradiction.
    + apply find_by_unique_id; assumption.
  - intros o I P.
    assert (Ip : In o (filter is_pending (orders s))).
    { apply filter_In. split; [exact I|]. unfold is_pending. rewrite P. reflexivity. }
    pose proof (NoDup_ids_filter is_pending (orders s) U) as Up.
    destruct (in_split _ _ Ip) as (l1 & l2 & El). rewrite El in *.
    rewrite map_app in Up. cbn [map] in Up.
    pose proof (NoDup_remove_2 _ _ _ Up) as NI.
    rewrite process_each_app.
    set (f1 := fst (process_each f s env 0 l1)).
    assert (Q1 : query_order (snd (process_each f s env 0 l1)) (ord_order_id o) = Some o).
    { apply process_each_keeps_row.
      - intro X. apply NI. apply in_or_app. left. exact X.
      - apply find_by_unique_id; assumption. }
    set (s1 := snd (process_each f s env 0 l1)) in *.
    cbn [process_each].
    destruct (process_order f1 s1 (env (0 + List.length l1)%nat) o) as [f2 out] eqn:E.
    pose proof (process_order_writes f1 s1 (env (0 + List.length l1)%nat) o) as W.
    pose proof (market_order_settled f1 s1 (env (0 + List.length l1)%nat) o) as M.
    cbv zeta in W, M. rewrite E in W, M. cbn [snd] in W, M.
    assert (Q2 : query_order (session_of out) (ord_order_id o) = Some (order_of out) /\
                 same_instruction (order_of out) o).
    { destruct W as [Ep | (_ & _ & Sm & Eo)].
      - rewrite Ep. cbn. split; [exact Q1 | apply same_instruction_refl].
      - split; [|exact Sm]. unfold query_order. rewrite Eo.
        destruct Sm as (_ & Eid & _). rewrite <- Eid.
        apply (persist_order_found s1 (order_of out) o). rewrite Eid. exact Q1. }
    destruct Q2 as [Q2 Sm].
    exists (order_of out). split; [|split; [exact Sm | exact M]].
    apply process_each_keeps_row; [|exact Q2].
    intro X. apply NI. apply in_or_app. right. exact X.
Qed.

End MonitorPass.

(** A pass over the mixed book with the price 100: the filled order PT03 is
    untouched and the MARKET order PT04 is settled. *)
Lemma monitor_pass_settles_pending_only_witness :
  unique_order_ids mixed_book = true /\
  query_order (snd (monitor_pass (F := ScriptedFeed) [Some 100%Q; Some 100%Q]
                                 mixed_book pass_env)) "PT03" = Some done_buy /\
  exists o',
    query_order (snd (monitor_pass (F := ScriptedFeed) [Some 100%Q; Some 100%Q]
                                   mixed_book pass_env)) "PT04" = Some o' /\
    (ord_status o' = "FILLED" \/ ord_status o' = "REJECTED").
Proof.
  split; [reflexivity|].
  destruct (monitor_pass_settles_pending_only (F := ScriptedFeed)
              [Some 100%Q; Some 100%Q] mixed_book pass_env eq_refl)
    as (_ & Kept & Settled).
  split.
  - apply (Kept done_buy); [simpl; auto | vm_compute; discriminate].
  - destruct (Settled pending_market_buy) as (o' & Q & _ & M);
      [simpl; auto | reflexivity |].
    exists o'. split; [exact Q | exact (M eq_refl)].
Defined.

Section MonitorInvariants.
Context {F : Type} `{MarketDataFeed F}.


End MonitorInvariants.


(** ** Counting pending orders *)

Lemma pending_after_cancel (l : list PaperOrder) (order_id : string) (now : Timestamp)
    (sel : PaperOrder -> bool) :
  (forall o, sel (mark_cancelled o now) = sel o) ->
  match find (pending_with_id order_id) l with
  | Some o =>
      (List.length
         (filter sel (filter is_pending
            (update_first (pending_with_id order_id) (fun o => mark_cancelled o now) l)))
       + (if sel o then 1 else 0))%nat
      = List.length (filter sel (filter is_pending l))
  | None => True
  end.
Proof.
  intros Hsel. induction l as [|x r IH]; cbn [find update_first]; [exact I|].
  destruct (pending_with_id order_id x) eqn:P.
  - assert (Px : is_pending x = true).
    { unfold pending_with_id in P. apply andb_true_iff in P. exact (proj2 P). }
    assert (Pc : is_pending (mark_cancelled x now) = false) by reflexivity.
    cbn [filter]. rewrite Px, Pc. cbn [filter].
    destruct (sel x); cbn [List.length]; lia.
  - destruct (find (pending_with_id order_id) r) as [o|]; [|exact I].
    cbn [filter]. destruct (is_pending x); [|exact IH].
    cbn [filter]. destruct (sel x); [|exact IH].
    cbn [List.length]. rewrite <- IH. reflexivity.
Qed.

Lemma filter_everything {A : Type} (l : list A) : filter (fun _ => true) l = l.
Proof. induction l as [|x r IH]; simpl; [|rewrite IH]; reflexivity. Qed.

(** X4. A successful [cancel_order] lowers the number of pending orders by
    exactly one, and the number of pending orders of the owner of the
    cancelled order by exactly one, leaving the count of every other user; a
    failed one changes no count. *)
Theorem cancel_order_lowers_pending_count (s : Session) (env : Env) (order_id : string) :
  let s' := fst (cancel_order s env order_id) in
  (snd (cancel_order s env order_id) = false ->
     forall u, get_pending_orders_count s' u = get_pending_orders_count s u) /\
  (snd (cancel_order s env order_id) = true ->
     S (get_pending_orders_count s' None) = get_pending_orders_count s None /\
     exists o,
       find (pending_with_id order_id) (orders s) = Some o /\
       forall u, u <> "" ->
         (get_pending_orders_count s' (Some u) + (if ord_user_id o =s u then 1 else 0))%nat
         = get_pending_orders_count s (Some u)).
Proof.
  cbv zeta. unfold cancel_order.
  destruct (find (pending_with_id order_id) (orders s)) as [o|] eqn:Fo; cbn [fst snd].
  - split; [discriminate|]. intros _. split.
    + pose proof (pending_after_cancel (orders s) order_id (utcnow env)
                    (fun _ => true) (fun _ => eq_refl)) as C.
      rewrite Fo in C. unfold get_pending_orders_count. cbn [orders set_orders].
      rewrite !filter_everything in C. cbn beta iota in C. lia.
    + exists o. split; [reflexivity|]. intros u Hu.
      pose proof (pending_after_cancel (orders s) order_id (utcnow env)
                    (fun o => ord_user_id o =s u) (fun _ => eq_refl)) as C.
      rewrite Fo in C. unfold get_pending_orders_count. cbn [orders set_orders].
      apply String.eqb_neq in Hu. rewrite Hu. exact C.
  - split; [reflexivity | discriminate].
Qed.

(** Cancelling PT02 in the book with one pending order leaves none. *)
Lemma cancel_order_lowers_pending_count_witness :
  get_pending_orders_count book_session None = 1%nat /\
  get_pending_orders_count (fst (cancel_order book_session sample_env "PT02")) None = 0%nat.
Proof.
  split; [reflexivity|].
  pose proof (proj1 (proj2 (cancel_order_lowers_pending_count book_session sample_env "PT02")
                      eq_refl)) as C.
  apply eq_add_S. exact C.
Defined.

(** ** Opening and closing a position *)

Lemma find_app_last {A : Type} (sel : A -> bool) (l : list A) (x : A) :
  find sel l = None -> sel x = true -> find sel (l ++ [x]) = Some x.
Proof.
  intros N Sx. induction l as [|y r IH]; simpl in *; [rewrite Sx; reflexivity|].
  destruct (sel y); [discriminate | auto].
Qed.




(** ** Accounts *)

Lemma find_app_first {A : Type} (sel : A -> bool) (l l' : list A) (x : A) :
  find sel l = Some x -> find sel (l ++ l') = Some x.
Proof.
  induction l as [|y r IH]; simpl; [discriminate|].
  destruct (sel y); auto.
Qed.

Lemma find_app_skip {A : Type} (sel : A -> bool) (l l' : list A) :
  find sel l = None -> find sel (l ++ l') = find sel l'.
Proof.
  induction l as [|y r IH]; simpl; [reflexivity|].
  destruct (sel y); [discriminate | auto].
Qed.

Lemma NoDup_snoc {A : Type} (l : list A) (x : A) :
  NoDup l -> ~ In x l -> NoDup (l ++ [x]).
Proof.
  induction l as [|y r IH]; simpl; intros N NI.
  - constructor; [intros []|constructor].
  - inversion N as [|? ? NIy N']; subst. constructor.
    + intro I. apply in_app_or in I. destruct I as [I | [E | []]]; [contradiction|].
      apply NI. left. symmetry. exact E.
    + apply IH; [exact N'|]. intro I. apply NI. right. exact I.
Qed.

(** X6. [get_or_create_paper_account] returns an account of the requested
    user that the session then holds.  An existing account is returned as it
    is, whatever the defaults, and the session is not touched; a new one
    starts with [current_balance = initial_balance =] the default balance.
    The accounts of all other users stay as they were, a second call returns
    the same account without changing the session again, and user ids stay
    unique. *)
Theorem get_or_create_paper_account_idempotent
    (s : Session) (default_balance : Decimal) (default_currency : string)
    (user_id : string) :
  let s' := fst (get_or_create_paper_account s default_balance default_currency user_id) in
  let account := snd (get_or_create_paper_account s default_balance default_currency user_id) in
  acc_user_id account = user_id /\
  query_account s' user_id = Some account /\
  (forall existing, query_account s user_id = Some existing ->
     s' = s /\ account = existing) /\
  (query_account s user_id = None ->
     acc_current_balance account = default_balance /\
     acc_initial_balance account = default_balance /\
     acc_currency account = default_currency /\
     accounts s' = (accounts s ++ [account])%list /\
     orders s' = orders s /\ positions s' = positions s /\ trades s' = trades s) /\
  (forall other, other <> user_id -> query_account s' other = query_account s other) /\
  (forall balance2 currency2,
     get_or_create_paper_account s' balance2 currency2 user_id = (s', account)) /\
  (unique_user_ids s -> unique_user_ids s').
Proof.
  cbv zeta. unfold get_or_create_paper_account, create_paper_account.
  destruct (query_account s user_id) as [a|] eqn:Q; cbn [fst snd].
  - assert (Ea : acc_user_id a = user_id).
    { unfold query_account in Q. apply find_some in Q. destruct Q as [_ Q].
      unfold account_of in Q. apply String.eqb_eq. exact Q. }
    split; [exact Ea|]. split; [exact Q|].
    split; [intros existing E; split; congruence|].
    split; [discriminate|].
    split; [reflexivity|].
    split; [|auto].
    intros b2 c2. rewrite Q. reflexivity.
  - assert (Qn : query_account
                   (set_accounts s (accounts s ++
                      [mkPaperAccount user_id default_balance default_balance
                                      default_currency true])) user_id
                 = Some (mkPaperAccount user_id default_balance default_balance
                                        default_currency true)).
    { unfold query_account in *. cbn [accounts set_accounts].
      apply find_app_last; [exact Q|]. unfold account_of. cbn. apply String.eqb_refl. }
    split; [reflexivity|]. split; [exact Qn|].
    split; [intros existing E; discriminate|].
    split; [intros _; repeat split|].
    split.
    + intros other Hne. unfold query_account in *. cbn [accounts set_accounts].
      destruct (find (account_of other) (accounts s)) as [b|] eqn:Qo.
      * apply find_app_first. exact Qo.
      * rewrite (find_app_skip _ _ _ Qo). cbn [find]. unfold account_of at 1.
        cbn [acc_user_id]. apply String.eqb_neq in Hne.
        rewrite String.eqb_sym, Hne. reflexivity.
    + split.
      * intros b2 c2. rewrite Qn. reflexivity.
      * unfold unique_user_ids. cbn [accounts set_accounts]. intro N.
        rewrite map_app. cbn [map acc_user_id].
        apply NoDup_snoc.
        -- exact N.
        -- intro I. apply in_map_iff in I. destruct I as (x & Ex & Ix).
           unfold query_account in Q.
           apply (find_none _ _ Q) in Ix. unfold account_of in Ix.
           apply String.eqb_neq in Ix. contradiction.
Qed.

(** The existing account of u1 is returned as it is; u2 gets a new account
    with the default balance. *)
Lemma get_or_create_paper_account_idempotent_witness :
  get_or_create_paper_account rich_session 1 "USD" "u1"
    = (rich_session, sample_account 50000) /\
  acc_current_balance (snd (get_or_create_paper_account rich_session 1 "USD" "u2")) = 1%Q.
Proof.
  pose proof (get_or_create_paper_account_idempotent rich_session 1 "USD" "u1") as T1.
  pose proof (get_or_create_paper_account_idempotent rich_session 1 "USD" "u2") as T2.
  cbv zeta in T1, T2.
  destruct T1 as (_ & _ & Existing & _).
  destruct T2 as (_ & _ & _ & New & _).
  split.
  - destruct (Existing (sample_account 50000) eq_refl) as [Es Ea].
    rewrite (surjective_pairing (get_or_create_paper_account rich_session 1 "USD" "u1")).
    rewrite Es, Ea. reflexivity.
  - exact (proj1 (New eq_refl)).
Defined.

(** ** Account reset *)

Lemma forallb_filter_self {A : Type} (p : A -> bool) (l : list A) :
  forallb p (filter p l) = true.
Proof.
  induction l as [|x r IH]; simpl; [reflexivity|].
  destruct (p x) eqn:E; simpl; [rewrite E|]; auto.
Qed.

Lemma filter_twice {A : Type} (p : A -> bool) (l : list A) :
  filter p (filter p l) = filter p l.
Proof.
  induction l as [|x r IH]; simpl; [reflexivity|].
  destruct (p x) eqn:E; simpl; [rewrite E, IH|]; auto.
Qed.

Lemma update_first_twice {A : Type} (sel : A -> bool) (f : A -> A) (l : list A) :
  (forall x, sel x = true -> sel (f x) = true) ->
  (forall x, sel x = true -> f (f x) = f x) ->
  update_first sel f (update_first sel f l) = update_first sel f l.
Proof.
  intros Hs Hf. induction l as [|x r IH]; simpl; [reflexivity|].
  destruct (sel x) eqn:E; simpl.
  - rewrite (Hs x E), (Hf x E). reflexivity.
  - rewrite E, IH. reflexivity.
Qed.

Lemma length_update_first {A : Type} (sel : A -> bool) (f : A -> A) (l : list A) :
  List.length (update_first sel f l) = List.length l.
Proof.
  induction l as [|x r IH]; simpl; [reflexivity|].
  destruct (sel x); simpl; [|rewrite IH]; reflexivity.
Qed.

(** X7. [reset_paper_account] returns [False] exactly when the user has no
    account, and then changes nothing.  Otherwise it returns [True], puts the
    user's balance back to [initial_balance], removes every order, position
    and trade of that user whatever their state, and leaves the rows and the
    accounts of all other users as they were, in the same order.  A second
    reset gives the same session again. *)
Theorem reset_paper_account_clears_user (s : Session) (user_id : string) :
  let s' := fst (reset_paper_account s user_id) in
  let ok := snd (reset_paper_account s user_id) in
  (ok = false <-> query_account s user_id = None) /\
  (ok = false -> s' = s) /\
  (ok = true ->
     no_rows_of s' user_id = true /\
     rows_of_others s' user_id = rows_of_others s user_id /\
     (exists account,
        query_account s user_id = Some account /\
        query_account s' user_id
          = Some (set_current_balance account (acc_initial_balance account))) /\
     List.length (accounts s') = List.length (accounts s) /\
     (forall other, other <> user_id ->
        query_account s' other = query_account s other)) /\
  reset_paper_account s' user_id = (s', ok).
Proof.
  cbv zeta. unfold reset_paper_account at 1 2 3 4 5 6 7 8 9 10 11.
  destruct (query_account s user_id) as [a|] eqn:Qa; cbn [fst snd].
  - split; [split; discriminate|]. split; [discriminate|].
    split.
    + intros _. split; [|split; [|split; [|split]]].
      * unfold no_rows_of. cbn [orders positions trades].
        rewrite !forallb_filter_self. reflexivity.
      * unfold rows_of_others. cbn [orders positions trades].
        rewrite !filter_twice. reflexivity.
      * exists a. split; [reflexivity|]. unfold query_account in *.
        cbn [accounts]. rewrite find_update_first_same by (intros x Hx; exact Hx).
        rewrite Qa. reflexivity.
      * cbn [accounts]. apply length_update_first.
      * intros other Hne. unfold query_account. cbn [accounts].
        apply find_update_first_other; intros x Hx; unfold account_of in *;
          cbn [set_current_balance acc_user_id];
          apply String.eqb_eq in Hx; apply String.eqb_neq; congruence.
    + unfold reset_paper_account. unfold query_account in *. cbn [accounts].
      rewrite find_update_first_same by (intros x Hx; exact Hx).
      rewrite Qa. cbn [option_map orders positions trades].
      rewrite !filter_twice.
      rewrite update_first_twice; [reflexivity | intros x Hx; exact Hx | reflexivity].
  - split; [split; reflexivity|]. split; [reflexivity|]. split; [discriminate|].
    unfold reset_paper_account. rewrite Qa. reflexivity.
Qed.

(** Resetting u1 in the shared session leaves u2's account and pending order. *)
Lemma reset_paper_account_clears_user_witness :
  no_rows_of (fst (reset_paper_account shared_session "u1")) "u1" = true /\
  query_account (fst (reset_paper_account shared_session "u1")) "u2" = Some other_account /\
  orders (fst (reset_paper_account shared_session "u1")) = [other_order].
Proof.
  destruct (reset_paper_account_clears_user shared_session "u1")
    as (_ & _ & Done & _).
  destruct (Done eq_refl) as (Gone & Others & _ & _ & Acc).
  split; [exact Gone|]. split.
  - rewrite (Acc "u2"); [reflexivity | discriminate].
  - reflexivity.
Defined.

(** ** The service cache *)

Section ServiceCache.
Import TradingServiceFactory.

Lemma lookup_app_new (k : string) (v : Service) (c : Instances) :
  lookup k c = None -> lookup k (c ++ [(k, v)])%list = Some v.
Proof.
  induction c as [|[k' v'] r IH]; simpl.
  - intros _. rewrite String.eqb_refl. reflexivity.
  - destruct (k' =s k); [discriminate | exact IH].
Qed.

Lemma lookup_app_other (k k' : string) (v : Service) (c : Instances) :
  k' <> k -> lookup k' (c ++ [(k, v)])%list = lookup k' c.
Proof.
  intros Hne. induction c as [|[k0 v0] r IH]; simpl.
  - apply String.eqb_neq in Hne. rewrite String.eqb_sym, Hne. reflexivity.
  - destruct (k0 =s k'); [reflexivity | exact IH].
Qed.

(** X8. [get_trading_service] builds at most one instance per cache key.
    After a call that returned an instance, every later call for the same
    user and broker returns that same instance and leaves the cache as it
    is, whatever the environment then says: the trading mode is not read
    again and no import is tried, so a changed or invalid mode has no effect
    on a cached service.  A call that raises leaves the cache unchanged, a
    call adds at most one entry, and entries under other keys are never
    touched. *)
Theorem get_trading_service_builds_once
    (instances : Instances) (env : FactoryEnv) (user_id broker : string) :
  let result := fst (get_trading_service instances env user_id broker) in
  let instances' := snd (get_trading_service instances env user_id broker) in
  (forall instance, result = Return instance ->
     lookup (cache_key user_id broker) instances' = Some instance /\
     forall env', get_trading_service instances' env' user_id broker
                  = (Return instance, instances')) /\
  (forall e, result = Raise e ->
     instances' = instances /\ lookup (cache_key user_id broker) instances = None) /\
  (forall cached, lookup (cache_key user_id broker) instances = Some cached ->
     result = Return cached /\ instances' = instances) /\
  (get_service_count instances <= get_service_count instances'
     <= S (get_service_count instances))%nat /\
  (forall key, key <> cache_key user_id broker ->
     lookup key instances' = lookup key instances).
Proof.
  cbv zeta.
  destruct (get_trading_service instances env user_id broker) as [result instances']
    eqn:G.
  cbn [fst snd]. unfold get_trading_service in G.
  destruct (lookup (cache_key user_id broker) instances) as [cached|] eqn:L.
  - inversion G; subst result instances'; clear G.
    split; [|split; [discriminate|split; [|split; [unfold get_service_count; lia|auto]]]].
    + intros instance E. inversion E; subst instance. split; [exact L|].
      intros env'. unfold get_trading_service. rewrite L. reflexivity.
    + intros c E. inversion E. split; reflexivity.
  - destruct (_get_trading_mode (OPENALGO_TRADING_MODE env)) as [mode|msg].
    + match type of G with context [match ?c with Return _ => _ | Raise _ => _ end] =>
        destruct c as [instance|e] eqn:C end;
        inversion G; subst result instances'; clear G.
      * split; [|split; [discriminate|split; [discriminate|split]]].
        -- intros i E. inversion E; subst i.
           pose proof (lookup_app_new _ instance instances L) as Ln.
           split; [exact Ln|]. intros env'. unfold get_trading_service.
           rewrite Ln. reflexivity.
        -- unfold get_service_count. rewrite length_app. simpl. lia.
        -- intros key Hne. apply lookup_app_other. exact Hne.
      * split; [discriminate|]. split; [intros; split; reflexivity|].
        split; [discriminate|]. split; [unfold get_service_count; lia | reflexivity].
    + inversion G; subst result instances'; clear G.
      split; [discriminate|]. split; [intros; split; reflexivity|].
      split; [discriminate|]. split; [unfold get_service_count; lia | reflexivity].
Qed.

(** A service built in paper mode is handed out again when the environment
    has become invalid and no module can be imported. *)
Lemma get_trading_service_builds_once_witness :
  get_trading_service
    (snd (get_trading_service [] paper_env "alice" "zerodha"))
    broken_env "alice" "zerodha"
  = (Return (mkService PaperTradingService "alice" "zerodha"),
     [("alice_zerodha", mkService PaperTradingService "alice" "zerodha")]).
Proof.
  exact (proj2 (proj1 (get_trading_service_builds_once [] paper_env "alice" "zerodha")
                  (mkService PaperTradingService "alice" "zerodha") eq_refl)
               broken_env).
Defined.

(** X9. For a key that is not cached and service modules that import, the
    class of the instance follows the mode at that moment: a value that
    trims and lowercases to 'paper' gives a [PaperTradingService], 'live' or
    an unset variable a [LiveBrokerService], and any other value raises the
    [ValueError] of [_get_trading_mode] and caches nothing.  The instance is
    built with the user and broker of the call.  A mode switch reaches an
    already served user only through [clear_cache]: after it the count is 0
    and the next call builds by the mode of that moment. *)
Theorem get_trading_service_follows_mode
    (instances : Instances) (env : FactoryEnv) (user_id broker : string) :
  lookup (cache_key user_id broker) instances = None ->
  (forall c, import_error env c = None) ->
  let mode := strip (lower (getenv (OPENALGO_TRADING_MODE env) "live")) in
  (mode = "paper" ->
     fst (get_trading_service instances env user_id broker)
       = Return (mkService PaperTradingService user_id broker)) /\
  (mode = "live" ->
     fst (get_trading_service instances env user_id broker)
       = Return (mkService LiveBrokerService user_id broker)) /\
  (mode <> "paper" -> mode <> "live" ->
     exists message,
       get_trading_service instances env user_id broker
         = (Raise (ExcValueError message), instances)) /\
  get_service_count (clear_cache instances) = 0%nat /\
  (forall old_env,
     get_trading_service
       (clear_cache (snd (get_trading_service instances old_env user_id broker)))
       env user_id broker
     = get_trading_service [] env user_id broker).
Proof.
  intros L Imp. cbv zeta. unfold get_trading_service. rewrite L.
  unfold _get_trading_mode, _create_paper_trading_service, _create_live_broker_service.
  rewrite !Imp.
  split; [|split; [|split; [|split]]].
  - intros ->. reflexivity.
  - intros ->. reflexivity.
  - intros NP NL. apply String.eqb_neq in NP, NL. rewrite NP, NL. cbn [orb negb].
    eexists. reflexivity.
  - reflexivity.
  - intros old_env. reflexivity.
Qed.

(** In paper mode alice gets a paper service; after a switch to live mode and
    [clear_cache] she gets a live one. *)
Lemma get_trading_service_follows_mode_witness :
  fst (get_trading_service [] paper_env "alice" "zerodha")
    = Return (mkService PaperTradingService "alice" "zerodha") /\
  fst (get_trading_service
         (clear_cache (snd (get_trading_service [] paper_env "alice" "zerodha")))
         live_env "alice" "zerodha")
    = Return (mkService LiveBrokerService "alice" "zerodha").
Proof.
  destruct (get_trading_service_follows_mode [] paper_env "alice" "zerodha"
              eq_refl (fun _ => eq_refl)) as (Paper & _).
  destruct (get_trading_service_follows_mode [] live_env "alice" "zerodha"
              eq_refl (fun _ => eq_refl)) as (_ & Live & _ & _ & Again).
  split; [exact (Paper eq_refl)|].
  rewrite (Again paper_env). exact (Live eq_refl).
Defined.

End ServiceCache.

Section CacheKeys.
Import TradingServiceFactory.

Lemma append_assoc3 (a b c : string) : (a ++ b) ++ c = a ++ (b ++ c).
Proof.
  induction a as [|x r IH]; simpl; [|rewrite IH]; reflexivity.
Qed.

Lemma cache_key_split (u1 u2 b1 b2 : string) :
  no_underscore u1 = true -> no_underscore u2 = true ->
  u1 ++ String "_" b1 = u2 ++ String "_" b2 -> u1 = u2 /\ b1 = b2.
Proof.
  revert u2. induction u1 as [|c r IH]; intros [|c2 r2]; simpl; intros N1 N2 E.
  - inversion E. split; reflexivity.
  - inversion E; subst c2. discriminate.
  - inversion E; subst c. discriminate.
  - apply andb_true_iff in N1, N2. destruct N1 as [_ N1], N2 as [_ N2].
    inversion E; subst c2. destruct (IH r2 N1 N2 H1) as [-> ->]. split; reflexivity.
Qed.

(** X10. The cache key separates users and brokers only as far as the user
    id has no underscore.  For user ids without underscore, equal keys mean
    the same user and the same broker.  In general the user
    [u ++ "_" ++ x] with broker [b] has the key of the user [u] with broker
    [x ++ "_" ++ b], so once a service is cached for the latter, a call for
    the former is answered with that instance, built for the other user. *)
Theorem cache_key_separates_pairs :
  (forall u1 b1 u2 b2,
     no_underscore u1 = true -> no_underscore u2 = true ->
     cache_key u1 b1 = cache_key u2 b2 -> u1 = u2 /\ b1 = b2) /\
  (forall u x b, cache_key (u ++ "_" ++ x) b = cache_key u (x ++ "_" ++ b)) /\
  (forall instances env env' u x b instance,
     fst (get_trading_service instances env u (x ++ "_" ++ b)) = Return instance ->
     get_trading_service
       (snd (get_trading_service instances env u (x ++ "_" ++ b)))
       env' (u ++ "_" ++ x) b
     = (Return instance, snd (get_trading_service instances env u (x ++ "_" ++ b)))).
Proof.
  assert (K : forall u x b, cache_key (u ++ "_" ++ x) b = cache_key u (x ++ "_" ++ b)).
  { intros u x b. unfold cache_key. rewrite !append_assoc3. reflexivity. }
  split; [|split; [exact K|]].
  - intros u1 b1 u2 b2 N1 N2 E. unfold cache_key in E. cbn [append] in E.
    exact (cache_key_split u1 u2 b1 b2 N1 N2 E).
  - intros instances env env' u x b instance E.
    assert (L : lookup (cache_key u (x ++ "_" ++ b))
                       (snd (get_trading_service instances env u (x ++ "_" ++ b)))
                = Some instance).
    { revert E. unfold get_trading_service.
      destruct (lookup (cache_key u (x ++ "_" ++ b)) instances) as [cached|] eqn:L0;
        cbn [fst snd].
      - intros E. inversion E; subst. exact L0.
      - destruct (_get_trading_mode (OPENALGO_TRADING_MODE env)) as [mode|msg];
          cbn [fst snd]; [|discriminate].
        match goal with |- context [match ?c with Return _ => _ | Raise _ => _ end] =>
          destruct c as [i|e] end; cbn [fst snd]; [|discriminate].
        intros E. inversion E; subst. apply lookup_app_new. exact L0. }
    unfold get_trading_service at 1. rewrite K, L. reflexivity.
Qed.

(** The user 'a_b' at broker 'c' is served the instance of user 'a' at
    broker 'b_c'. *)
Lemma cache_key_separates_pairs_witness :
  no_underscore "alice" = true /\
  ("alice" = "alice" /\ "zerodha" = "zerodha") /\
  fst (get_trading_service
         (snd (get_trading_service [] paper_env "a" "b_c")) paper_env "a_b" "c")
    = Return (mkService PaperTradingService "a" "b_c").
Proof.
  destruct cache_key_separates_pairs as (Inj & _ & Shared).
  split; [reflexivity|]. split.
  - exact (Inj "alice" "zerodha" "alice" "zerodha" eq_refl eq_refl eq_refl).
  - exact (f_equal fst (Shared [] paper_env paper_env "a" "b" "c"
                          (mkService PaperTradingService "a" "b_c") eq_refl)).
Defined.

(** X11. Whatever the environment variable holds, [get_current_mode] answers
    'live' or 'paper', and exactly one of [is_paper_trading_mode] and
    [is_live_trading_mode] is true.  Paper mode is reported exactly when the
    variable is set and trims and lowercases to 'paper'; an unset or invalid
    value is reported as live. *)
Theorem mode_predicates_are_complementary (mode : option string) :
  (get_current_mode mode = "live" \/ get_current_mode mode = "paper") /\
  is_live_trading_mode mode = negb (is_paper_trading_mode mode) /\
  (is_paper_trading_mode mode = true <->
     exists value, mode = Some value /\ strip (lower value) = "paper") /\
  (forall value, mode = Some value ->
     strip (lower value) <> "paper" -> is_live_trading_mode mode = true).
Proof.
  unfold is_live_trading_mode, is_paper_trading_mode, get_current_mode, _get_trading_mode.
  destruct mode as [value|]; cbn [getenv].
  - destruct (String.eqb_spec (strip (lower value)) "live") as [L|NL].
    + rewrite L. cbn. repeat split; auto; try discriminate.
      intros (v & E & P). inversion E; subst v. rewrite L in P. discriminate.
    + destruct (String.eqb_spec (strip (lower value)) "paper") as [P|NP].
      * rewrite P. cbn. repeat split; auto.
        -- intros _. exists value. auto.
        -- intros v E. inversion E; subst v. contradiction.
      * cbn. repeat split; auto; try discriminate.
        intros (v & E & P). inversion E; subst v. contradiction.
  - cbn. repeat split; auto; try discriminate.
    intros (v & E & _). discriminate.
Qed.

(** ' Paper ' is paper mode; 'papr' is reported as live. *)
Lemma mode_predicates_are_complementary_witness :
  is_paper_trading_mode (Some " Paper ") = true /\
  is_live_trading_mode (Some "papr") = true.
Proof.
  split.
  - apply (proj1 (proj2 (proj2 (mode_predicates_are_complementary (Some " Paper "))))).
    exists " Paper ". split; reflexivity.
  - apply (proj2 (proj2 (proj2 (mode_predicates_are_complementary (Some "papr"))))
             "papr" eq_refl).
    vm_compute. discriminate.
Defined.

End CacheKeys.

(** ** Retrying the price feed *)

Section Retry.
Context {F : Type} `{MarketDataFeed F}.

Lemma retry_loop_spec (n : nat) (f : F) (symbol exchange : string) :
  (exists k p, (k < n)%nat /\
     answer k f symbol exchange = Some p /\
     (forall j, (j < k)%nat -> answer j f symbol exchange = None) /\
     retry_loop n f symbol exchange = (Some p, feed_after (S k) f symbol exchange)) \/
  ((forall j, (j < n)%nat -> answer j f symbol exchange = None) /\
   retry_loop n f symbol exchange = (None, feed_after n f symbol exchange)).
Proof.
  revert f. induction n as [|n IH]; intros f.
  - right. split; [intros j Hj; lia | reflexivity].
  - cbn [retry_loop].
    destruct (get_live_price f symbol exchange) as [[p|] f'] eqn:G.
    + left. exists 0%nat, p. split; [lia|]. unfold answer. cbn [feed_after].
      rewrite G. cbn [fst snd]. split; [reflexivity|]. split; [intros j Hj; lia | reflexivity].
    + assert (E : f' = snd (get_live_price f symbol exchange)) by (rewrite G; reflexivity).
      destruct (IH f') as [(k & p & Hk & Ak & Before & R) | (All & R)].
      * left. exists (S k), p. split; [lia|]. unfold answer in *. cbn [feed_after].
        rewrite <- E. split; [exact Ak|]. split; [|exact R].
        intros [|j] Hj; [cbn [feed_after]; rewrite G; reflexivity|].
        cbn [feed_after]. rewrite <- E. apply Before. lia.
      * right. split; [|cbn [feed_after]; rewrite <- E; exact R].
        intros [|j] Hj; unfold answer in *; cbn [feed_after].
        -- rewrite G. reflexivity.
        -- rewrite <- E. apply All. lia.
Qed.

(** X12. [get_price_with_retry] asks the feed at most [max_retries] times and
    stops at the first answer that is a price: it returns [p] exactly when
    one of the first [max_retries] answers is [p] and all answers before it
    were [None], and it returns [None] exactly when all of the first
    [max_retries] answers are [None].  With [max_retries = 0] it returns
    [None] without asking. *)
Theorem get_price_with_retry_first_price
    (f : F) (symbol exchange : string) (max_retries : nat) :
  let result := get_price_with_retry f symbol exchange max_retries in
  (forall p, fst result = Some p <->
     exists k, (k < max_retries)%nat /\
       answer k f symbol exchange = Some p /\
       (forall j, (j < k)%nat -> answer j f symbol exchange = None)) /\
  (fst result = None <->
     forall j, (j < max_retries)%nat -> answer j f symbol exchange = None) /\
  (exists calls, (calls <= max_retries)%nat /\
     snd result = feed_after calls f symbol exchange /\
     (fst result = None -> calls = max_retries)) /\
  (max_retries = 0%nat -> result = (None, f)).
Proof.
  cbv zeta. unfold get_price_with_retry.
  destruct (retry_loop_spec max_retries f symbol exchange)
    as [(k & p & Hk & Ak & Before & R) | (All & R)]; rewrite R; cbn [fst snd].
  - split; [|split; [|split]].
    + intros p'. split.
      * intros E. inversion E; subst p'. exists k. auto.
      * intros (k' & Hk' & Ak' & Before').
        destruct (Nat.lt_trichotomy k k') as [L | [E | L]].
        -- rewrite (Before' k L) in Ak. discriminate.
        -- subst k'. congruence.
        -- rewrite (Before k' L) in Ak'. discriminate.
    + split; [discriminate|]. intros All. rewrite (All k Hk) in Ak. discriminate.
    + exists (S k). split; [lia|]. split; [reflexivity | discriminate].
    + intros Z0. lia.
  - split; [|split; [|split]].
    + intros p. split; [discriminate|].
      intros (k & Hk & Ak & _). rewrite (All k Hk) in Ak. discriminate.
    + split; auto.
    + exists max_retries. split; [lia|]. split; reflexivity.
    + intros ->. reflexivity.
Qed.

End Retry.

(** With the answers None, None, 101 the third attempt gives 101; with two
    attempts the result is None. *)
Lemma get_price_with_retry_first_price_witness :
  fst (get_price_with_retry (F := ScriptedFeed) [None; None; Some 101%Q] "X" "NSE" 3)
    = Some 101%Q /\
  fst (get_price_with_retry (F := ScriptedFeed) [None; None; Some 101%Q] "X" "NSE" 2)
    = None.
Proof.
  split.
  - apply (proj1 (get_price_with_retry_first_price (F := ScriptedFeed)
                    [None; None; Some 101%Q] "X" "NSE" 3)).
    exists 2%nat. split; [lia|]. split; [reflexivity|].
    intros [|[|j]] Hj; [reflexivity | reflexivity | lia].
  - apply (proj1 (proj2 (get_price_with_retry_first_price (F := ScriptedFeed)
                           [None; None; Some 101%Q] "X" "NSE" 2))).
    intros [|[|j]] Hj; [reflexivity | reflexivity | lia].
Defined.

(** ** Identifiers *)

Section Identifiers.
Import paper_trading_db.
Local Open Scope N_scope.

Lemma field_eq (u v lo len : N) :
  (u / 2 ^ lo) mod 2 ^ len = (v / 2 ^ lo) mod 2 ^ len <->
  (forall n, n < len -> N.testbit u (lo + n) = N.testbit v (lo + n)).
Proof.
  split.
  - intros E n Hn.
    assert (T : forall w, N.testbit ((w / 2 ^ lo) mod 2 ^ len) n = N.testbit w (lo + n)).
    { intros w. rewrite N.mod_pow2_bits_low by exact Hn.
      rewrite N.div_pow2_bits. f_equal. lia. }
    rewrite <- !T, E. reflexivity.
  - intros B. apply N.bits_inj. intros n.
    destruct (N.lt_ge_cases n len) as [L|G].
    + rewrite !N.mod_pow2_bits_low by exact L.
      rewrite !N.div_pow2_bits. rewrite (N.add_comm n lo). apply B. exact L.
    + rewrite !N.mod_pow2_bits_high by exact G. reflexivity.
Qed.

Lemma hex_value_upper (d : N) : d < 16 -> hex_value (upper_ascii_char (hex_char d)) = d.
Proof.
  intros H.
  assert (C : d = 0 \/ d = 1 \/ d = 2 \/ d = 3 \/ d = 4 \/ d = 5 \/ d = 6 \/ d = 7 \/
              d = 8 \/ d = 9 \/ d = 10 \/ d = 11 \/ d = 12 \/ d = 13 \/ d = 14 \/ d = 15)
    by lia.
  repeat (destruct C as [-> | C]; [reflexivity|]). subst d. reflexivity.
Qed.

Lemma digit_field (i : nat) (u v : N) :
  digit i u = digit i v <->
  (forall n, n < 4 -> N.testbit u (4 * N.of_nat i + n) = N.testbit v (4 * N.of_nat i + n)).
Proof.
  unfold digit. rewrite <- field_eq.
  replace (16 ^ N.of_nat i) with (2 ^ (4 * N.of_nat i))
    by (rewrite N.pow_mul_r; reflexivity).
  reflexivity.
Qed.

Lemma String_inj (a b : ascii) (r s : string) :
  String a r = String b s -> a = b /\ r = s.
Proof. intros E. inversion E. split; reflexivity. Qed.

Lemma order_id_digits (prefix : string) (u v : N) :
  prefix ++ upper_ascii (substring 0 12 (uuid_hex u))
  = prefix ++ upper_ascii (substring 0 12 (uuid_hex v)) <->
  (digit 31 u = digit 31 v /\ digit 30 u = digit 30 v /\ digit 29 u = digit 29 v /\
   digit 28 u = digit 28 v /\ digit 27 u = digit 27 v /\ digit 26 u = digit 26 v /\
   digit 25 u = digit 25 v /\ digit 24 u = digit 24 v /\ digit 23 u = digit 23 v /\
   digit 22 u = digit 22 v /\ digit 21 u = digit 21 v /\ digit 20 u = digit 20 v).
Proof.
  assert (A : forall a b c : string, a ++ b = a ++ c <-> b = c).
  { intros a b c. induction a as [|x r IH]; simpl; [reflexivity|].
    rewrite <- IH. split; [intros E; inversion E; reflexivity | intros ->; reflexivity]. }
  rewrite A. unfold uuid_hex.
  cbn [hex_digits substring upper_ascii].
  assert (D : forall k w, hex_value (upper_ascii_char (hex_char ((w / 16 ^ N.of_nat k) mod 16)))
                          = (w / 16 ^ N.of_nat k) mod 16).
  { intros k w. apply hex_value_upper. apply N.mod_lt. discriminate. }
  unfold digit.
  split.
  - intros E.
    repeat match goal with
    | E : String _ _ = String _ _ |- _ =>
        let Hc := fresh "Hc" in
        apply String_inj in E; destruct E as [Hc E];
        apply (f_equal hex_value) in Hc; rewrite !D in Hc
    end.
    repeat split; assumption.
  - intros (H31 & H30 & H29 & H28 & H27 & H26 & H25 & H24 & H23 & H22 & H21 & H20).
    rewrite H31, H30, H29, H28, H27, H26, H25, H24, H23, H22, H21, H20. reflexivity.
Qed.

Lemma leading_bits (u v : N) :
  (digit 31 u = digit 31 v /\ digit 30 u = digit 30 v /\ digit 29 u = digit 29 v /\
   digit 28 u = digit 28 v /\ digit 27 u = digit 27 v /\ digit 26 u = digit 26 v /\
   digit 25 u = digit 25 v /\ digit 24 u = digit 24 v /\ digit 23 u = digit 23 v /\
   digit 22 u = digit 22 v /\ digit 21 u = digit 21 v /\ digit 20 u = digit 20 v) <->
  (u / 2 ^ 80) mod 2 ^ 48 = (v / 2 ^ 80) mod 2 ^ 48.
Proof.
  rewrite field_eq, !digit_field. split.
  - intros (H31 & H30 & H29 & H28 & H27 & H26 & H25 & H24 & H23 & H22 & H21 & H20) m Hm.
    pose proof (N.div_mod' m 4) as Em. pose proof (N.mod_lt m 4) as Lr.
    assert (Lr' : m mod 4 < 4) by (apply Lr; discriminate).
    set (q := m / 4) in *. set (r := m mod 4) in *.
    assert (C : q = 0 \/ q = 1 \/ q = 2 \/ q = 3 \/ q = 4 \/ q = 5 \/ q = 6 \/ q = 7 \/
                q = 8 \/ q = 9 \/ q = 10 \/ q = 11) by lia.
    destruct C as [C|[C|[C|[C|[C|[C|[C|[C|[C|[C|[C|C]]]]]]]]]]].
    + replace (80 + m) with (4 * N.of_nat 20 + r) by lia. apply H20. exact Lr'.
    + replace (80 + m) with (4 * N.of_nat 21 + r) by lia. apply H21. exact Lr'.
    + replace (80 + m) with (4 * N.of_nat 22 + r) by lia. apply H22. exact Lr'.
    + replace (80 + m) with (4 * N.of_nat 23 + r) by lia. apply H23. exact Lr'.
    + replace (80 + m) with (4 * N.of_nat 24 + r) by lia. apply H24. exact Lr'.
    + replace (80 + m) with (4 * N.of_nat 25 + r) by lia. apply H25. exact Lr'.
    + replace (80 + m) with (4 * N.of_nat 26 + r) by lia. apply H26. exact Lr'.
    + replace (80 + m) with (4 * N.of_nat 27 + r) by lia. apply H27. exact Lr'.
    + replace (80 + m) with (4 * N.of_nat 28 + r) by lia. apply H28. exact Lr'.
    + replace (80 + m) with (4 * N.of_nat 29 + r) by lia. apply H29. exact Lr'.
    + replace (80 + m) with (4 * N.of_nat 30 + r) by lia. apply H30. exact Lr'.
    + replace (80 + m) with (4 * N.of_nat 31 + r) by lia. apply H31. exact Lr'.
  - intros B.
    repeat split; intros n Hn;
      match goal with |- N.testbit _ (4 * N.of_nat ?i + n) = _ =>
        replace (4 * N.of_nat i + n) with (80 + (4 * (N.of_nat i - 20) + n)) by lia;
        apply B; lia
      end.
Qed.

(** X13. An order id is 'PT' and a trade id 'TR' followed by twelve
    upper-case hex digits, fourteen characters in all, so an order id is
    never a trade id.  The id keeps only the 48 leading bits of the 128-bit
    UUID: two UUIDs give the same order id (and the same trade id) exactly
    when their 48 leading bits agree. *)
Theorem generated_ids_keep_48_bits (u v : N) :
  String.length (generate_order_id u) = 14%nat /\
  String.length (generate_trade_id u) = 14%nat /\
  substring 0 2 (generate_order_id u) = "PT" /\
  substring 0 2 (generate_trade_id u) = "TR" /\
  generate_order_id u <> generate_trade_id v /\
  (generate_order_id u = generate_order_id v <->
   (u / 2 ^ 80) mod 2 ^ 48 = (v / 2 ^ 80) mod 2 ^ 48) /\
  (generate_trade_id u = generate_trade_id v <->
   (u / 2 ^ 80) mod 2 ^ 48 = (v / 2 ^ 80) mod 2 ^ 48).
Proof.
  split; [reflexivity|]. split; [reflexivity|].
  split; [reflexivity|]. split; [reflexivity|].
  split; [unfold generate_order_id, generate_trade_id; cbn [append]; discriminate|].
  unfold generate_order_id, generate_trade_id.
  rewrite !order_id_digits, leading_bits. split; reflexivity.
Qed.

End Identifiers.

(** Two UUIDs that differ only in their low 80 bits give the same order id. *)
Lemma generated_ids_keep_48_bits_witness :
  paper_trading_db.generate_order_id 1 = paper_trading_db.generate_order_id (2 ^ 80 - 1).
Proof.
  apply (proj2 (proj1 (proj2 (proj2 (proj2 (proj2 (proj2
           (generated_ids_keep_48_bits 1 (2 ^ 80 - 1))))))))).
  reflexivity.
Defined.

(** ** The facade *)

Section Facade.
Import PaperTradingService.
Context {F : Type} `{MarketDataFeed F}.
Variable str_upper : string -> string.



Lemma query_order_appended (s : Session) (o : PaperOrder) :
  (query_order s (ord_order_id o) = None ->
   query_order (set_orders s (orders s ++ [o])) (ord_order_id o) = Some o) /\
  (forall other, other <> ord_order_id o ->
   query_order (set_orders s (orders s ++ [o])) other = query_order s other).
Proof.
  unfold query_order. cbn [orders set_orders]. split.
  - intros N. apply find_app_last; [exact N|]. unfold order_with_id. apply String.eqb_refl.
  - intros other Hne.
    destruct (find (order_with_id other) (orders s)) as [x|] eqn:Q.
    + apply find_app_first. exact Q.
    + rewrite (find_app_skip _ _ _ Q). cbn [find]. unfold order_with_id.
      apply String.eqb_neq in Hne. rewrite String.eqb_sym, Hne. reflexivity.
Qed.


End Facade.


(** ** Closing a position through the facade *)

Section ClosePosition.
Import PaperTradingService.
Context {F : Type} `{MarketDataFeed F}.
Variable str_upper : string -> string.

Lemma market_order_fill (f : F) (s : Session) (env : Env) (o : PaperOrder) (p : Decimal) :
  ord_price_type o = "MARKET" ->
  fst (get_price_with_retry f (ord_symbol o) (ord_exchange o) default_max_retries) = Some p ->
  snd (process_order f s env o) = _fill_order s env o p (ord_quantity o).
Proof.
  intros M P. unfold process_order. rewrite M. cbn [String.eqb Ascii.eqb Bool.eqb].
  unfold _process_market_order.
  destruct (get_price_with_retry f _ _ _) as [[p'|] f']; cbn [fst snd] in *.
  - inversion P; subst. reflexivity.
  - discriminate.
Qed.

(** [close_position] on an open position is [place_order] of the closing
    order. *)
Lemma close_position_places (f : F) (s : Session) (env : PlaceEnv)
    (user_id symbol exchange product : string) (position : PaperPosition) :
  query_position s user_id symbol exchange product = Some position ->
  pos_quantity position <> 0 ->
  let o := closing_order str_upper env user_id symbol exchange product position in
  let s1 := set_orders s (orders s ++ [o]) in
  close_position str_upper f s env user_id symbol exchange product =
    (fst (process_order f s1 (engine_env env) o),
     session_of (snd (process_order f s1 (engine_env env) o)),
     mkResponse true "success" (Some (ord_order_id o))
                "Paper trading order placed successfully" 200).
Proof.
  intros Q N. cbv zeta. unfold close_position. rewrite Q.
  apply Z.eqb_neq in N. rewrite N.
  unfold place_order. cbn [missing_fields present od_symbol od_exchange od_action
    od_product od_pricetype od_quantity od_price od_trigger_price filter map negb snd fst
    decimal_entry].
  fold (closing_order str_upper env user_id symbol exchange product position).
  destruct (process_order f _ (engine_env env)
              (closing_order str_upper env user_id symbol exchange product position))
    as [f' out].
  reflexivity.
Qed.


(** X16. A success of [close_position] means that the closing order was
    placed, not that the position was closed.  Without a position row (or
    with a row of quantity 0) it answers 404 and touches nothing.  On a short
    position whose cover the account cannot pay at the available price, it
    answers 200 with an order id while the closing BUY is REJECTED for
    insufficient funds: positions, accounts and trades stay as they were. *)
Theorem close_position_reports_placement (f : F) (s : Session) (env : PlaceEnv)
    (user_id symbol exchange product : string) :
  let f' := fst (fst (close_position str_upper f s env user_id symbol exchange product)) in
  let s' := snd (fst (close_position str_upper f s env user_id symbol exchange product)) in
  let response := snd (close_position str_upper f s env user_id symbol exchange product) in
  (query_position s user_id symbol exchange product = None \/
   (exists position,
      query_position s user_id symbol exchange product = Some position /\
      pos_quantity position = 0) ->
     f' = f /\ s' = s /\ resp_success response = false /\ resp_code response = 404%nat) /\
  (forall position price account,
     str_upper "BUY" = "BUY" ->
     query_position s user_id symbol exchange product = Some position ->
     pos_quantity position < 0 ->
     fst (get_price_with_retry f symbol exchange default_max_retries) = Some price ->
     query_account s user_id = Some account ->
     (acc_current_balance account < price * inject_Z (- pos_quantity position))%Q ->
     resp_success response = true /\ resp_code response = 200%nat /\
     resp_orderid response
       = Some (paper_trading_db.generate_order_id (uuid4 env)) /\
     positions s' = positions s /\ accounts s' = accounts s /\ trades s' = trades s /\
     query_position s' user_id symbol exchange product = Some position /\
     (query_order s (paper_trading_db.generate_order_id (uuid4 env)) = None ->
      exists row,
        query_order s' (paper_trading_db.generate_order_id (uuid4 env)) = Some row /\
        ord_status row = "REJECTED" /\
        ord_rejection_reason row = Some "Insufficient funds")).
Proof.
  cbv zeta. split.
  - intros [Q | (position & Q & Zero)]; unfold close_position; rewrite Q.
    + cbn. repeat split.
    + rewrite Zero. cbn. repeat split.
  - intros position price account Up Q Short P Qa Poor.
    rewrite (close_position_places f s env user_id symbol exchange product position Q)
      by lia.
    cbn [fst snd resp_success resp_code resp_orderid].
    set (o := closing_order str_upper env user_id symbol exchange product position).
    set (s1 := set_orders s (orders s ++ [o])).
    assert (Ea : ord_action o = "BUY").
    { unfold o, closing_order. cbn [ord_action].
      destruct (Z.gtb_spec (pos_quantity position) 0); [lia | exact Up]. }
    assert (Eq : ord_quantity o = - pos_quantity position)
      by (unfold o, closing_order; cbn [ord_quantity]; lia).
    rewrite (market_order_fill f s1 (engine_env env) o price eq_refl P).
    assert (U : underfunded s1 o price (ord_quantity o) = true).
    { unfold underfunded, insufficient_funds. rewrite Ea.
      change (query_account s1 (ord_user_id o)) with (query_account s user_id).
      rewrite Qa, Eq. cbn [String.eqb Ascii.eqb Bool.eqb andb].
      apply Dlt_spec. exact Poor. }
    rewrite (fill_order_underfunded _ (engine_env env) _ _ _ U).
    unfold fill_rejected. cbn [session_of].
    split; [reflexivity|]. split; [reflexivity|]. split; [reflexivity|].
    split; [reflexivity|]. split; [reflexivity|]. split; [reflexivity|].
    split; [exact Q|].
    intros Fresh. eexists. split.
    + apply (persist_order_found s1 (mark_rejected o "Insufficient funds") o).
      exact (proj1 (query_order_appended s o) Fresh).
    + split; reflexivity.
Qed.

End ClosePosition.


(** Covering the short position of 10 at the price 100 on a balance of 500
    is answered with success while the position stays. *)
Lemma close_position_reports_placement_witness :
  PaperTradingService.resp_success
    (snd (PaperTradingService.close_position (F := ScriptedFeed) keep_case
            [Some 100%Q] short_session sample_place_env "u1" "TESTSTOCK" "NSE" "MIS"))
    = true /\
  positions
    (snd (fst (PaperTradingService.close_position (F := ScriptedFeed) keep_case
                 [Some 100%Q] short_session sample_place_env "u1" "TESTSTOCK" "NSE" "MIS")))
    = [short_10_at_100].
Proof.
  destruct (proj2 (@close_position_reports_placement ScriptedFeed scripted_feed keep_case
                     [Some 100%Q] short_session sample_place_env
                     "u1" "TESTSTOCK" "NSE" "MIS")
                  short_10_at_100 100%Q (sample_account 500)
                  eq_refl eq_refl eq_refl eq_refl eq_refl eq_refl)
    as (Ok & _ & _ & Pos & _).
  split; [exact Ok | exact Pos].
Defined.

(** ** Cancelling all orders of a user *)

Section CancelAll.
Import PaperTradingService.

Lemma find_pending_of_query (l : list PaperOrder) (i : string) (x : PaperOrder) :
  find (order_with_id i) l = Some x -> ord_status x = "PENDING" ->
  find (pending_with_id i) l = Some x.
Proof.
  intros Q P. induction l as [|y r IH]; simpl in *; [discriminate|].
  unfold pending_with_id at 1. unfold order_with_id at 1 in Q.
  destruct (ord_order_id y =s i).
  - inversion Q; subst y. rewrite P. reflexivity.
  - simpl. apply IH. exact Q.
Qed.

(** One cancellation of the loop: the row of a pending order [x]. *)
Lemma cancel_order_row (s : Session) (env : Env) (x : PaperOrder) :
  NoDup (map ord_order_id (orders s)) ->
  query_order s (ord_order_id x) = Some x ->
  ord_status x = "PENDING" ->
  exists s1,
    OrderMatchingEngine.cancel_order s env (ord_order_id x) = (s1, true) /\
    query_order s1 (ord_order_id x) = Some (mark_cancelled x (utcnow env)) /\
    (forall i, i <> ord_order_id x -> query_order s1 i = query_order s i) /\
    map ord_order_id (orders s1) = map ord_order_id (orders s) /\
    accounts s1 = accounts s /\ positions s1 = positions s /\ trades s1 = trades s.
Proof.
  intros U Q P. unfold OrderMatchingEngine.cancel_order.
  pose proof (find_pending_of_query _ _ _ Q P) as Fp. rewrite Fp.
  eexists. split; [reflexivity|].
  pose proof (cancel_rows (orders s) (ord_order_id x) (utcnow env)
                (proj2 (unique_ids_NoDup _) U)) as R.
  rewrite Fp in R. destruct R as (_ & _ & Rnew & _).
  unfold query_order. cbn [orders set_orders accounts positions trades].
  split; [exact Rnew|]. split; [|split; [|auto]].
  - intros i Hne. apply find_update_first_other; intros y Hy;
      unfold pending_with_id in Hy; apply andb_true_iff in Hy; destruct Hy as [Hy _];
      apply String.eqb_eq in Hy; unfold order_with_id;
      cbn [mark_cancelled ord_order_id]; apply String.eqb_neq; congruence.
  - apply map_update_first. intros y _. reflexivity.
Qed.

Lemma cancel_each_spec (env : nat -> Env) (l : list PaperOrder) :
  forall (s : Session) (k n : nat),
    NoDup (map ord_order_id (orders s)) ->
    NoDup (map ord_order_id l) ->
    (forall x, In x l -> query_order s (ord_order_id x) = Some x /\
                         ord_status x = "PENDING") ->
    let s' := fst (cancel_each s env k l n) in
    snd (cancel_each s env k l n) = (n + List.length l)%nat /\
    map ord_order_id (orders s') = map ord_order_id (orders s) /\
    accounts s' = accounts s /\ positions s' = positions s /\ trades s' = trades s /\
    (forall i, ~ In i (map ord_order_id l) -> query_order s' i = query_order s i) /\
    (forall x, In x l ->
       exists t, query_order s' (ord_order_id x) = Some (mark_cancelled x t)).
Proof.
  induction l as [|x r IH]; intros s k n U Ul Rows; cbv zeta.
  - cbn [cancel_each fst snd List.length]. rewrite Nat.add_0_r.
    repeat split; auto. intros x [].
  - cbn [cancel_each].
    destruct (Rows x (or_introl eq_refl)) as [Qx Px].
    destruct (cancel_order_row s (env k) x U Qx Px)
      as (s1 & E & Qn & Others & Ids & Ea & Ep & Et).
    rewrite E.
    cbn [map] in Ul. inversion Ul as [|? ? NIx Ur]; subst.
    assert (U1 : NoDup (map ord_order_id (orders s1))) by (rewrite Ids; exact U).
    assert (Rows1 : forall y, In y r -> query_order s1 (ord_order_id y) = Some y /\
                                        ord_status y = "PENDING").
    { intros y Iy. destruct (Rows y (or_intror Iy)) as [Qy Py]. split; [|exact Py].
      rewrite Others; [exact Qy|]. intro Eid. apply NIx. rewrite <- Eid.
      apply in_map. exact Iy. }
    specialize (IH s1 (S k) (S n) U1 Ur Rows1). cbv zeta in IH.
    destruct IH as (Cnt & Ids' & Ea' & Ep' & Et' & Keep & Done).
    split; [rewrite Cnt; cbn [List.length]; lia|].
    split; [congruence|]. split; [congruence|]. split; [congruence|].
    split; [congruence|]. split.
    + intros i NI. rewrite Keep.
      * apply Others. intro Eid. apply NI. left. symmetry. exact Eid.
      * intro Ii. apply NI. right. exact Ii.
    + intros y [<- | Iy].
      * exists (utcnow (env k)). rewrite Keep; [exact Qn | exact NIx].
      * apply Done. exact Iy.
Qed.

(** X17. With unique order ids, [cancel_all_orders] always answers 200 and
    afterwards the user has no PENDING order: each of the user's pending
    orders is CANCELLED with a cancel timestamp, and the answer counts all of
    them.  Every other order (of another user, or not pending) is exactly as
    before, no order row is added or removed, and accounts, positions and
    trades are untouched. *)
Theorem cancel_all_orders_leaves_none_pending
    (s : Session) (env : nat -> Env) (user_id : string) :
  unique_order_ids s = true ->
  let s' := fst (cancel_all_orders s env user_id) in
  let response := snd (cancel_all_orders s env user_id) in
  resp_success response = true /\ resp_code response = 200%nat /\
  (forall o, In o (orders s') -> ord_user_id o = user_id -> ord_status o <> "PENDING") /\
  (forall o, In o (orders s) -> pending_of user_id o = true ->
     exists t, query_order s' (ord_order_id o) = Some (mark_cancelled o t)) /\
  (forall o, In o (orders s) -> pending_of user_id o = false ->
     query_order s' (ord_order_id o) = Some o) /\
  map ord_order_id (orders s') = map ord_order_id (orders s) /\
  accounts s' = accounts s /\ positions s' = positions s /\ trades s' = trades s /\
  (filter (pending_of user_id) (orders s) <> [] ->
     resp_message response =
       "Cancelled " ++ str_of_nat (List.length (filter (pending_of user_id) (orders s)))
                    ++ " orders").
Proof.
  intros U. cbv zeta. unfold unique_order_ids in U. apply unique_ids_NoDup in U.
  set (l := filter (pending_of user_id) (orders s)).
  assert (Rows : forall x, In x l -> query_order s (ord_order_id x) = Some x /\
                                     ord_status x = "PENDING").
  { intros x Ix. apply filter_In in Ix. destruct Ix as [Ix Px]. split.
    - apply find_by_unique_id; assumption.
    - unfold pending_of in Px. apply andb_true_iff in Px. apply String.eqb_eq, Px. }
  pose proof (cancel_each_spec env l s 0 0 U (NoDup_ids_filter _ _ U) Rows) as C.
  cbv zeta in C. destruct C as (Cnt & Ids & Ea & Ep & Et & Keep & Done).
  assert (Shape : cancel_all_orders s env user_id =
                  (fst (cancel_each s env 0 l 0),
                   if match l with [] => true | _ => false end
                   then succeeded "No pending orders to cancel"
                   else succeeded ("Cancelled " ++ str_of_nat (List.length l) ++ " orders"))).
  { unfold cancel_all_orders. fold l. destruct l as [|x r] eqn:El; [reflexivity|].
    rewrite <- El in *. rewrite (surjective_pairing (cancel_each s env 0 l 0)).
    rewrite Cnt. rewrite El. reflexivity. }
  rewrite Shape. cbn [fst snd].
  set (s' := fst (cancel_each s env 0 l 0)) in *.
  assert (NotIn : forall o, In o (orders s) -> pending_of user_id o = false ->
                            ~ In (ord_order_id o) (map ord_order_id l)).
  { intros o Io Po Ii. apply in_map_iff in Ii. destruct Ii as (x & Ex & Ix).
    apply filter_In in Ix. destruct Ix as [Ix Px].
    assert (Fx : find (order_with_id (ord_order_id x)) (orders s) = Some x)
      by (apply find_by_unique_id; assumption).
    assert (Fo : find (order_with_id (ord_order_id o)) (orders s) = Some o)
      by (apply find_by_unique_id; assumption).
    rewrite Ex in Fx. rewrite Fx in Fo. inversion Fo; subst x. congruence. }
  split; [destruct l; reflexivity|]. split; [destruct l; reflexivity|].
  split; [|split; [|split; [|split; [exact Ids|split; [exact Ea|split; [exact Ep|split;
    [exact Et|]]]]]]].
  - intros o' Io' Eu.
    assert (U' : NoDup (map ord_order_id (orders s'))) by (rewrite Ids; exact U).
    pose proof (find_by_unique_id _ _ U' Io') as Q'.
    assert (Ii : In (ord_order_id o') (map ord_order_id (orders s)))
      by (rewrite <- Ids; apply in_map; exact Io').
    apply in_map_iff in Ii. destruct Ii as (o & Eid & Io).
    destruct (pending_of user_id o) eqn:Po.
    + assert (Il : In o l) by (apply filter_In; split; assumption).
      destruct (Done o Il) as (t & Qd). unfold query_order in Qd.
      rewrite Eid, Q' in Qd. inversion Qd; subst o'. discriminate.
    + pose proof (Keep (ord_order_id o) (NotIn o Io Po)) as Qk.
      unfold query_order in Qk. rewrite (find_by_unique_id _ _ U Io) in Qk.
      rewrite Eid, Q' in Qk. inversion Qk; subst o'.
      unfold pending_of in Po. rewrite Eu, String.eqb_refl in Po. simpl in Po.
      apply String.eqb_neq. exact Po.
  - intros o Io Po. apply Done. apply filter_In. split; assumption.
  - intros o Io Po. rewrite (Keep _ (NotIn o Io Po)).
    apply find_by_unique_id; assumption.
  - intros Ne. destruct l; [contradiction | reflexivity].
Qed.

End CancelAll.

(** In the crowded book the two pending orders of u1 are cancelled and the
    pending order of u2 stays. *)
Lemma cancel_all_orders_leaves_none_pending_witness :
  PaperTradingService.resp_message
    (snd (PaperTradingService.cancel_all_orders crowded_book pass_env "u1"))
    = "Cancelled 2 orders" /\
  query_order (fst (PaperTradingService.cancel_all_orders crowded_book pass_env "u1")) "PT50"
    = Some other_order.
Proof.
  destruct (cancel_all_orders_leaves_none_pending crowded_book pass_env "u1" eq_refl)
    as (_ & _ & _ & _ & Kept & _ & _ & _ & _ & Msg).
  split.
  - rewrite Msg; [reflexivity | discriminate].
  - apply (Kept other_order); [simpl; auto | reflexivity].
Defined.

(** ** The price in a quotes response *)

Section QuotePrice.
Import Quotes.
Variables Value Float Error : Type.
Variable is_None : Value -> bool.
Variable float : Value -> FloatResult Float Error.
Variable as_dict : Value -> option (list (string * Value)).

Lemma probe_skips (d : list (string * Value)) (fields : list string) :
  (forall g, In g fields -> unusable Value Float Error is_None float d g) ->
  probe Value Float Error is_None float d fields = NotFound.
Proof.
  induction fields as [|g r IH]; intros Un; cbn [probe]; [reflexivity|].
  destruct (Un g (or_introl eq_refl)) as [N | (v & G & [Nn | [Nn Fl]])].
  - rewrite N. apply IH. intros h Ih. apply Un. right. exact Ih.
  - rewrite G, Nn. apply IH. intros h Ih. apply Un. right. exact Ih.
  - rewrite G, Nn, Fl. apply IH. intros h Ih. apply Un. right. exact Ih.
Qed.

Lemma probe_first (d : list (string * Value)) (before after : list string)
    (field : string) (x : Float) :
  (forall g, In g before -> unusable Value Float Error is_None float d g) ->
  usable Value Float Error is_None float d field x ->
  probe Value Float Error is_None float d (before ++ field :: after) = Found x.
Proof.
  intros Un (v & G & Nn & Fl).
  induction before as [|g r IH]; cbn [app probe].
  - rewrite G, Nn, Fl. reflexivity.
  - assert (IH' := IH (fun h Ih => Un h (or_intror Ih))).
    destruct (Un g (or_introl eq_refl)) as [N | (w & Gw & [Nw | [Nw Fw]])].
    + rewrite N. exact IH'.
    + rewrite Gw, Nw. exact IH'.
    + rewrite Gw, Nw, Fw. exact IH'.
Qed.

Lemma probe_raises (d : list (string * Value)) (before after : list string)
    (field : string) (v : Value) (e : Error) :
  (forall g, In g before -> unusable Value Float Error is_None float d g) ->
  get Value d field = Some v -> is_None v = false -> float v = OtherException e ->
  probe Value Float Error is_None float d (before ++ field :: after) = Raised e.
Proof.
  intros Un G Nn Fl.
  induction before as [|g r IH]; cbn [app probe].
  - rewrite G, Nn, Fl. reflexivity.
  - assert (IH' := IH (fun h Ih => Un h (or_intror Ih))).
    destruct (Un g (or_introl eq_refl)) as [N | (w & Gw & [Nw | [Nw Fw]])].
    + rewrite N. exact IH'.
    + rewrite Gw, Nw. exact IH'.
    + rewrite Gw, Nw, Fw. exact IH'.
Qed.

(** X18. [_extract_price_from_quotes] returns the first price field that
    converts, in the order ltp, last_price, lastPrice, last_traded_price,
    close, first among the top-level entries and only if none of them
    converts among the entries of a dict under 'data'.  A field that is
    absent, [None], or refused by [float] with a [ValueError] or [TypeError]
    is skipped, not taken as the end of the search; a top-level price wins
    over anything under 'data'; when nothing converts, or 'data' is absent
    or not a dict, the result is [None].  An exception of [float] other
    than [ValueError] and [TypeError] on the first field that is not skipped
    leaves the method. *)
Theorem extract_price_takes_first_convertible (quotes_data : list (string * Value)) :
  let result :=
    _extract_price_from_quotes Value Float Error is_None float as_dict quotes_data in
  (forall before field after x,
     price_fields = (before ++ field :: after)%list ->
     (forall g, In g before -> unusable Value Float Error is_None float quotes_data g) ->
     usable Value Float Error is_None float quotes_data field x ->
     result = Returned (Some x)) /\
  (forall data inner before field after x,
     (forall g, In g price_fields ->
        unusable Value Float Error is_None float quotes_data g) ->
     get Value quotes_data "data" = Some data -> as_dict data = Some inner ->
     price_fields = (before ++ field :: after)%list ->
     (forall g, In g before -> unusable Value Float Error is_None float inner g) ->
     usable Value Float Error is_None float inner field x ->
     result = Returned (Some x)) /\
  ((forall g, In g price_fields ->
      unusable Value Float Error is_None float quotes_data g) ->
   (get Value quotes_data "data" = None \/
    (exists data, get Value quotes_data "data" = Some data /\ as_dict data = None) \/
    (exists data inner,
       get Value quotes_data "data" = Some data /\ as_dict data = Some inner /\
       forall g, In g price_fields ->
         unusable Value Float Error is_None float inner g)) ->
   result = Returned None) /\
  (forall before field after v e,
     price_fields = (before ++ field :: after)%list ->
     (forall g, In g before -> unusable Value Float Error is_None float quotes_data g) ->
     get Value quotes_data field = Some v -> is_None v = false ->
     float v = OtherException e ->
     result = Propagated e).
Proof.
  cbv zeta. unfold _extract_price_from_quotes. split; [|split; [|split]].
  - intros before field after x E Un Us. rewrite E.
    rewrite (probe_first quotes_data before after field x Un Us). reflexivity.
  - intros data inner before field after x Top D Ad E Un Us.
    rewrite (probe_skips quotes_data price_fields Top), D, Ad, E.
    rewrite (probe_first inner before after field x Un Us). reflexivity.
  - intros Top [D | [(data & D & Ad) | (data & inner & D & Ad & In_)]];
      rewrite (probe_skips quotes_data price_fields Top), D; try reflexivity.
    + rewrite Ad. reflexivity.
    + rewrite Ad, (probe_skips inner price_fields In_). reflexivity.
  - intros before field after v e E Un G Nn Fl. rewrite E.
    rewrite (probe_raises quotes_data before after field v e Un G Nn Fl). reflexivity.
Qed.

End QuotePrice.

(** In the sample response 'ltp' is the text 'N/A' and 'last_price' is None;
    the top-level 'close' of 99 is returned, not the 101 under 'data'. *)
Lemma extract_price_takes_first_convertible_witness :
  Quotes._extract_price_from_quotes SampleValue Q unit sample_is_None sample_float
    sample_as_dict sample_quotes = Quotes.Returned (Some 99%Q).
Proof.
  apply (proj1 (extract_price_takes_first_convertible SampleValue Q unit sample_is_None
                  sample_float sample_as_dict sample_quotes)
               ["ltp"; "last_price"; "lastPrice"; "last_traded_price"] "close" [] 99%Q
               eq_refl).
  - intros g [<- | [<- | [<- | [<- | []]]]].
    + right. exists (SText "N/A"). split; [reflexivity|]. right. split; reflexivity.
    + right. exists SNone. split; [reflexivity|]. left. reflexivity.
    + left. reflexivity.
    + left. reflexivity.
  - exists (SFloat 99). repeat split.
Defined.

(** ** The reported mode and the mode of a new service *)

Section ReportedMode.
Import TradingServiceFactory.

(** X19. For a user without cached service and service modules that import:
    when the configured mode is valid, [get_trading_service] builds a service
    of the class that [is_paper_trading_mode] and [get_current_mode] report;
    when it is not valid, the two report live mode while [get_trading_service]
    raises [ValueError] and builds nothing. *)
Theorem reported_mode_and_new_service
    (instances : Instances) (env : FactoryEnv) (user_id broker : string) :
  lookup (cache_key user_id broker) instances = None ->
  (forall c, import_error env c = None) ->
  (forall service,
     fst (get_trading_service instances env user_id broker) = Return service ->
     (svc_class service = PaperTradingService <->
      is_paper_trading_mode (OPENALGO_TRADING_MODE env) = true) /\
     (svc_class service = LiveBrokerService <->
      is_live_trading_mode (OPENALGO_TRADING_MODE env) = true) /\
     svc_user_id service = user_id /\ svc_broker service = broker) /\
  (forall message,
     _get_trading_mode (OPENALGO_TRADING_MODE env) = ValueError message ->
     get_current_mode (OPENALGO_TRADING_MODE env) = "live" /\
     is_live_trading_mode (OPENALGO_TRADING_MODE env) = true /\
     get_trading_service instances env user_id broker
       = (Raise (ExcValueError message), instances)).
Proof.
  intros L Imp.
  unfold get_trading_service, is_paper_trading_mode, is_live_trading_mode,
    get_current_mode. rewrite L.
  unfold _create_paper_trading_service, _create_live_broker_service. rewrite !Imp.
  unfold _get_trading_mode.
  set (mode := strip (lower (getenv (OPENALGO_TRADING_MODE env) "live"))).
  destruct (String.eqb_spec mode "live") as [El|Nl].
  - rewrite El. cbn. split; [|discriminate].
    intros service E. inversion E; subst service. cbn.
    repeat split; try reflexivity; discriminate.
  - destruct (String.eqb_spec mode "paper") as [Ep|Np].
    + rewrite Ep. cbn. split; [|discriminate].
      intros service E. inversion E; subst service. cbn.
      repeat split; try reflexivity; discriminate.
    + cbn. split; [discriminate|].
      intros message E. inversion E; subst message. repeat split.
Qed.

End ReportedMode.

(** With the value 'demo' the mode is reported as live while no service can
    be built. *)
Lemma reported_mode_and_new_service_witness :
  TradingServiceFactory.is_live_trading_mode (Some "demo") = true /\
  fst (TradingServiceFactory.get_trading_service []
         (TradingServiceFactory.mkFactoryEnv (Some "demo") imports_fine) "alice" "zerodha")
    = TradingServiceFactory.Raise
        (TradingServiceFactory.ExcValueError
           "Invalid OPENALGO_TRADING_MODE: 'demo'. Must be 'live' or 'paper'").
Proof.
  destruct (proj2 (reported_mode_and_new_service []
                     (TradingServiceFactory.mkFactoryEnv (Some "demo") imports_fine)
                     "alice" "zerodha" eq_refl (fun _ => eq_refl))
                  "Invalid OPENALGO_TRADING_MODE: 'demo'. Must be 'live' or 'paper'"
                  eq_refl) as (_ & Live & Raised).
  split; [exact Live|]. rewrite Raised. reflexivity.
Defined.

(** ** What a fill leaves alone *)

Lemma find_delete_first_other {A : Type} (sel sel' : A -> bool) (l : list A) :
  (forall x, sel x = true -> sel' x = false) ->
  find sel' (delete_first sel l) = find sel' l.
Proof.
  intros D. induction l as [|x r IH]; simpl; [reflexivity|].
  destruct (sel x) eqn:E; simpl.
  - rewrite (D x E). reflexivity.
  - rewrite IH. reflexivity.
Qed.

Lemma position_of_disjoint (u s e p u' s' e' p' : string) (x : PaperPosition) :
  (u', s', e', p') <> (u, s, e, p) ->
  position_of u s e p x = true -> position_of u' s' e' p' x = false.
Proof.
  intros Ne. unfold position_of. rewrite !andb_true_iff, !String.eqb_eq.
  intros [[[Eu Es] Ee] Ep].
  destruct (pos_user_id x =s u') eqn:Du; [|reflexivity].
  destruct (pos_symbol x =s s') eqn:Ds; [|reflexivity].
  destruct (pos_exchange x =s e') eqn:De; [|reflexivity].
  destruct (pos_product x =s p') eqn:Dp; [|reflexivity].
  apply String.eqb_eq in Du, Ds, De, Dp. exfalso. apply Ne. congruence.
Qed.

(** X20. A fill of an order touches one position key and one account.  The
    position row of every other (user, symbol, exchange, product) key and the
    account of every other user are as before, the number of position rows
    changes by at most one, the trades present before are kept in place, and
    the order table keeps its rows with only the order's own row rewritten. *)
Theorem fill_order_touches_own_rows_only
    (s : Session) (env : Env) (order : PaperOrder) (fill_price : Decimal)
    (fill_quantity : Z) :
  let s' := session_of (_fill_order s env order fill_price fill_quantity) in
  (forall user_id symbol exchange product,
     (user_id, symbol, exchange, product)
       <> (ord_user_id order, ord_symbol order, ord_exchange order, ord_product order) ->
     query_position s' user_id symbol exchange product
       = query_position s user_id symbol exchange product) /\
  (forall user_id, user_id <> ord_user_id order ->
     query_account s' user_id = query_account s user_id) /\
  (List.length (positions s) <= S (List.length (positions s')) /\
   List.length (positions s') <= S (List.length (positions s)))%nat /\
  List.length (accounts s') = List.length (accounts s) /\
  (exists added, trades s' = (trades s ++ added)%list /\ (List.length added <= 1)%nat) /\
  map ord_order_id (orders s') = map ord_order_id (orders s) /\
  (forall other, other <> ord_order_id order ->
     query_order s' other = query_order s other).
Proof.
  cbv zeta. destruct (underfunded s order fill_price fill_quantity) eqn:U.
  - rewrite (fill_order_underfunded _ env _ _ _ U). unfold fill_rejected.
    cbn [session_of].
    split; [reflexivity|]. split; [reflexivity|].
    split; [cbn; lia|]. split; [reflexivity|].
    split; [exists []; rewrite app_nil_r; split; [reflexivity | simpl; lia]|].
    split; [apply persist_order_ids|].
    intros other Hne. apply persist_order_other. exact Hne.
  - destruct (fill_order_funded s env order fill_price fill_quantity U)
      as (_ & _ & Ht & Ha & Hp & Ho).
    split; [|split; [|split; [|split; [|split; [|split]]]]].
    + intros u sy ex pr Ne. unfold query_position. rewrite Hp.
      unfold _update_position.
      pose proof (fun x => position_of_disjoint (ord_user_id order) (ord_symbol order)
                             (ord_exchange order) (ord_product order) u sy ex pr x Ne) as D.
      destruct (find _ (positions s)) as [pos|] eqn:Fp.
      * destruct (_ =? 0); cbn [positions set_positions].
        -- apply find_delete_first_other. exact D.
        -- apply find_update_first_other; [exact D|].
           intros x Hx. exact (D x Hx).
      * destruct (negb _); [|reflexivity]. cbn [positions set_positions].
        destruct (find (position_of u sy ex pr) (positions s)) as [y|] eqn:Fy.
        -- apply find_app_first. exact Fy.
        -- rewrite (find_app_skip _ _ _ Fy). cbn [find].
           rewrite D; [reflexivity|].
           unfold position_of. cbn. rewrite !String.eqb_refl. reflexivity.
    + intros u Hne. rewrite fill_order_query_account, U.
      destruct (String.eqb_spec u (ord_user_id order)); [contradiction | reflexivity].
    + rewrite Hp. unfold _update_position.
      destruct (find _ (positions s)) as [pos|] eqn:Fp.
      * destruct (_ =? 0); cbn [positions set_positions].
        -- pose proof (filter_delete_first _ _ pos Fp) as C.
           assert (L : S (List.length (delete_first
                       (position_of (ord_user_id order) (ord_symbol order)
                          (ord_exchange order) (ord_product order)) (positions s)))
                       = List.length (positions s)).
           { clear - Fp. induction (positions s) as [|x r IH]; simpl in *; [discriminate|].
             destruct (position_of _ _ _ _ x); [reflexivity|].
             simpl. rewrite (IH Fp). reflexivity. }
           lia.
        -- rewrite length_update_first. lia.
      * destruct (negb _); cbn [positions set_positions];
          [rewrite length_app; simpl; lia | lia].
    + rewrite Ha. unfold _update_account_balance.
      destruct (find _ (accounts s)); [|reflexivity].
      destruct (_ =s _); cbn [accounts set_accounts]; apply length_update_first.
    + eexists. split; [exact Ht | simpl; lia].
    + rewrite Ho. apply persist_order_ids.
    + intros other Hne. unfold query_order at 1. rewrite Ho.
      apply (persist_order_other s (mark_filled order fill_quantity fill_price (utcnow env))).
      exact Hne.
Qed.

(** The BUY fill on TESTSTOCK leaves the account of u2 in the shared session. *)
Lemma fill_order_touches_own_rows_only_witness :
  query_account (session_of (_fill_order shared_session sample_env open_buy 100 10)) "u2"
    = Some other_account.
Proof.
  rewrite (proj1 (proj2 (fill_order_touches_own_rows_only shared_session sample_env
                           open_buy 100%Q 10)) "u2"); [reflexivity | discriminate].
Defined.
